(** * DRISHYA: the hardware connection controller and the obstacle classifier

    A shallow embedding of [EnhancedHardwareIntegration] (the connection
    resilience and fallback controller) and of the obstacle classifier it
    shares with [HardwareIntegrationService].

    The JavaScript object is a record [Ctl]; its methods are computations
    in a state-and-exception monad [M].  What the object does to the world
    around it is kept in the record as well: the timers the runtime holds
    for it ([timers]), the clock ([clock]), the console ([console]) and the
    sequence of notifications, transport calls and sleeps ([trace]).
    Whatever the source draws from outside (the platform, the outcome of a
    connection attempt, the random distances, the subscribers) is an
    argument of the function that uses it. *)

From Stdlib Require Import List String Ascii ZArith QArith Qminmax Bool Arith Lia.
From Stdlib Require Import DecimalString Lqa.
Import ListNotations.

Local Close Scope Q_scope.
Local Open Scope string_scope.
Local Open Scope list_scope.

(** ** Constants *)

Definition MAX_RETRY_ATTEMPTS : nat := 3.
Definition RETRY_DELAY_BASE : Z := 2000.
Definition CONNECTION_TIMEOUT : Z := 15000.
Definition HEALTH_CHECK_INTERVAL : Z := 5000.
Definition RECONNECT_DELAY : Z := 3000.

(** The period of the sampling interval, written [100] in
    [startDistanceMonitoring]; the latencies of the simulated transport,
    written [2000] in [performScan] and [1000] in [establishConnection]; the
    capacity of the error log, written [50] in [handleError]. *)
Definition SAMPLING_PERIOD : Z := 100.
Definition SCAN_LATENCY : Z := 2000.
Definition ESTABLISH_LATENCY : Z := 1000.
Definition ERROR_LOG_CAPACITY : nat := 50.

Inductive ConnectionState :=
| DISCONNECTED | CONNECTING | CONNECTED | RECONNECTING | FAILED | FALLBACK.

Inductive ErrorType :=
| BLUETOOTH_UNAVAILABLE | DEVICE_NOT_FOUND | CONNECTION_FAILED
| CONNECTION_LOST | TIMEOUT | PERMISSION_DENIED.

Definition ConnectionState_eqb (a b : ConnectionState) : bool :=
  match a, b with
  | DISCONNECTED, DISCONNECTED | CONNECTING, CONNECTING
  | CONNECTED, CONNECTED | RECONNECTING, RECONNECTING
  | FAILED, FAILED | FALLBACK, FALLBACK => true
  | _, _ => false
  end.

(** The strings of [ERROR_TYPES]. *)
Definition errorTypeName (t : ErrorType) : string :=
  match t with
  | BLUETOOTH_UNAVAILABLE => "bluetooth_unavailable"
  | DEVICE_NOT_FOUND => "device_not_found"
  | CONNECTION_FAILED => "connection_failed"
  | CONNECTION_LOST => "connection_lost"
  | TIMEOUT => "timeout"
  | PERMISSION_DENIED => "permission_denied"
  end.

(** ** Data *)

(** [this.device]: [{ id, name }]. *)
Record Device := { dev_id : string; dev_name : string }.

(** What [performScan] resolves with. *)
Record ScannedDevice := {
  sd_id : string; sd_name : string; sd_rssi : Z; sd_batteryLevel : Z
}.

Inductive Source := drishtika_hardware | phone_lidar | camera_depth_estimation.

Inductive Severity := CRITICAL | DANGER | WARNING | SAFE.

(** The keys of the [distances] object of [getClosestDirection]. *)
Inductive Direction := Front | Left | Right.

(** A distance sample.  A component is a finite number or [null]; the
    initial [distanceData] has neither [timestamp] nor [source]. *)
Module Dist.
Record t := mk {
  front : option Q;
  left : option Q;
  right : option Q;
  timestamp : option Z;
  source : option Source
}.
End Dist.

Record ErrorRecord := {
  err_type : ErrorType;
  err_message : string;
  err_timestamp : Z;
  err_state : ConnectionState
}.

(** The argument a subscriber is called with. *)
Inductive Payload :=
| PState (s : ConnectionState)
| PDevice (d : Device)
| PEmpty
| PFallback (reason : string) (phoneLidar : bool)
| PDistance (d : Dist.t)
| PObstacle (level : Severity) (distance : Q) (direction : Direction)
            (src : option Source)
| PError (e : ErrorRecord).

(** A subscriber either returns ([None]) or throws an error with a message
    ([Some msg]).  What else it does is outside the controller. *)
Definition Callback := Payload -> option string.

Inductive TimerKind := TSampling | THealth | TReconnect.

(** A timer held by the runtime: [setInterval] for the first two kinds,
    [setTimeout] for the third. *)
Record Timer := { tid : nat; tkind : TimerKind; tdelay : Z }.

Inductive LogLevel := LInfo | LError.

Inductive Obs :=
| Notify (event : string) (p : Payload)
| Establish (deviceId : string)
| PerformScan
| Sleep (ms : Z).

(** ** The controller *)

Record Ctl := mkCtl {
  connectionState : ConnectionState;
  device : option Device;
  retryCount : nat;
  healthCheckTimer : option nat;
  reconnectTimer : option nat;
  monitoringInterval : option nat;
  lastDataTimestamp : option Z;
  distanceData : Dist.t;
  listeners : list (string * Callback);
  errorLog : list ErrorRecord;
  fallbackMode : bool;
  phoneHasLidar : bool;
  (* the world around the object *)
  timers : list Timer;
  nextTimerId : nat;
  clock : Z;
  trace : list Obs;
  console : list (LogLevel * string)
}.

(** [constructor()], on a runtime that holds no timer; timer identifiers
    are positive, hence truthy. *)
Definition newController (now : Z) : Ctl := {|
  connectionState := DISCONNECTED;
  device := None;
  retryCount := 0;
  healthCheckTimer := None;
  reconnectTimer := None;
  monitoringInterval := None;
  lastDataTimestamp := None;
  distanceData := Dist.mk None None None None None;
  listeners := [];
  errorLog := [];
  fallbackMode := false;
  phoneHasLidar := false;
  timers := [];
  nextTimerId := 1;
  clock := now;
  trace := [];
  console := []
|}.

Definition set_connectionState v c :=
  mkCtl v (device c) (retryCount c) (healthCheckTimer c) (reconnectTimer c)
    (monitoringInterval c) (lastDataTimestamp c) (distanceData c) (listeners c)
    (errorLog c) (fallbackMode c) (phoneHasLidar c) (timers c) (nextTimerId c)
    (clock c) (trace c) (console c).
Definition set_device v c :=
  mkCtl (connectionState c) v (retryCount c) (healthCheckTimer c) (reconnectTimer c)
    (monitoringInterval c) (lastDataTimestamp c) (distanceData c) (listeners c)
    (errorLog c) (fallbackMode c) (phoneHasLidar c) (timers c) (nextTimerId c)
    (clock c) (trace c) (console c).
Definition set_retryCount v c :=
  mkCtl (connectionState c) (device c) v (healthCheckTimer c) (reconnectTimer c)
    (monitoringInterval c) (lastDataTimestamp c) (distanceData c) (listeners c)
    (errorLog c) (fallbackMode c) (phoneHasLidar c) (timers c) (nextTimerId c)
    (clock c) (trace c) (console c).
Definition set_healthCheckTimer v c :=
  mkCtl (connectionState c) (device c) (retryCount c) v (reconnectTimer c)
    (monitoringInterval c) (lastDataTimestamp c) (distanceData c) (listeners c)
    (errorLog c) (fallbackMode c) (phoneHasLidar c) (timers c) (nextTimerId c)
    (clock c) (trace c) (console c).
Definition set_reconnectTimer v c :=
  mkCtl (connectionState c) (device c) (retryCount c) (healthCheckTimer c) v
    (monitoringInterval c) (lastDataTimestamp c) (distanceData c) (listeners c)
    (errorLog c) (fallbackMode c) (phoneHasLidar c) (timers c) (nextTimerId c)
    (clock c) (trace c) (console c).
Definition set_monitoringInterval v c :=
  mkCtl (connectionState c) (device c) (retryCount c) (healthCheckTimer c)
    (reconnectTimer c) v (lastDataTimestamp c) (distanceData c) (listeners c)
    (errorLog c) (fallbackMode c) (phoneHasLidar c) (timers c) (nextTimerId c)
    (clock c) (trace c) (console c).
Definition set_lastDataTimestamp v c :=
  mkCtl (connectionState c) (device c) (retryCount c) (healthCheckTimer c)
    (reconnectTimer c) (monitoringInterval c) v (distanceData c) (listeners c)
    (errorLog c) (fallbackMode c) (phoneHasLidar c) (timers c) (nextTimerId c)
    (clock c) (trace c) (console c).
Definition set_distanceData v c :=
  mkCtl (connectionState c) (device c) (retryCount c) (healthCheckTimer c)
    (reconnectTimer c) (monitoringInterval c) (lastDataTimestamp c) v (listeners c)
    (errorLog c) (fallbackMode c) (phoneHasLidar c) (timers c) (nextTimerId c)
    (clock c) (trace c) (console c).
Definition set_listeners v c :=
  mkCtl (connectionState c) (device c) (retryCount c) (healthCheckTimer c)
    (reconnectTimer c) (monitoringInterval c) (lastDataTimestamp c) (distanceData c) v
    (errorLog c) (fallbackMode c) (phoneHasLidar c) (timers c) (nextTimerId c)
    (clock c) (trace c) (console c).
Definition set_errorLog v c :=
  mkCtl (connectionState c) (device c) (retryCount c) (healthCheckTimer c)
    (reconnectTimer c) (monitoringInterval c) (lastDataTimestamp c) (distanceData c)
    (listeners c) v (fallbackMode c) (phoneHasLidar c) (timers c) (nextTimerId c)
    (clock c) (trace c) (console c).
Definition set_fallbackMode v c :=
  mkCtl (connectionState c) (device c) (retryCount c) (healthCheckTimer c)
    (reconnectTimer c) (monitoringInterval c) (lastDataTimestamp c) (distanceData c)
    (listeners c) (errorLog c) v (phoneHasLidar c) (timers c) (nextTimerId c)
    (clock c) (trace c) (console c).
Definition set_phoneHasLidar v c :=
  mkCtl (connectionState c) (device c) (retryCount c) (healthCheckTimer c)
    (reconnectTimer c) (monitoringInterval c) (lastDataTimestamp c) (distanceData c)
    (listeners c) (errorLog c) (fallbackMode c) v (timers c) (nextTimerId c)
    (clock c) (trace c) (console c).
Definition set_timers v c :=
  mkCtl (connectionState c) (device c) (retryCount c) (healthCheckTimer c)
    (reconnectTimer c) (monitoringInterval c) (lastDataTimestamp c) (distanceData c)
    (listeners c) (errorLog c) (fallbackMode c) (phoneHasLidar c) v (nextTimerId c)
    (clock c) (trace c) (console c).
Definition set_nextTimerId v c :=
  mkCtl (connectionState c) (device c) (retryCount c) (healthCheckTimer c)
    (reconnectTimer c) (monitoringInterval c) (lastDataTimestamp c) (distanceData c)
    (listeners c) (errorLog c) (fallbackMode c) (phoneHasLidar c) (timers c) v
    (clock c) (trace c) (console c).
Definition set_clock v c :=
  mkCtl (connectionState c) (device c) (retryCount c) (healthCheckTimer c)
    (reconnectTimer c) (monitoringInterval c) (lastDataTimestamp c) (distanceData c)
    (listeners c) (errorLog c) (fallbackMode c) (phoneHasLidar c) (timers c)
    (nextTimerId c) v (trace c) (console c).
Definition set_trace v c :=
  mkCtl (connectionState c) (device c) (retryCount c) (healthCheckTimer c)
    (reconnectTimer c) (monitoringInterval c) (lastDataTimestamp c) (distanceData c)
    (listeners c) (errorLog c) (fallbackMode c) (phoneHasLidar c) (timers c)
    (nextTimerId c) (clock c) v (console c).
Definition set_console v c :=
  mkCtl (connectionState c) (device c) (retryCount c) (healthCheckTimer c)
    (reconnectTimer c) (monitoringInterval c) (lastDataTimestamp c) (distanceData c)
    (listeners c) (errorLog c) (fallbackMode c) (phoneHasLidar c) (timers c)
    (nextTimerId c) (clock c) (trace c) v.

Arguments set_connectionState v c /.
Arguments set_device v c /.
Arguments set_retryCount v c /.
Arguments set_healthCheckTimer v c /.
Arguments set_reconnectTimer v c /.
Arguments set_monitoringInterval v c /.
Arguments set_lastDataTimestamp v c /.
Arguments set_distanceData v c /.
Arguments set_listeners v c /.
Arguments set_errorLog v c /.
Arguments set_fallbackMode v c /.
Arguments set_phoneHasLidar v c /.
Arguments set_timers v c /.
Arguments set_nextTimerId v c /.
Arguments set_clock v c /.
Arguments set_trace v c /.
Arguments set_console v c /.

(** ** The monad: state that survives a thrown exception *)

Inductive Res (A : Type) :=
| Ok (a : A)
| Throw (message : string).
Arguments Ok {A} a.
Arguments Throw {A} message.

Definition M (A : Type) := Ctl -> Ctl * Res A.

Definition ret {A} (a : A) : M A := fun c => (c, Ok a).
Definition throw {A} (message : string) : M A := fun c => (c, Throw message).
Definition bind {A B} (m : M A) (k : A -> M B) : M B :=
  fun c => match m c with
           | (c1, Ok a) => k a c1
           | (c1, Throw e) => (c1, Throw e)
           end.
(** [try { m } catch (error) { handler(error.message) }] *)
Definition try_catch {A} (m : M A) (handler : string -> M A) : M A :=
  fun c => match m c with
           | (c1, Ok a) => (c1, Ok a)
           | (c1, Throw e) => handler e c1
           end.
Definition get {A} (f : Ctl -> A) : M A := fun c => (c, Ok (f c)).
Definition modify (f : Ctl -> Ctl) : M unit := fun c => (f c, Ok tt).

Arguments ret {A} a c /.
Arguments throw {A} message c /.
Arguments bind {A B} m k c /.
Arguments try_catch {A} m handler c /.
Arguments get {A} f c /.
Arguments modify f c /.

Definition exec {A} (m : M A) (c : Ctl) : Ctl := fst (m c).
Definition result {A} (m : M A) (c : Ctl) : Res A := snd (m c).

Declare Scope ctl_scope.
Delimit Scope ctl_scope with ctl.
Notation "x <- m ;; k" := (bind m (fun x => k))
  (at level 61, m at next level, right associativity) : ctl_scope.
Notation "m ;; k" := (bind m (fun _ => k))
  (at level 61, right associativity) : ctl_scope.
Local Open Scope ctl_scope.

(** ** Console, clock, trace, timers *)

Definition string_of_nat (n : nat) : string := NilEmpty.string_of_uint (Nat.to_uint n).
Definition string_of_Z (z : Z) : string := NilEmpty.string_of_int (Z.to_int z).

Definition logInfo (text : string) : M unit :=
  modify (fun c => set_console (console c ++ [(LInfo, text)]) c).
Definition logError (text : string) : M unit :=
  modify (fun c => set_console (console c ++ [(LError, text)]) c).

Definition observe (o : Obs) : M unit :=
  modify (fun c => set_trace (trace c ++ [o]) c).

(** Time that passes while the caller awaits. *)
Definition elapse (ms : Z) : M unit :=
  modify (fun c => set_clock (clock c + ms)%Z c).

(** [sleep(ms)] *)
Definition sleep (ms : Z) : M unit :=
  observe (Sleep ms) ;; elapse ms.

(** [setInterval] / [setTimeout]: a fresh identifier, a new live timer. *)
Definition setTimer (k : TimerKind) (delay : Z) : M nat :=
  fun c =>
    let id := nextTimerId c in
    (set_nextTimerId (S id)
       (set_timers (timers c ++ [{| tid := id; tkind := k; tdelay := delay |}]) c),
     Ok id).

(** [clearInterval] / [clearTimeout] *)
Definition clearTimer (id : nat) : M unit :=
  modify (fun c => set_timers (filter (fun t => negb (Nat.eqb (tid t) id)) (timers c)) c).

(** ** Subscribers: [this.listeners], a [Map] from event name to callback *)

Fixpoint map_get (k : string) (m : list (string * Callback)) : option Callback :=
  match m with
  | [] => None
  | (k', v) :: m' => if String.eqb k k' then Some v else map_get k m'
  end.

Fixpoint map_set (k : string) (v : Callback) (m : list (string * Callback))
  : list (string * Callback) :=
  match m with
  | [] => [(k, v)]
  | (k', v') :: m' =>
      if String.eqb k k' then (k, v) :: m' else (k', v') :: map_set k v m'
  end.

Definition onDistanceUpdate (callback : Callback) : M unit :=
  modify (fun c => set_listeners (map_set "distance" callback (listeners c)) c).
Definition onObstacleDetected (callback : Callback) : M unit :=
  modify (fun c => set_listeners (map_set "obstacle" callback (listeners c)) c).
Definition onStateChange (callback : Callback) : M unit :=
  modify (fun c => set_listeners (map_set "stateChange" callback (listeners c)) c).
Definition onError (callback : Callback) : M unit :=
  modify (fun c => set_listeners (map_set "error" callback (listeners c)) c).
Definition onFallbackActivated (callback : Callback) : M unit :=
  modify (fun c => set_listeners (map_set "fallbackActivated" callback (listeners c)) c).

(** [callback(data)]: the call itself, which may throw. *)
Definition invoke (callback : Callback) (data : Payload) : M unit :=
  fun c => (c, match callback data with
               | None => Ok tt
               | Some message => Throw message
               end).

Definition notifyListeners (event : string) (data : Payload) : M unit :=
  observe (Notify event data) ;;
  callback <- get (fun c => map_get event (listeners c)) ;;
  match callback with
  | Some callback =>
      try_catch (invoke callback data)
                (fun message => logError ("Listener error: " ++ message))
  | None => ret tt
  end.

(** ** The error log *)

(** [Array.prototype.shift] *)
Definition shift {A} (l : list A) : list A := tl l.

Definition handleError (errorType : ErrorType) (message : string) : M unit :=
  error <- get (fun c => {| err_type := errorType; err_message := message;
                            err_timestamp := clock c;
                            err_state := connectionState c |}) ;;
  modify (fun c => set_errorLog (errorLog c ++ [error]) c) ;;
  len <- get (fun c => List.length (errorLog c)) ;;
  (if Nat.ltb ERROR_LOG_CAPACITY len
   then modify (fun c => set_errorLog (shift (errorLog c)) c)
   else ret tt) ;;
  notifyListeners "error" (PError error) ;;
  logError ("[" ++ errorTypeName errorType ++ "] " ++ message).

Definition getErrorLog (c : Ctl) : list ErrorRecord := errorLog c.

Definition clearErrorLog : M unit := modify (set_errorLog []).

(** ** The obstacle classifier *)

(** [ToNumber] of a component that is a number or [null]: [null] counts as
    [0] in [Math.min] and in [<].  [None] is [null], as the constructor
    writes it; it is not a component that is absent from the object, which
    would be [undefined] and make [Math.min] answer [NaN]. *)
Definition toNumber (x : option Q) : Q :=
  match x with
  | Some q => q
  | None => 0%Q
  end.

(** [x < y] on numbers *)
Definition Qltb (x y : Q) : bool :=
  match (x ?= y)%Q with
  | Lt => true
  | _ => false
  end.

(** [Math.min(a, b, c)] *)
Definition Math_min (a b c : Q) : Q := Qmin (Qmin a b) c.

Definition minDistance (data : Dist.t) : Q :=
  Math_min (toNumber (Dist.front data)) (toNumber (Dist.left data))
           (toNumber (Dist.right data)).

Definition analyzeDistanceData (data : Dist.t) : Severity :=
  if Qltb (minDistance data) (1 # 2) then CRITICAL
  else if Qltb (minDistance data) 1 then DANGER
  else if Qltb (minDistance data) 2 then WARNING
  else SAFE.

Definition distances (data : Dist.t) (key : Direction) : option Q :=
  match key with
  | Front => Dist.front data
  | Left => Dist.left data
  | Right => Dist.right data
  end.

(** [Object.keys(distances)]: the keys in the order they were written. *)
Definition keys : list Direction := [Front; Left; Right].

(** [Array.prototype.reduce] without an initial value: the first element
    starts the fold.  [dflt] stands for the [TypeError] of an empty array,
    which [keys] is not. *)
Definition reduce {A} (f : A -> A -> A) (l : list A) (dflt : A) : A :=
  match l with
  | [] => dflt
  | x :: xs => fold_left f xs x
  end.

Definition getClosestDirection (data : Dist.t) : Direction :=
  reduce (fun a b =>
            if Qltb (toNumber (distances data a)) (toNumber (distances data b))
            then a else b)
         keys Front.

(** [HardwareIntegrationService], the earlier service: the same classifier
    with its thresholds in a table. *)
Module Legacy.
Definition DISTANCE_THRESHOLDS_CRITICAL : Q := 1 # 2.
Definition DISTANCE_THRESHOLDS_DANGER : Q := 1.
Definition DISTANCE_THRESHOLDS_WARNING : Q := 2.
Definition DISTANCE_THRESHOLDS_SAFE : Q := 3.

Definition analyzeDistanceData (data : Dist.t) : Severity :=
  if Qltb (minDistance data) DISTANCE_THRESHOLDS_CRITICAL then CRITICAL
  else if Qltb (minDistance data) DISTANCE_THRESHOLDS_DANGER then DANGER
  else if Qltb (minDistance data) DISTANCE_THRESHOLDS_WARNING then WARNING
  else SAFE.

Definition getClosestDirection (data : Dist.t) : Direction :=
  reduce (fun a b =>
            if Qltb (toNumber (distances data a)) (toNumber (distances data b))
            then a else b)
         keys Front.
End Legacy.

Definition isSafe (l : Severity) : bool :=
  match l with
  | SAFE => true
  | _ => false
  end.

Definition updateDistanceData (data : Dist.t) : M unit :=
  modify (set_distanceData data) ;;
  let obstacleLevel := analyzeDistanceData data in
  notifyListeners "distance" (PDistance data) ;;
  if negb (isSafe obstacleLevel)
  then notifyListeners "obstacle"
         (PObstacle obstacleLevel (minDistance data) (getClosestDirection data)
                    (Dist.source data))
  else ret tt.

(** The three products [Math.random() * 3.0] are the arguments. *)
Definition simulateDistanceReading (f l r : Q) : M unit :=
  now <- get clock ;;
  updateDistanceData (Dist.mk (Some f) (Some l) (Some r) (Some now)
                              (Some drishtika_hardware)).

Definition simulateFallbackDistanceData (f l r : Q) : M unit :=
  now <- get clock ;;
  lidar <- get phoneHasLidar ;;
  updateDistanceData (Dist.mk (Some f) (Some l) (Some r) (Some now)
                        (Some (if lidar then phone_lidar else camera_depth_estimation))).

(** ** Timers of the controller *)

(** The body of the sampling interval. *)
Definition monitoringTick (f l r : Q) : M unit :=
  fb <- get fallbackMode ;;
  (if fb then simulateFallbackDistanceData f l r else simulateDistanceReading f l r) ;;
  modify (fun c => set_lastDataTimestamp (Some (clock c)) c).

Definition startDistanceMonitoring : M unit :=
  id <- setTimer TSampling SAMPLING_PERIOD ;;
  modify (set_monitoringInterval (Some id)).

Definition stopDistanceMonitoring : M unit :=
  h <- get monitoringInterval ;;
  match h with
  | Some id => clearTimer id ;; modify (set_monitoringInterval None)
  | None => ret tt
  end.

Definition startHealthCheck : M unit :=
  id <- setTimer THealth HEALTH_CHECK_INTERVAL ;;
  modify (set_healthCheckTimer (Some id)).

Definition stopHealthCheck : M unit :=
  h <- get healthCheckTimer ;;
  match h with
  | Some id => clearTimer id ;; modify (set_healthCheckTimer None)
  | None => ret tt
  end.

(** ** Fallback *)

Definition startFallbackSensors : M unit :=
  logInfo "Starting fallback sensor mode" ;;
  lidar <- get phoneHasLidar ;;
  (if lidar then logInfo "Using phone LiDAR for distance detection"
   else logInfo "Using camera-based depth estimation") ;;
  startDistanceMonitoring.

Definition activateFallbackMode (reason : string) : M unit :=
  logInfo ("Activating fallback mode: " ++ reason) ;;
  modify (set_fallbackMode true) ;;
  modify (set_connectionState FALLBACK) ;;
  st <- get connectionState ;;
  notifyListeners "stateChange" (PState st) ;;
  lidar <- get phoneHasLidar ;;
  notifyListeners "fallbackActivated" (PFallback reason lidar) ;;
  startFallbackSensors.

(** ** Initialisation *)

Inductive OS := ios | android | web | windows | macos.

(** What [initialize] reads from the platform: [Platform.OS],
    [Device.getDeviceTypeAsync()] (which may reject) and
    [Device.modelName] (which may be [null]). *)
Record Env := {
  platformOS : OS;
  deviceTypeAsync : Res string;
  modelName : option string
}.

(** [String.prototype.includes] *)
Definition includes (s sub : string) : bool :=
  match String.index 0 sub s with
  | Some _ => true
  | None => false
  end.

Definition isIos (o : OS) : bool := match o with ios => true | _ => false end.
Definition isWeb (o : OS) : bool := match o with web => true | _ => false end.
Definition isAndroid (o : OS) : bool := match o with android => true | _ => false end.

(** [modelName?.includes('Pro') && (...)], as the truth value it is used for. *)
Definition lidarModel (m : option string) : bool :=
  match m with
  | Some name =>
      includes name "Pro" &&
      (includes name "12" || includes name "13" ||
       includes name "14" || includes name "15")
  | None => false
  end.

Definition checkDeviceCapabilities (env : Env) : M unit :=
  try_catch
    (deviceType <- (fun c => (c, deviceTypeAsync env)) ;;
     (if isIos (platformOS env)
      then modify (set_phoneHasLidar (lidarModel (modelName env)))
      else ret tt) ;;
     lidar <- get phoneHasLidar ;;
     logInfo ("Device capabilities: Type=" ++ deviceType ++ ", LiDAR="
              ++ (if lidar then "true" else "false")))
    (fun message => logError ("Device capability check failed: " ++ message)).

Definition checkBluetoothAvailable (env : Env) : M bool :=
  try_catch (ret (isIos (platformOS env) || isAndroid (platformOS env)))
            (fun _ => ret false).

Record InitResult := { ir_success : bool; ir_fallbackMode : bool }.

Definition initialize (env : Env) : M InitResult :=
  try_catch
    (logInfo "Initializing hardware integration..." ;;
     checkDeviceCapabilities env ;;
     if isWeb (platformOS env)
     then
       handleError BLUETOOTH_UNAVAILABLE "Web platform detected" ;;
       activateFallbackMode "Web platform does not support Bluetooth" ;;
       ret {| ir_success := true; ir_fallbackMode := true |}
     else
       bluetoothAvailable <- checkBluetoothAvailable env ;;
       if negb bluetoothAvailable
       then
         logError "Bluetooth not available on device" ;;
         activateFallbackMode "Bluetooth not available" ;;
         ret {| ir_success := true; ir_fallbackMode := true |}
       else
         logInfo "Hardware integration initialized successfully" ;;
         ret {| ir_success := true; ir_fallbackMode := false |})
    (fun message =>
       logError ("Initialization failed: " ++ message) ;;
       activateFallbackMode "Initialization failed" ;;
       ret {| ir_success := true; ir_fallbackMode := true |}).

(** ** Scanning *)

(** The discovery operation: when it settles and with what.  The source's
    [performScan] is the instance below. *)
Record Discovery := { latency : Z; found : option ScannedDevice }.

Definition performScan : Discovery := {|
  latency := SCAN_LATENCY;
  found := Some {| sd_id := "DRISHTIKA_001"; sd_name := "Drishtika Wearable";
                   sd_rssi := -60; sd_batteryLevel := 85 |}
|}.

(** [Promise.race([scanPromise, timeoutPromise])]: the discovery timer is
    set first, so it also wins a tie. *)
Definition raceScan (d : Discovery) (timeout : Z) : M (option ScannedDevice) :=
  observe PerformScan ;;
  if Z.leb (latency d) timeout
  then elapse (latency d) ;; ret (found d)
  else elapse (Z.max 0 timeout) ;; throw "Scan timeout".

(** The first two statements of [scanForDevice] and of [connectToDevice]. *)
Definition announceConnecting : M unit :=
  modify (set_connectionState CONNECTING) ;;
  st <- get connectionState ;;
  notifyListeners "stateChange" (PState st).

(** The [try] / [catch] of [scanForDevice]. *)
Definition scanDiscovery (d : Discovery) (timeout : Z) : M ScannedDevice :=
  try_catch
    (logInfo "Starting device scan..." ;;
     dev <- raceScan d timeout ;;
     match dev with
     | Some dev => logInfo ("Device found: " ++ sd_name dev) ;; ret dev
     | None => throw "No device found"
     end)
    (fun message =>
       handleError DEVICE_NOT_FOUND message ;;
       modify (set_connectionState DISCONNECTED) ;;
       st <- get connectionState ;;
       notifyListeners "stateChange" (PState st) ;;
       throw message).

Definition scanForDevice (d : Discovery) (timeout : Z) : M ScannedDevice :=
  announceConnecting ;;
  scanDiscovery d timeout.

(** ** Connecting *)

(** How one [establishConnection] ends: it resolves, it rejects, or it does
    not settle before the connection timeout.  The source draws the first
    two at random after [ESTABLISH_LATENCY]. *)
Inductive Attempt :=
| Established
| Rejected (message : string)
| Hung.

(** The transport: the outcome of the attempt with a given number. *)
Definition Transport := nat -> Attempt.

(** [Promise.race([connectionPromise, timeoutPromise])] *)
Definition raceConnection (a : Attempt) (deviceId : string) : M unit :=
  observe (Establish deviceId) ;;
  match a with
  | Established => elapse ESTABLISH_LATENCY
  | Rejected message => elapse ESTABLISH_LATENCY ;; throw message
  | Hung => elapse CONNECTION_TIMEOUT ;; throw "Connection timeout"
  end.

(** The time the race takes: the latency of [establishConnection], or the
    connection timeout when it does not answer. *)
Definition raceTime (a : Attempt) : Z :=
  match a with
  | Established | Rejected _ => ESTABLISH_LATENCY
  | Hung => CONNECTION_TIMEOUT
  end.

Record ConnectResult := {
  cr_success : bool;
  cr_device : option Device;
  cr_attempt : nat
}.

(** [RETRY_DELAY_BASE * Math.pow(2, attempt - 1)] *)
Definition retryDelay (attempt : nat) : Z :=
  (RETRY_DELAY_BASE * 2 ^ Z.of_nat (attempt - 1))%Z.

Definition failureMessage : string :=
  "Connection failed after " ++ string_of_nat MAX_RETRY_ATTEMPTS ++ " attempts".

(** The rest of the [try] block once the race is won: the controller is
    connected. *)
Definition connectionEstablished (deviceId : string) (attempt : nat)
  : M (option ConnectResult) :=
  modify (set_device (Some {| dev_id := deviceId; dev_name := "Drishtika" |})) ;;
  modify (set_connectionState CONNECTED) ;;
  modify (set_retryCount 0) ;;
  modify (set_fallbackMode false) ;;
  startHealthCheck ;;
  startDistanceMonitoring ;;
  st <- get connectionState ;;
  notifyListeners "stateChange" (PState st) ;;
  dev <- get device ;;
  notifyListeners "connected"
    (match dev with Some d => PDevice d | None => PEmpty end) ;;
  logInfo "Device connected successfully" ;;
  ret (Some {| cr_success := true; cr_device := dev; cr_attempt := attempt |}).

(** The [if] of the [catch] block: no attempt is left, or none is wanted. *)
Definition connectionFailed (message : string) : M (option ConnectResult) :=
  handleError CONNECTION_FAILED message ;;
  modify (set_connectionState FAILED) ;;
  st <- get connectionState ;;
  notifyListeners "stateChange" (PState st) ;;
  activateFallbackMode "Connection failed after max retries" ;;
  throw failureMessage.

(** The end of the [catch] block: the delay before the next attempt. *)
Definition backoff (attempt : nat) : M unit :=
  let delay := retryDelay attempt in
  logInfo ("Retrying in " ++ string_of_Z delay ++ "ms...") ;;
  sleep delay.

(** The [for] loop of [connectToDevice] from [attempt] on; [fuel] is the
    number of iterations left, and [None] is the [undefined] of a loop that
    ends without returning. *)
Fixpoint connectLoop (tr : Transport) (deviceId : string) (autoRetry : bool)
         (fuel attempt : nat) : M (option ConnectResult) :=
  match fuel with
  | O => ret None
  | S fuel' =>
      try_catch
        (logInfo ("Connection attempt " ++ string_of_nat attempt ++ "/"
                  ++ string_of_nat MAX_RETRY_ATTEMPTS) ;;
         raceConnection (tr attempt) deviceId ;;
         connectionEstablished deviceId attempt)
        (fun message =>
           logError ("Connection attempt " ++ string_of_nat attempt ++ " failed: "
                     ++ message) ;;
           if Nat.eqb attempt MAX_RETRY_ATTEMPTS || negb autoRetry
           then connectionFailed message
           else
             backoff attempt ;;
             connectLoop tr deviceId autoRetry fuel' (S attempt))
  end.

Definition connectToDevice (tr : Transport) (deviceId : string) (autoRetry : bool)
  : M (option ConnectResult) :=
  announceConnecting ;;
  connectLoop tr deviceId autoRetry MAX_RETRY_ATTEMPTS 1.

(** ** Heartbeat *)

(** [get isConnected()] *)
Definition isConnected (c : Ctl) : bool :=
  ConnectionState_eqb (connectionState c) CONNECTED.

Definition isFallbackMode (c : Ctl) : bool := fallbackMode c.

(** [this.lastDataTimestamp || now]: [null] and [0] are falsy. *)
Definition orNow (last : option Z) (now : Z) : Z :=
  match last with
  | Some t => if Z.eqb t 0 then now else t
  | None => now
  end.

(** The synchronous part of [handleConnectionLoss]: everything up to and
    including [setTimeout]. *)
Definition handleConnectionLoss : M unit :=
  logError "Connection lost - attempting reconnection" ;;
  modify (set_connectionState RECONNECTING) ;;
  st <- get connectionState ;;
  notifyListeners "stateChange" (PState st) ;;
  notifyListeners "connectionLost" PEmpty ;;
  stopHealthCheck ;;
  stopDistanceMonitoring ;;
  id <- setTimer TReconnect RECONNECT_DELAY ;;
  modify (set_reconnectTimer (Some id)).

(** The callback handed to that [setTimeout]. *)
Definition reconnectCallback (tr : Transport) : M unit :=
  try_catch
    (dev <- get device ;;
     match dev with
     | Some d => connectToDevice tr (dev_id d) true ;; ret tt
     | None => ret tt
     end)
    (fun message =>
       logError ("Reconnection failed: " ++ message) ;;
       activateFallbackMode "Reconnection failed").

Definition checkConnectionHealth : M unit :=
  connected <- get isConnected ;;
  if negb connected then ret tt
  else
    now <- get clock ;;
    last <- get lastDataTimestamp ;;
    let timeSinceLastData := (now - orNow last now)%Z in
    if Z.ltb (HEALTH_CHECK_INTERVAL * 2) timeSinceLastData
    then
      logError "Connection health check failed - no data received" ;;
      handleConnectionLoss
    else ret tt.

(** ** Disconnecting *)

Record DisconnectResult := { dr_success : bool; dr_error : option string }.

Definition disconnect : M DisconnectResult :=
  try_catch
    (logInfo "Disconnecting from device" ;;
     stopHealthCheck ;;
     stopDistanceMonitoring ;;
     h <- get reconnectTimer ;;
     match h with
     | Some id => clearTimer id ;; modify (set_reconnectTimer None)
     | None => ret tt
     end ;;
     modify (set_device None) ;;
     modify (set_connectionState DISCONNECTED) ;;
     modify (set_retryCount 0) ;;
     st <- get connectionState ;;
     notifyListeners "stateChange" (PState st) ;;
     notifyListeners "disconnected" PEmpty ;;
     ret {| dr_success := true; dr_error := None |})
    (fun message =>
       logError ("Disconnect error: " ++ message) ;;
       ret {| dr_success := false; dr_error := Some message |}).

(** ** What can happen to a controller *)

Definition TimerKind_eqb (a b : TimerKind) : bool :=
  match a, b with
  | TSampling, TSampling | THealth, THealth | TReconnect, TReconnect => true
  | _, _ => false
  end.

(** The runtime holds timer [id], and it is of kind [k]. *)
Definition liveAs (id : nat) (k : TimerKind) (c : Ctl) : bool :=
  existsb (fun t => Nat.eqb (tid t) id && TimerKind_eqb (tkind t) k) (timers c).

Inductive Channel := ChDistance | ChObstacle | ChStateChange | ChError | ChFallbackActivated.

Definition subscribe (ch : Channel) (callback : Callback) : M unit :=
  match ch with
  | ChDistance => onDistanceUpdate callback
  | ChObstacle => onObstacleDetected callback
  | ChStateChange => onStateChange callback
  | ChError => onError callback
  | ChFallbackActivated => onFallbackActivated callback
  end.

(** A call of the interface by the application, or a timer of the runtime
    that fires.  Each runs to completion. *)
Inductive Op :=
| OpInitialize (env : Env)
| OpSubscribe (ch : Channel) (callback : Callback)
| OpScan (d : Discovery) (timeout : Z)
| OpConnect (tr : Transport) (deviceId : string) (autoRetry : bool)
| OpActivateFallback (reason : string)
| OpDisconnect
| OpClearErrorLog
| OpWait (ms : Z)
| OpSamplingFires (id : nat) (f l r : Q)
| OpHealthFires (id : nat)
| OpReconnectFires (id : nat) (tr : Transport).

(** What a call returns. *)
Inductive OpResult :=
| RInit (r : InitResult)
| RScan (d : ScannedDevice)
| RConnect (r : option ConnectResult)
| RDisconnect (r : DisconnectResult)
| RNone.

Definition fmap {A B} (f : A -> B) (m : M A) : M B :=
  a <- m ;; ret (f a).

(** The call or the callback itself; a [Throw] is what reaches the caller. *)
Definition call (o : Op) : M OpResult :=
  match o with
  | OpInitialize env => fmap RInit (initialize env)
  | OpSubscribe ch callback => subscribe ch callback ;; ret RNone
  | OpScan d timeout => fmap RScan (scanForDevice d timeout)
  | OpConnect tr deviceId autoRetry => fmap RConnect (connectToDevice tr deviceId autoRetry)
  | OpActivateFallback reason => activateFallbackMode reason ;; ret RNone
  | OpDisconnect => fmap RDisconnect disconnect
  | OpClearErrorLog => clearErrorLog ;; ret RNone
  | OpWait ms => elapse (Z.max 0 ms) ;; ret RNone
  | OpSamplingFires id f l r =>
      isLive <- get (liveAs id TSampling) ;;
      (if isLive then monitoringTick f l r else ret tt) ;; ret RNone
  | OpHealthFires id =>
      isLive <- get (liveAs id THealth) ;;
      (if isLive then checkConnectionHealth else ret tt) ;; ret RNone
  | OpReconnectFires id tr =>
      isLive <- get (liveAs id TReconnect) ;;
      (if isLive then clearTimer id ;; reconnectCallback tr else ret tt) ;; ret RNone
  end.

(** The controller after the call, whether it returned or threw. *)
Definition run (o : Op) (c : Ctl) : Ctl := exec (call o) c.

Definition runAll (ops : list Op) (c : Ctl) : Ctl :=
  fold_left (fun c o => run o c) ops c.

Definition reachable (c : Ctl) : Prop :=
  exists now ops, c = runAll ops (newController now).

(** The same with the awaits of [scanForDevice] and [connectToDevice] left
    open: between the entry of a call and its discovery, and between two
    iterations of the connection loop, anything else may happen. *)
Inductive Step :=
| Whole (o : Op)
| Announce
| Discover (d : Discovery) (timeout : Z)
| Iteration (tr : Transport) (deviceId : string) (autoRetry : bool) (attempt : nat).

Definition runStep (s : Step) (c : Ctl) : Ctl :=
  match s with
  | Whole o => run o c
  | Announce => exec announceConnecting c
  | Discover d timeout => exec (scanDiscovery d timeout) c
  | Iteration tr deviceId autoRetry attempt =>
      exec (connectLoop tr deviceId autoRetry 1 attempt) c
  end.

Definition interleaved (c : Ctl) : Prop :=
  exists now steps, c = fold_left (fun c s => runStep s c) steps (newController now).

(** The stateChange notifications of a trace, in order. *)
Fixpoint stateChanges (t : list Obs) : list ConnectionState :=
  match t with
  | [] => []
  | Notify ev (PState s) :: t' =>
      if String.eqb ev "stateChange" then s :: stateChanges t' else stateChanges t'
  | _ :: t' => stateChanges t'
  end.

Fixpoint attempts (t : list Obs) : list string :=
  match t with
  | [] => []
  | Establish id :: t' => id :: attempts t'
  | _ :: t' => attempts t'
  end.

Fixpoint sleeps (t : list Obs) : list Z :=
  match t with
  | [] => []
  | Sleep ms :: t' => ms :: sleeps t'
  | _ :: t' => sleeps t'
  end.

(** * Definitions used by the statements *)

(** ** Notification and the error log as state transformers *)

(** What one notification writes on the console: a line when the
    subscriber throws, nothing otherwise. *)
Definition notifyLog (ls : list (string * Callback)) (event : string) (data : Payload)
  : list (LogLevel * string) :=
  match map_get event ls with
  | Some callback =>
      match callback data with
      | Some message => [(LError, ("Listener error: " ++ message)%string)]
      | None => []
      end
  | None => []
  end.

Definition notified (event : string) (data : Payload) (c : Ctl) : Ctl :=
  set_console (console c ++ notifyLog (listeners c) event data)
              (set_trace (trace c ++ [Notify event data]) c).

Definition errorRecord (errorType : ErrorType) (message : string) (c : Ctl)
  : ErrorRecord :=
  {| err_type := errorType; err_message := message;
     err_timestamp := clock c; err_state := connectionState c |}.

(** [push], then [shift] when the length has passed the capacity. *)
Definition pushShift (l : list ErrorRecord) (e : ErrorRecord) : list ErrorRecord :=
  if Nat.ltb ERROR_LOG_CAPACITY (List.length (l ++ [e])) then shift (l ++ [e]) else l ++ [e].

Definition handled (errorType : ErrorType) (message : string) (c : Ctl) : Ctl :=
  let e := errorRecord errorType message c in
  let c1 := notified "error" (PError e) (set_errorLog (pushShift (errorLog c) e) c) in
  set_console (console c1 ++ [(LError, ("[" ++ errorTypeName errorType ++ "] " ++ message)%string)]) c1.

Definition samplingTimer (id : nat) : Timer :=
  {| tid := id; tkind := TSampling; tdelay := SAMPLING_PERIOD |}.
Definition healthTimer (id : nat) : Timer :=
  {| tid := id; tkind := THealth; tdelay := HEALTH_CHECK_INTERVAL |}.
Definition reconnectTimeout (id : nat) : Timer :=
  {| tid := id; tkind := TReconnect; tdelay := RECONNECT_DELAY |}.

(** [activateFallbackMode] as a state transformer. *)
Definition activated (reason : string) (c : Ctl) : Ctl :=
  let c1 := set_connectionState FALLBACK
              (set_fallbackMode true
                 (set_console (console c ++
                    [(LInfo, ("Activating fallback mode: " ++ reason)%string)]) c)) in
  let c2 := notified "stateChange" (PState FALLBACK) c1 in
  let c3 := notified "fallbackActivated" (PFallback reason (phoneHasLidar c)) c2 in
  let c4 := set_console
              ((console c3 ++ [(LInfo, "Starting fallback sensor mode")]) ++
               [(LInfo, if phoneHasLidar c
                        then "Using phone LiDAR for distance detection"
                        else "Using camera-based depth estimation")]) c3 in
  set_monitoringInterval (Some (nextTimerId c))
    (set_nextTimerId (S (nextTimerId c))
       (set_timers (timers c ++ [samplingTimer (nextTimerId c)]) c4)).

(** [clearInterval] / [clearTimeout] under [if (handle)]. *)
Definition clearHandle (h : option nat) (ts : list Timer) : list Timer :=
  match h with
  | Some id => filter (fun t => negb (Nat.eqb (tid t) id)) ts
  | None => ts
  end.

(** ** The classifier *)

Definition sample_03_2_2 : Dist.t :=
  Dist.mk (Some (3 # 10)%Q) (Some 2%Q) (Some 2%Q) None None.

(** The tie-break as the specification words it: among the components at
    the minimum, front before left before right. *)
Definition specDirection (data : Dist.t) : Direction :=
  let f := toNumber (Dist.front data) in
  let l := toNumber (Dist.left data) in
  let r := toNumber (Dist.right data) in
  if negb (Qltb l f) && negb (Qltb r f) then Front
  else if negb (Qltb r l) then Left
  else Right.

Definition sample_1_1_1 : Dist.t := Dist.mk (Some 1%Q) (Some 1%Q) (Some 1%Q) None None.

(** ** The error log *)

(** The last [n] elements of a list. *)
Definition lastn {A} (n : nat) (l : list A) : list A :=
  skipn (List.length l - n) l.

(** A sequence of insertions, each a call of [handleError]. *)
Definition insertErrors (errs : list (ErrorType * string)) (c : Ctl) : Ctl :=
  fold_left (fun c e => exec (handleError (fst e) (snd e)) c) errs c.

Definition recordsOf (errs : list (ErrorType * string)) (c : Ctl) : list ErrorRecord :=
  map (fun e => errorRecord (fst e) (snd e) c) errs.

Definition fiftyOneErrors : list (ErrorType * string) :=
  map (fun n => (CONNECTION_FAILED, string_of_nat n)) (seq 1 51).

(** ** Transports and scenarios *)

Definition alwaysRejects : Transport :=
  fun _ => Rejected "Simulated connection failure".

Definition alwaysEstablishes : Transport := fun _ => Established.

(** Rejects the first two attempts and answers the third. *)
Definition failsTwice : Transport :=
  fun attempt => if Nat.ltb attempt 3
                 then Rejected "Simulated connection failure"
                 else Established.


Definition quietSubscriber : Callback := fun _ => None.

(** What [connectToDevice] leaves behind when every attempt fails and [e]
    is the error it records. *)
Definition exhausted (tr : Transport) (deviceId : string) (c : Ctl) (e : ErrorRecord)
  : Prop :=
  let c' := exec (connectToDevice tr deviceId true) c in
  err_type e = CONNECTION_FAILED /\ err_state e = CONNECTING /\
  result (connectToDevice tr deviceId true) c = Throw failureMessage /\
  trace c' =
    trace c ++
    [ Notify "stateChange" (PState CONNECTING);
      Establish deviceId; Sleep (retryDelay 1);
      Establish deviceId; Sleep (retryDelay 2);
      Establish deviceId;
      Notify "error" (PError e);
      Notify "stateChange" (PState FAILED);
      Notify "stateChange" (PState FALLBACK);
      Notify "fallbackActivated"
             (PFallback "Connection failed after max retries" (phoneHasLidar c)) ] /\
  errorLog c' = pushShift (errorLog c) e /\
  connectionState c' = FALLBACK /\
  fallbackMode c' = true /\
  timers c' = timers c ++ [samplingTimer (nextTimerId c)] /\
  clock c' = (clock c + raceTime (tr 1%nat) + retryDelay 1
                      + raceTime (tr 2%nat) + retryDelay 2
                      + raceTime (tr 3%nat))%Z.

(** Two controllers that differ at most in what was written on the
    console. *)
Definition sameBeyondLogging (c c' : Ctl) : Prop :=
  set_console [] c = set_console [] c'.

(** A controller that went into fallback mode on a platform without
    Bluetooth, with a subscriber on the state channel. *)
Definition inFallback : Ctl :=
  runAll [ OpSubscribe ChStateChange quietSubscriber;
           OpInitialize {| platformOS := web; deviceTypeAsync := Ok "PHONE";
                           modelName := None |} ]
         (newController 0).

(** A connected controller whose only sample is 10001 ms old. *)
Definition silentForTenSeconds : Ctl :=
  runAll [ OpConnect alwaysEstablishes "DRISHTIKA_001" true;
           OpSamplingFires 2 1 1 1;
           OpWait 10001 ]
         (newController 0).


(** A controller that connected, received one sample, then heard nothing
    for more than ten seconds, and whose reconnection failed three times:
    fallback mode was activated by [connectToDevice] and again by the
    reconnect callback. *)
Definition lostAndFallenBack : Ctl :=
  runAll [ OpConnect alwaysEstablishes "DRISHTIKA_001" true;
           OpSamplingFires 2 1 1 1;
           OpWait 10001;
           OpHealthFires 1;
           OpReconnectFires 3 alwaysRejects ]
         (newController 0).

(** ** Invariants *)

(** The invariant as the specification words it. *)
Definition specInvariant (c : Ctl) : Prop :=
  (device c <> None <->
   (connectionState c = CONNECTED \/ connectionState c = RECONNECTING)) /\
  ~ (fallbackMode c = true /\ device c <> None).

(** The part of the invariant the code keeps. *)
Definition Inv (c : Ctl) : Prop :=
  connectionState c = CONNECTED \/ connectionState c = RECONNECTING ->
  device c <> None /\ fallbackMode c = false.

(** Connected with a device and out of fallback mode, or in none of the
    two states the invariant speaks of. *)
Definition settled (c : Ctl) : Prop :=
  (connectionState c = CONNECTED /\ device c <> None /\ fallbackMode c = false) \/
  (connectionState c <> CONNECTED /\ connectionState c <> RECONNECTING).

Definition sameCore (c c' : Ctl) : Prop :=
  connectionState c' = connectionState c /\
  device c' = device c /\
  fallbackMode c' = fallbackMode c.

(** The synchronous part of [handleConnectionLoss] as a state
    transformer. *)
Definition connectionLost (c : Ctl) : Ctl :=
  let c1 := set_connectionState RECONNECTING
              (set_console (console c ++
                 [(LError, "Connection lost - attempting reconnection")]) c) in
  let c2 := notified "connectionLost" PEmpty
              (notified "stateChange" (PState RECONNECTING) c1) in
  set_reconnectTimer (Some (nextTimerId c))
    (set_nextTimerId (S (nextTimerId c))
       (set_timers
          (clearHandle (monitoringInterval c)
             (clearHandle (healthCheckTimer c) (timers c))
           ++ [reconnectTimeout (nextTimerId c)])
          (set_monitoringInterval None (set_healthCheckTimer None c2)))).

(** ** Subscribers that throw *)

(** The same subscriptions, held by subscribers that return normally. *)
Definition calmed (ls : list (string * Callback)) : list (string * Callback) :=
  map (fun kv => (fst kv, quietSubscriber)) ls.

Definition calm (c : Ctl) : Ctl := set_listeners (calmed (listeners c)) c.

(** A controller without its console and without what its subscribers
    do: the state, the timers, the clock and the trace. *)
Definition erase (c : Ctl) : Ctl := set_console [] (calm c).

Definition sameButLog (c1 c2 : Ctl) : Prop := erase c1 = erase c2.

(** A computation whose result and whose effect on the controller do not
    depend on the console nor on whether a subscriber throws. *)
Definition respects {A} (m : M A) : Prop :=
  forall c1 c2, sameButLog c1 c2 ->
                sameButLog (exec m c1) (exec m c2) /\ result m c1 = result m c2.

(** A subscriber that always throws. *)
Definition throwingSubscriber : Callback := fun _ => Some "boom".

(** ** Predicates kept by every step *)

Definition bounded (c : Ctl) : Prop :=
  List.length (errorLog c) <= ERROR_LOG_CAPACITY.

(** The flag is set whenever the state says fallback. *)
Definition fallbackFlagged (c : Ctl) : Prop :=
  connectionState c = FALLBACK -> fallbackMode c = true.

(** A computation that keeps [P]. *)
Definition keeps {A} (P : Ctl -> Prop) (m : M A) : Prop :=
  forall c, P c -> P (exec m c).

(** * The rest of the controller, the services beside it and their callers *)

(** ** [getConnectionStatus] *)

Record ConnectionStatus := {
  cs_state : ConnectionState;
  cs_connected : bool;
  cs_fallbackMode : bool;
  cs_device : option Device;
  cs_batteryLevel : Z;
  cs_signalStrength : Z;
  cs_lastDataAge : option Z;
  cs_retryCount : nat;
  cs_errorCount : nat
}.

(** [this.device ? 85 : 0] and [this.lastDataTimestamp ? Date.now() - ... :
    null]: an object is truthy, [null] and [0] are not. *)
Definition getConnectionStatus (c : Ctl) : ConnectionStatus := {|
  cs_state := connectionState c;
  cs_connected := ConnectionState_eqb (connectionState c) CONNECTED;
  cs_fallbackMode := fallbackMode c;
  cs_device := device c;
  cs_batteryLevel := match device c with Some _ => 85 | None => 0 end;
  cs_signalStrength := match device c with Some _ => -60 | None => 0 end;
  cs_lastDataAge :=
    match lastDataTimestamp c with
    | Some t => if Z.eqb t 0 then None else Some (clock c - t)%Z
    | None => None
    end;
  cs_retryCount := retryCount c;
  cs_errorCount := List.length (errorLog c)
|}.

(** ** More predicates kept by every step *)

Definition retryFree (c : Ctl) : Prop := retryCount c = 0.

Definition inFlight : Ctl :=
  fold_left (fun c s => runStep s c)
    [ Whole (OpSubscribe ChStateChange quietSubscriber);
      Announce;
      Iteration alwaysRejects "DRISHTIKA_001" true 1;
      Whole (OpWait 500) ]
    (newController 0).

(** ** The controller as a transition system *)

(** [connectionEstablished] as a state transformer. *)
Definition established (deviceId : string) (c : Ctl) : Ctl :=
  let dev := {| dev_id := deviceId; dev_name := "Drishtika" |} in
  let n := nextTimerId c in
  let c1 := set_monitoringInterval (Some (S n))
              (set_healthCheckTimer (Some n)
                 (set_nextTimerId (S (S n))
                    (set_timers ((timers c ++ [healthTimer n]) ++ [samplingTimer (S n)])
                       (set_fallbackMode false
                          (set_retryCount 0
                             (set_connectionState CONNECTED
                                (set_device (Some dev) c))))))) in
  let c2 := notified "connected" (PDevice dev)
              (notified "stateChange" (PState CONNECTED) c1) in
  set_console (console c2 ++ [(LInfo, "Device connected successfully")]) c2.

(** [disconnect] as a state transformer. *)
Definition disconnected (c : Ctl) : Ctl :=
  notified "disconnected" PEmpty
    (notified "stateChange" (PState DISCONNECTED)
       (set_retryCount 0
          (set_connectionState DISCONNECTED
             (set_device None
                (set_reconnectTimer None
                   (set_monitoringInterval None
                      (set_healthCheckTimer None
                         (set_timers
                            (clearHandle (reconnectTimer c)
                               (clearHandle (monitoringInterval c)
                                  (clearHandle (healthCheckTimer c) (timers c))))
                            (set_console
                               (console c ++ [(LInfo, "Disconnecting from device")])
                               c))))))))).

Definition channelName (ch : Channel) : string :=
  match ch with
  | ChDistance => "distance"
  | ChObstacle => "obstacle"
  | ChStateChange => "stateChange"
  | ChError => "error"
  | ChFallbackActivated => "fallbackActivated"
  end.

(** An observation that is no notification. *)
Definition quiet (o : Obs) : Prop :=
  match o with
  | Notify _ _ => False
  | _ => True
  end.

(** The states that are entered by an assignment and a notification and
    nothing else. *)
Definition passing (s : ConnectionState) : Prop :=
  s = CONNECTING \/ s = DISCONNECTED \/ s = FAILED.

(** What the controller does between two points where something else can
    run: the assignments that go together, as one action. *)
Inductive Act : Ctl -> Ctl -> Prop :=
| act_console c l : Act c (set_console l c)
| act_clock c t : Act c (set_clock t c)
| act_observe c o : quiet o -> Act c (set_trace (trace c ++ [o]) c)
| act_sample c ev d :
    ev = "distance" \/ ev = "obstacle" ->
    Act c (set_trace (trace c ++ [Notify ev d]) c)
| act_state c s :
    passing s ->
    Act c (set_trace (trace c ++ [Notify "stateChange" (PState s)])
             (set_connectionState s c))
| act_error c t m :
    Act c (set_trace (trace c ++ [Notify "error" (PError (errorRecord t m c))])
             (set_errorLog (pushShift (errorLog c) (errorRecord t m c)) c))
| act_established c deviceId : Act c (established deviceId c)
| act_activated c reason : Act c (activated reason c)
| act_lost c : connectionState c = CONNECTED -> Act c (connectionLost c)
| act_disconnected c : Act c (disconnected c)
| act_data c d : Act c (set_distanceData d c)
| act_timestamp c : Act c (set_lastDataTimestamp (Some (clock c)) c)
| act_subscribe c ch callback :
    Act c (set_listeners (map_set (channelName ch) callback (listeners c)) c)
| act_clearLog c : Act c (set_errorLog [] c)
| act_lidar c b : Act c (set_phoneHasLidar b c)
| act_fired c id :
    liveAs id TReconnect c = true ->
    Act c (set_timers (filter (fun t => negb (Nat.eqb (tid t) id)) (timers c)) c).

Inductive Steps (c : Ctl) : Ctl -> Prop :=
| steps_refl : Steps c c
| steps_act c1 c2 : Steps c c1 -> Act c1 c2 -> Steps c c2.

(** The state a subscriber of the state channel was told last. *)
Definition inSync (c : Ctl) : Prop :=
  last (stateChanges (trace c)) DISCONNECTED = connectionState c.

(** Whether the last of the notifications [fallbackActivated] and
    [connected] of a trace was [fallbackActivated]; [mode] when there is
    none. *)
Fixpoint modeAfter (t : list Obs) (mode : bool) : bool :=
  match t with
  | [] => mode
  | Notify ev _ :: t' =>
      if String.eqb ev "fallbackActivated" then modeAfter t' true
      else if String.eqb ev "connected" then modeAfter t' false
      else modeAfter t' mode
  | _ :: t' => modeAfter t' mode
  end.

Definition flagFollows (c : Ctl) : Prop :=
  fallbackMode c = modeAfter (trace c) false.

(** The runtime holds a timer [id] of kind [k]. *)
Definition live (id : nat) (k : TimerKind) (c : Ctl) : Prop :=
  exists t, In t (timers c) /\ tid t = id /\ tkind t = k.

(** The timers and their handles: identifiers are fresh and unique, the
    heartbeat and sampling handles name live timers of their kind, the
    reconnect handle names no timer of another kind, and a connected
    controller holds both handles, one in fallback the sampling handle. *)
Definition timersSound (c : Ctl) : Prop :=
  (forall t, In t (timers c) -> tid t < nextTimerId c) /\
  NoDup (map tid (timers c)) /\
  (forall id, healthCheckTimer c = Some id -> live id THealth c) /\
  (forall id, monitoringInterval c = Some id -> live id TSampling c) /\
  (forall id, reconnectTimer c = Some id ->
              id < nextTimerId c /\
              forall t, In t (timers c) -> tid t = id -> tkind t = TReconnect) /\
  (connectionState c = CONNECTED ->
   healthCheckTimer c <> None /\ monitoringInterval c <> None) /\
  (connectionState c = FALLBACK -> monitoringInterval c <> None).

Definition channelNames : list string := map channelName
  [ChDistance; ChObstacle; ChStateChange; ChError; ChFallbackActivated].

Definition listenersClosed (c : Ctl) : Prop :=
  NoDup (map fst (listeners c)) /\
  forall k, In k (map fst (listeners c)) -> In k channelNames.

(** ** How a connection ends *)

(** What the attempts before attempt [k] leave on the trace: each an
    attempt and then the sleep of its backoff. *)
Definition retried (deviceId : string) (k : nat) : list Obs :=
  flat_map (fun j => [Establish deviceId; Sleep (retryDelay j)]) (seq 1 (k - 1)).

(** The time from the first attempt to the start of attempt [k]: for each
    attempt before it, the time its race took and its backoff. *)
Definition waited (tr : Transport) (k : nat) : Z :=
  fold_right Z.add 0%Z
    (map (fun j => (raceTime (tr j) + retryDelay j)%Z) (seq 1 (k - 1))).

(** [connectToDevice] returned at attempt [k]: what it returns as [r] and
    what it leaves as [c'], from [c]. *)
Definition connectedAt (tr : Transport) (k : nat) (deviceId : string) (c c' : Ctl)
           (r : Res (option ConnectResult)) : Prop :=
  let dev := {| dev_id := deviceId; dev_name := "Drishtika" |} in
  r = Ok (Some {| cr_success := true; cr_device := Some dev; cr_attempt := k |}) /\
  connectionState c' = CONNECTED /\
  device c' = Some dev /\
  fallbackMode c' = false /\
  errorLog c' = errorLog c /\
  attempts (trace c') = attempts (trace c) ++ repeat deviceId k /\
  sleeps (trace c') = sleeps (trace c) ++ map retryDelay (seq 1 (k - 1)) /\
  stateChanges (trace c') = stateChanges (trace c) ++ [CONNECTING; CONNECTED] /\
  timers c' = timers c ++ [healthTimer (nextTimerId c);
                           samplingTimer (S (nextTimerId c))] /\
  healthCheckTimer c' = Some (nextTimerId c) /\
  monitoringInterval c' = Some (S (nextTimerId c)) /\
  trace c' = trace c ++ Notify "stateChange" (PState CONNECTING)
                     :: retried deviceId k
                     ++ [ Establish deviceId;
                          Notify "stateChange" (PState CONNECTED);
                          Notify "connected" (PDevice dev) ] /\
  clock c' = (clock c + waited tr k + raceTime (tr k))%Z.

(** [connectToDevice] gave up after attempt [k]. *)
Definition givenUpAt (tr : Transport) (k : nat) (deviceId : string) (c c' : Ctl)
           (r : Res (option ConnectResult)) : Prop :=
  r = Throw failureMessage /\
  connectionState c' = FALLBACK /\
  fallbackMode c' = true /\
  device c' = device c /\
  (exists e, err_type e = CONNECTION_FAILED /\ err_state e = CONNECTING /\
             errorLog c' = pushShift (errorLog c) e) /\
  attempts (trace c') = attempts (trace c) ++ repeat deviceId k /\
  sleeps (trace c') = sleeps (trace c) ++ map retryDelay (seq 1 (k - 1)) /\
  stateChanges (trace c') = stateChanges (trace c) ++ [CONNECTING; FAILED; FALLBACK] /\
  timers c' = timers c ++ [samplingTimer (nextTimerId c)] /\
  monitoringInterval c' = Some (nextTimerId c) /\
  clock c' = (clock c + waited tr k + raceTime (tr k))%Z.

(** ** Substrings *)

(** [sub] occurs in [s] at some position. *)
Definition occursIn (sub s : string) : Prop :=
  exists n, substring n (String.length sub) s = sub.

(** * The services beside the controller *)

(** ** State and exceptions over any state *)

Definition St (S A : Type) := S -> S * Res A.

Definition sret {S A} (a : A) : St S A := fun s => (s, Ok a).
Definition sthrow {S A} (message : string) : St S A := fun s => (s, Throw message).
Definition sbind {S A B} (m : St S A) (k : A -> St S B) : St S B :=
  fun s => match m s with
           | (s1, Ok a) => k a s1
           | (s1, Throw e) => (s1, Throw e)
           end.
Definition stry {S A} (m : St S A) (handler : string -> St S A) : St S A :=
  fun s => match m s with
           | (s1, Ok a) => (s1, Ok a)
           | (s1, Throw e) => handler e s1
           end.
Definition sget {S A} (f : S -> A) : St S A := fun s => (s, Ok (f s)).
Definition smodify {S} (f : S -> S) : St S unit := fun s => (f s, Ok tt).

Definition after {S A} (m : St S A) (s : S) : S := fst (m s).
Definition answer {S A} (m : St S A) (s : S) : Res A := snd (m s).

Declare Scope st_scope.
Delimit Scope st_scope with st.
Notation "x <- m ;; k" := (sbind m (fun x => k))
  (at level 61, m at next level, right associativity) : st_scope.
Notation "m ;; k" := (sbind m (fun _ => k))
  (at level 61, right associativity) : st_scope.

(** A value of an object literal, as far as the services look at it. *)
Inductive Value :=
| VUndefined
| VString (s : string)
| VNumber (q : Q)
| VBoolean (b : bool).

(** What a callback throws, as far as a [catch] that reads
    [error.message] can tell one value from another. *)
Inductive Thrown :=
| ThrownError (message : string)  (* an [Error], or an object with a [message] *)
| ThrownOther                     (* a value without one: a string, a number *)
| ThrownNullish.                  (* [null] or [undefined] *)

(** The message of the [TypeError] the engine throws when a property of
    [null] or [undefined] is read; its text is the engine's own. *)
Definition TYPE_ERROR : string := "TypeError".

(** [error.message] in a [catch]: [undefined] on a value without that
    property, which the console prints so, and a [TypeError] on [null] and
    [undefined]. *)
Definition messageOf {S} (error : Thrown) : St S string :=
  match error with
  | ThrownError message => sret message
  | ThrownOther => sret "undefined"
  | ThrownNullish => sthrow TYPE_ERROR
  end.

(** ** [WatchConnectivityService] *)

Module Watch.
Local Open Scope st_scope.

Definition OBSTACLE_ALERT : string := "obstacle_alert".
Definition EMOTION_UPDATE : string := "emotion_update".
Definition MODE_CHANGE : string := "mode_change".
Definition STATUS_UPDATE : string := "status_update".
Definition QUICK_ACTION : string := "quick_action".

Record Message := { type : string; data : list (string * Value) }.

(** A handler returns ([None]) or throws. *)
Definition Handler := list (string * Value) -> option Thrown.

Inductive Level := LLog | LWarn | LError.

Record t := mk {
  isConnected : bool;
  messageHandlers : list (string * Handler);
  console : list (Level * string)
}.

(** [constructor()]; [watchState] is [null] and stays so. *)
Definition new : t := {| isConnected := false; messageHandlers := []; console := [] |}.

Definition log (l : Level) (text : string) : St t unit :=
  smodify (fun w => mk (isConnected w) (messageHandlers w) (console w ++ [(l, text)])).

Definition initialize (os : OS) : St t bool :=
  if negb (isIos os)
  then log LWarn "[WatchConnectivity] Only available on iOS" ;; sret false
  else
    stry (smodify (fun w => mk true (messageHandlers w) (console w)) ;;
          sret true)
         (fun message =>
            log LError ("[WatchConnectivity] Init error: " ++ message) ;;
            sret false).

Record SendResult := { success : bool }.

Definition sendMessage (message : Message) : St t SendResult :=
  log LLog ("[WatchConnectivity] Sending message: " ++ type message) ;;
  sret {| success := true |}.

(** The four [send...] methods: the guard, the message, [sendMessage], and
    the [catch] with its own line for the console. *)
Definition send (message : Message) (failure : string) : St t SendResult :=
  connected <- sget isConnected ;;
  if negb connected then sret {| success := false |}
  else
    stry (sendMessage message ;; sret {| success := true |})
         (fun error =>
            log LError (failure ++ error) ;;
            sret {| success := false |}).

Record Obstacle := {
  o_type : Value; o_position : Value; o_distance : Value; o_priority : Value
}.

Definition sendObstacleAlert (now : Z) (obstacle : Obstacle) : St t SendResult :=
  send {| type := OBSTACLE_ALERT;
          data := [ ("obstacleType", o_type obstacle);
                    ("position", o_position obstacle);
                    ("distance", o_distance obstacle);
                    ("priority", o_priority obstacle);
                    ("timestamp", VNumber (inject_Z now)) ] |}
       "[WatchConnectivity] Alert send error: ".

Record Emotion := { e_emotion : Value; e_confidence : Value }.

Definition sendEmotionUpdate (now : Z) (emotion : Emotion) : St t SendResult :=
  send {| type := EMOTION_UPDATE;
          data := [ ("emotion", e_emotion emotion);
                    ("confidence", e_confidence emotion);
                    ("timestamp", VNumber (inject_Z now)) ] |}
       "[WatchConnectivity] Emotion send error: ".

Definition sendModeChange (now : Z) (mode : Value) : St t SendResult :=
  send {| type := MODE_CHANGE;
          data := [ ("mode", mode); ("timestamp", VNumber (inject_Z now)) ] |}
       "[WatchConnectivity] Mode change error: ".

Record Status := { s_isActive : Value; s_batteryLevel : Value }.

Definition sendStatusUpdate (now : Z) (status : Status) : St t SendResult :=
  send {| type := STATUS_UPDATE;
          data := [ ("isActive", s_isActive status);
                    ("batteryLevel", s_batteryLevel status);
                    ("timestamp", VNumber (inject_Z now)) ] |}
       "[WatchConnectivity] Status send error: ".

Fixpoint lookup (k : string) (m : list (string * Handler)) : option Handler :=
  match m with
  | [] => None
  | (k', v) :: m' => if String.eqb k k' then Some v else lookup k m'
  end.

Fixpoint insert (k : string) (v : Handler) (m : list (string * Handler))
  : list (string * Handler) :=
  match m with
  | [] => [(k, v)]
  | (k', v') :: m' =>
      if String.eqb k k' then (k, v) :: m' else (k', v') :: insert k v m'
  end.

Definition onMessage (type : string) (handler : Handler) : St t unit :=
  smodify (fun w => mk (isConnected w) (insert type handler (messageHandlers w))
                       (console w)).

(** The [catch] reads [error.message] of whatever the handler threw. *)
Definition handleIncomingMessage (message : Message) : St t unit :=
  handler <- sget (fun w => lookup (type message) (messageHandlers w)) ;;
  match handler with
  | Some handler =>
      match handler (data message) with
      | None => sret tt
      | Some error =>
          text <- messageOf error ;;
          log LError ("[WatchConnectivity] Handler error: " ++ text)
      end
  | None => sret tt
  end.

Record ConnectionStatus := { connected : bool; paired : bool; reachable : bool }.

Definition getConnectionStatus (w : t) : ConnectionStatus :=
  {| connected := isConnected w; paired := isConnected w; reachable := isConnected w |}.

(** What the application can do with the service. *)
Inductive Op :=
| Initialize (os : OS)
| SendObstacleAlert (now : Z) (obstacle : Obstacle)
| SendEmotionUpdate (now : Z) (emotion : Emotion)
| SendModeChange (now : Z) (mode : Value)
| SendStatusUpdate (now : Z) (status : Status)
| OnMessage (type : string) (handler : Handler)
| HandleIncomingMessage (message : Message).

Definition run (o : Op) (w : t) : t :=
  match o with
  | Initialize os => after (initialize os) w
  | SendObstacleAlert now obstacle => after (sendObstacleAlert now obstacle) w
  | SendEmotionUpdate now emotion => after (sendEmotionUpdate now emotion) w
  | SendModeChange now mode => after (sendModeChange now mode) w
  | SendStatusUpdate now status => after (sendStatusUpdate now status) w
  | OnMessage type handler => after (onMessage type handler) w
  | HandleIncomingMessage message => after (handleIncomingMessage message) w
  end.

(** The lines [sendMessage] wrote on the console. *)
Definition sent (w : t) : list string :=
  map snd (filter (fun l => match fst l with LLog => true | _ => false end) (console w)).

End Watch.

(** ** [HardwareIntegrationService], the earlier service *)

Module Service.
Local Open Scope st_scope.

Record BeepPattern := { interval : Z; duration : Z }.

(** [BEEP_PATTERNS], by the keys written in it. *)
Definition BEEP_PATTERNS : list (string * BeepPattern) :=
  [ ("CRITICAL", {| interval := 100; duration := 50 |});
    ("DANGER", {| interval := 250; duration := 100 |});
    ("WARNING", {| interval := 500; duration := 100 |});
    ("SAFE", {| interval := 1000; duration := 100 |}) ].

Fixpoint property (k : string) (o : list (string * BeepPattern)) : option BeepPattern :=
  match o with
  | [] => None
  | (k', v) :: o' => if String.eqb k k' then Some v else property k o'
  end.

(** [BEEP_PATTERNS[obstacleLevel] || BEEP_PATTERNS.SAFE] *)
Definition getBeepPattern (obstacleLevel : string) : BeepPattern :=
  match property obstacleLevel BEEP_PATTERNS with
  | Some pattern => pattern
  | None => {| interval := 1000; duration := 100 |}
  end.

(** The string a level is in the source. *)
Definition levelName (l : Severity) : string :=
  match l with
  | CRITICAL => "CRITICAL"
  | DANGER => "DANGER"
  | WARNING => "WARNING"
  | SAFE => "SAFE"
  end.

Inductive Level := LLog | LWarn | LError.

(** A subscriber returns ([None]) or throws. *)
Definition Callback := Payload -> option Thrown.

Fixpoint lookup (k : string) (m : list (string * Callback)) : option Callback :=
  match m with
  | [] => None
  | (k', v) :: m' => if String.eqb k k' then Some v else lookup k m'
  end.

Fixpoint insert (k : string) (v : Callback) (m : list (string * Callback))
  : list (string * Callback) :=
  match m with
  | [] => [(k, v)]
  | (k', v') :: m' =>
      if String.eqb k k' then (k, v) :: m' else (k', v') :: insert k v m'
  end.

Record t := mk {
  device : option Device;
  isConnected : bool;
  distanceData : Dist.t;
  listeners : list (string * Callback);
  offlineMode : bool;
  monitoringInterval : option nat;
  (* the world around the object *)
  timers : list nat;
  nextTimerId : nat;
  console : list (Level * string)
}.

(** [constructor()], on a runtime that holds no timer. *)
Definition new : t := {|
  device := None;
  isConnected := false;
  distanceData := Dist.mk None None None None None;
  listeners := [];
  offlineMode := false;
  monitoringInterval := None;
  timers := [];
  nextTimerId := 1;
  console := []
|}.

Definition log (l : Level) (text : string) : St t unit :=
  smodify (fun s => mk (device s) (isConnected s) (distanceData s) (listeners s)
                       (offlineMode s) (monitoringInterval s) (timers s)
                       (nextTimerId s) (console s ++ [(l, text)])).

Definition checkBluetoothAvailable : St t bool :=
  stry (sret true) (fun _ => sret false).

Definition initialize (os : OS) : St t bool :=
  stry
    (if isWeb os
     then log LWarn "Bluetooth not supported on web" ;; sret false
     else
       isAvailable <- checkBluetoothAvailable ;;
       if negb isAvailable
       then log LWarn "Bluetooth not available" ;; sret false
       else sret true)
    (fun message =>
       log LError ("[HardwareIntegration] Init error: " ++ message) ;;
       sret false).

Record FoundDevice := { fd_id : string; fd_name : string; fd_rssi : Z }.

Definition scanForDevice (timeout : Z) : St t FoundDevice :=
  stry
    (log LLog "[HardwareIntegration] Scanning for Drishtika device..." ;;
     sret {| fd_id := "DRISHTIKA_001"; fd_name := "Drishtika Wearable";
             fd_rssi := -60 |})
    (fun message =>
       log LError ("[HardwareIntegration] Scan error: " ++ message) ;;
       sthrow "Failed to scan for device").

(** [setInterval]: a fresh identifier, a new live timer. *)
Definition startDistanceMonitoring : St t unit :=
  smodify (fun s => mk (device s) (isConnected s) (distanceData s) (listeners s)
                       (offlineMode s) (Some (nextTimerId s))
                       (timers s ++ [nextTimerId s]) (S (nextTimerId s))
                       (console s)).

Definition stopDistanceMonitoring : St t unit :=
  h <- sget monitoringInterval ;;
  match h with
  | Some id =>
      smodify (fun s => mk (device s) (isConnected s) (distanceData s) (listeners s)
                           (offlineMode s) None
                           (filter (fun t => negb (Nat.eqb t id)) (timers s))
                           (nextTimerId s) (console s))
  | None => sret tt
  end.

Record ConnectResult := { cr_success : bool; cr_device : option Device }.

Definition connectToDevice (deviceId : string) : St t ConnectResult :=
  stry
    (log LLog ("[HardwareIntegration] Connecting to device: " ++ deviceId) ;;
     smodify (fun s => mk (Some {| dev_id := deviceId; dev_name := "Drishtika" |})
                          true (distanceData s) (listeners s) (offlineMode s)
                          (monitoringInterval s) (timers s) (nextTimerId s)
                          (console s)) ;;
     startDistanceMonitoring ;;
     dev <- sget device ;;
     sret {| cr_success := true; cr_device := dev |})
    (fun message =>
       log LError ("[HardwareIntegration] Connection error: " ++ message) ;;
       sthrow "Failed to connect to device").

Record Success := { success : bool }.

Definition disconnect : St t Success :=
  stry
    (dev <- sget device ;;
     match dev with
     | Some _ =>
         stopDistanceMonitoring ;;
         smodify (fun s => mk None false (distanceData s) (listeners s) (offlineMode s)
                              (monitoringInterval s) (timers s) (nextTimerId s)
                              (console s))
     | None => sret tt
     end ;;
     sret {| success := true |})
    (fun message =>
       log LError ("[HardwareIntegration] Disconnect error: " ++ message) ;;
       sret {| success := false |}).

Definition onDistanceUpdate (callback : Callback) : St t unit :=
  smodify (fun s => mk (device s) (isConnected s) (distanceData s)
                       (insert "distance" callback (listeners s)) (offlineMode s)
                       (monitoringInterval s) (timers s) (nextTimerId s) (console s)).

Definition onObstacleDetected (callback : Callback) : St t unit :=
  smodify (fun s => mk (device s) (isConnected s) (distanceData s)
                       (insert "obstacle" callback (listeners s)) (offlineMode s)
                       (monitoringInterval s) (timers s) (nextTimerId s) (console s)).

(** The [catch] reads [error.message] of whatever the subscriber threw. *)
Definition notifyListeners (event : string) (data : Payload) : St t unit :=
  callback <- sget (fun s => lookup event (listeners s)) ;;
  match callback with
  | Some callback =>
      match callback data with
      | None => sret tt
      | Some error =>
          text <- messageOf error ;;
          log LError ("[HardwareIntegration] Listener error: " ++ text)
      end
  | None => sret tt
  end.

Definition updateDistanceData (data : Dist.t) : St t unit :=
  smodify (fun s => mk (device s) (isConnected s) data (listeners s) (offlineMode s)
                       (monitoringInterval s) (timers s) (nextTimerId s) (console s)) ;;
  let obstacleLevel := Legacy.analyzeDistanceData data in
  notifyListeners "distance" (PDistance data) ;;
  if negb (isSafe obstacleLevel)
  then notifyListeners "obstacle"
         (PObstacle obstacleLevel (minDistance data)
                    (Legacy.getClosestDirection data) None)
  else sret tt.

(** The three products [Math.random() * 3.0] and [Date.now()] are the
    arguments. *)
Definition simulateDistanceReading (f l r : Q) (now : Z) : St t unit :=
  updateDistanceData (Dist.mk (Some f) (Some l) (Some r) (Some now) None).

(** [x || dflt] on a number that may be missing: [undefined] and [0] are
    falsy. *)
Definition numberOr (x : option Q) (dflt : Q) : Q :=
  match x with
  | Some q => if Qeq_bool q 0 then dflt else q
  | None => dflt
  end.

(** The same on a string: [undefined] and the empty string are falsy. *)
Definition stringOr (x : option string) (dflt : string) : string :=
  match x with
  | Some "" => dflt
  | Some s => s
  | None => dflt
  end.

(** The properties of [settings] that are read, each a value or
    [undefined]. *)
Record Settings := {
  sensitivity : option Q;
  beepVolume : option Q;
  distanceUnit : option string
}.

Record Calibration := {
  c_sensitivity : Q;
  c_beepVolume : Q;
  c_distanceUnit : string;
  c_timestamp : Z
}.

Record CalibrationResult := { k_success : bool; k_calibration : Calibration }.

(** [settings] is [None] when the argument is left out or [null]: the
    first property read of it throws a [TypeError] inside the [try]. *)
Definition calibrateDevice (settings : option Settings) (now : Z)
  : St t CalibrationResult :=
  stry
    (log LLog "[HardwareIntegration] Calibrating device" ;;
     match settings with
     | Some settings =>
         let calibrationData :=
           {| c_sensitivity := numberOr (sensitivity settings) 1;
              c_beepVolume := numberOr (beepVolume settings) (8 # 10);
              c_distanceUnit := stringOr (distanceUnit settings) "meters";
              c_timestamp := now |} in
         sret {| k_success := true; k_calibration := calibrationData |}
     | None => sthrow TYPE_ERROR
     end)
    (fun message =>
       log LError ("[HardwareIntegration] Calibration error: " ++ message) ;;
       sthrow "Device calibration failed").

Definition sendCommand (command : string) : St t Success :=
  connected <- sget isConnected ;;
  if negb connected then sthrow "Device not connected"
  else
    stry
      (log LLog ("[HardwareIntegration] Sending command: " ++ command) ;;
       sret {| success := true |})
      (fun message =>
         log LError ("[HardwareIntegration] Command error: " ++ message) ;;
         sthrow "Failed to send command").

Record ConnectionStatus := {
  connected : bool;
  st_device : option Device;
  batteryLevel : Z;
  signalStrength : Z
}.

Definition getConnectionStatus (s : t) : ConnectionStatus := {|
  connected := isConnected s;
  st_device := device s;
  batteryLevel := if isConnected s then 85 else 0;
  signalStrength := if isConnected s then -60 else 0
|}.

Definition getCurrentDistances (s : t) : Dist.t := distanceData s.

Definition setOfflineMode (enabled : bool) : St t unit :=
  smodify (fun s => mk (device s) (isConnected s) (distanceData s) (listeners s)
                       enabled (monitoringInterval s) (timers s) (nextTimerId s)
                       (console s)).

Definition isOfflineMode (s : t) : bool := offlineMode s.

(** A call of the interface by the application, or the sampling timer
    that fires. *)
Inductive Op :=
| Initialize (os : OS)
| ScanForDevice (timeout : Z)
| ConnectToDevice (deviceId : string)
| Disconnect
| OnDistanceUpdate (callback : Callback)
| OnObstacleDetected (callback : Callback)
| CalibrateDevice (settings : option Settings) (now : Z)
| SendCommand (command : string)
| SetOfflineMode (enabled : bool)
| SamplingFires (id : nat) (f l r : Q) (now : Z).

Definition run (o : Op) (s : t) : t :=
  match o with
  | Initialize os => after (initialize os) s
  | ScanForDevice timeout => after (scanForDevice timeout) s
  | ConnectToDevice deviceId => after (connectToDevice deviceId) s
  | Disconnect => after disconnect s
  | OnDistanceUpdate callback => after (onDistanceUpdate callback) s
  | OnObstacleDetected callback => after (onObstacleDetected callback) s
  | CalibrateDevice settings now => after (calibrateDevice settings now) s
  | SendCommand command => after (sendCommand command) s
  | SetOfflineMode enabled => after (setOfflineMode enabled) s
  | SamplingFires id f l r now =>
      if existsb (Nat.eqb id) (timers s)
      then after (simulateDistanceReading f l r now) s
      else s
  end.

Definition reachable (s : t) : Prop :=
  exists ops, s = fold_left (fun s o => run o s) ops new.

End Service.

(** What every call keeps of the earlier service. *)
Definition serviceSound (s : Service.t) : Prop :=
  (Service.isConnected s = true <-> Service.device s <> None) /\
  (Service.device s = None -> Service.monitoringInterval s = None) /\
  (forall id, In id (Service.timers s) -> id < Service.nextTimerId s).

(** * [EnhancedHardwareScreen], the screen over the controller *)

Module Screen.

Record Capabilities := {
  camera : bool; microphone : bool; phoneLidar : bool; gps : bool; sensors : bool
}.

(** The state of the component that the buttons and the error list are
    drawn from, with what it said ([audioService.speak]) and the alerts it
    raised.  [connectionStatus] and [retryAttempt], which [updateStatus]
    reads from the controller, are left out. *)
Record t := mk {
  connectionState : ConnectionState;
  device : option ScannedDevice;
  scanning : bool;
  distances : Dist.t;
  fallbackMode : bool;
  fallbackCapabilities : option Capabilities;
  errorLog : list ErrorRecord;
  spoken : list string;
  alerts : list string
}.

(** The [useState] defaults. *)
Definition initial : t := {|
  connectionState := DISCONNECTED;
  device := None;
  scanning := false;
  distances := Dist.mk (Some 0%Q) (Some 0%Q) (Some 0%Q) None None;
  fallbackMode := false;
  fallbackCapabilities := None;
  errorLog := [];
  spoken := [];
  alerts := []
|}.

Definition setConnectionState v s :=
  mk v (device s) (scanning s) (distances s) (fallbackMode s)
     (fallbackCapabilities s) (errorLog s) (spoken s) (alerts s).
Definition setDevice v s :=
  mk (connectionState s) v (scanning s) (distances s) (fallbackMode s)
     (fallbackCapabilities s) (errorLog s) (spoken s) (alerts s).
Definition setScanning v s :=
  mk (connectionState s) (device s) v (distances s) (fallbackMode s)
     (fallbackCapabilities s) (errorLog s) (spoken s) (alerts s).
Definition setDistances v s :=
  mk (connectionState s) (device s) (scanning s) v (fallbackMode s)
     (fallbackCapabilities s) (errorLog s) (spoken s) (alerts s).
Definition setFallbackMode v s :=
  mk (connectionState s) (device s) (scanning s) (distances s) v
     (fallbackCapabilities s) (errorLog s) (spoken s) (alerts s).
Definition setFallbackCapabilities v s :=
  mk (connectionState s) (device s) (scanning s) (distances s) (fallbackMode s)
     v (errorLog s) (spoken s) (alerts s).
Definition setErrorLog v s :=
  mk (connectionState s) (device s) (scanning s) (distances s) (fallbackMode s)
     (fallbackCapabilities s) v (spoken s) (alerts s).
Definition speak (text : string) s :=
  mk (connectionState s) (device s) (scanning s) (distances s) (fallbackMode s)
     (fallbackCapabilities s) (errorLog s) (spoken s ++ [text]) (alerts s).
Definition alert (title : string) s :=
  mk (connectionState s) (device s) (scanning s) (distances s) (fallbackMode s)
     (fallbackCapabilities s) (errorLog s) (spoken s) (alerts s ++ [title]).

(** [prev.slice(-4)]: the last four, or all of them when there are fewer. *)
Definition slice_last (n : nat) (l : list ErrorRecord) : list ErrorRecord :=
  skipn (List.length l - n) l.

(** [errorMessages[error.type]]: a text for each of the six types, so that
    [|| error.message] never applies to an error of the controller. *)
Definition errorMessages (t : ErrorType) : string :=
  match t with
  | BLUETOOTH_UNAVAILABLE => "Bluetooth not available on this device"
  | DEVICE_NOT_FOUND => "Drishtika device not found"
  | CONNECTION_FAILED => "Failed to connect to device"
  | CONNECTION_LOST => "Connection to device lost"
  | TIMEOUT => "Connection timeout"
  | PERMISSION_DENIED => "Permission denied"
  end.

Definition handleError (error : ErrorRecord) (s : t) : t :=
  speak (errorMessages (err_type error))
        (setErrorLog (slice_last 4 (errorLog s) ++ [error]) s).

(** The part of [handleFallbackActivation] that is the screen's own; what
    it then asks of [fallbackSensors] is [Sensors.activateForFallback]. *)
Definition handleFallbackActivation (lidar : bool) (s : t) : t :=
  speak ("Fallback mode activated. Using phone "
         ++ (if lidar then "LiDAR" else "camera")
         ++ ", microphone, and sensors.")
        (setFallbackCapabilities
           (Some {| camera := true; microphone := true; phoneLidar := lidar;
                    gps := true; sensors := true |})
           (setFallbackMode true s)).

(** The four callbacks [initializeServices] registers, as what a
    notification does to the screen. *)
Definition hear (s : t) (o : Obs) : t :=
  match o with
  | Notify "stateChange" (PState state) => setConnectionState state s
  | Notify "distance" (PDistance data) => setDistances data s
  | Notify "error" (PError error) => handleError error s
  | Notify "fallbackActivated" (PFallback _ lidar) => handleFallbackActivation lidar s
  | _ => s
  end.

(** The notifications of a call: what it added to the trace. *)
Definition during {A} (m : M A) (c : Ctl) : list Obs :=
  skipn (List.length (trace c)) (trace (exec m c)).

Definition heard {A} (m : M A) (c : Ctl) (s : t) : t :=
  fold_left hear (during m c) s.

Definition handleScan (d : Discovery) (c : Ctl) (s : t) : Ctl * t :=
  let s := speak "Scanning for Drishtika device" (setScanning true s) in
  let call := scanForDevice d 15000 in
  let s := heard call c s in
  (exec call c,
   setScanning false
     match result call c with
     | Ok foundDevice =>
         speak ("Device found: " ++ sd_name foundDevice ++ ". Tap to connect.")
               (setDevice (Some foundDevice) s)
     | Throw _ =>
         alert "Device Not Found"
               (speak "No device found. Try again or use fallback mode." s)
     end).

Definition handleDisconnect (c : Ctl) (s : t) : Ctl * t :=
  (exec disconnect c,
   speak "Disconnected"
         (setFallbackMode false (setDevice None (heard disconnect c s)))).

Inductive Button := ScanForDevice | ConnectTo | UseFallbackMode | Disconnect.

(** The buttons the component renders. *)
Definition buttons (s : t) : list Button :=
  (if ConnectionState_eqb (connectionState s) DISCONNECTED && negb (fallbackMode s)
   then [ScanForDevice]
        ++ match device s with Some _ => [ConnectTo] | None => [] end
        ++ [UseFallbackMode]
   else [])
  ++ (if ConnectionState_eqb (connectionState s) CONNECTED || fallbackMode s
      then [Disconnect]
      else []).

End Screen.

(** What the subscriber of an event of the earlier service does with
    [data]: it returns, also when there is none, or it throws. *)
Definition outcome (s : Service.t) (event : string) (data : Payload) : option Thrown :=
  match Service.lookup event (Service.listeners s) with
  | Some callback => callback data
  | None => None
  end.

(** Whether a thrown value is [null] or [undefined]. *)
Definition nullish (o : option Thrown) : bool :=
  match o with
  | Some ThrownNullish => true
  | _ => false
  end.

(** What a notification of the earlier service writes on the console: a
    line when the subscriber throws a value whose [message] can be read,
    nothing otherwise. *)
Definition complaint (s : Service.t) (event : string) (data : Payload)
  : list (Service.Level * string) :=
  match outcome s event data with
  | Some (ThrownError message) =>
      [(Service.LError, ("[HardwareIntegration] Listener error: " ++ message)%string)]
  | Some ThrownOther =>
      [(Service.LError, "[HardwareIntegration] Listener error: undefined")]
  | _ => []
  end.

(** * [FallbackSensorsService], which the screen turns to in fallback mode *)

Module Sensors.
Local Open Scope st_scope.

Inductive PermissionStatus := granted | undetermined | denied.

(** What the service asks of the platform: [Platform.OS],
    [Device.modelName], the four permission calls of [Camera] and [Audio]
    and [Audio.setAudioModeAsync], each of which may reject. *)
Record Env := {
  platformOS : OS;
  modelName : option string;
  getCameraPermissionsAsync : Res PermissionStatus;
  requestCameraPermissionsAsync : Res PermissionStatus;
  getPermissionsAsync : Res PermissionStatus;
  requestPermissionsAsync : Res PermissionStatus;
  setAudioModeAsync : Res unit
}.

Record Capabilities := {
  camera : bool; microphone : bool; phoneLidar : bool; depthCamera : bool
}.

Inductive Level := LLog | LError.

Record t := mk {
  cameraActive : bool;
  microphoneActive : bool;
  phoneLidarActive : bool;
  depthEstimationActive : bool;
  capabilities : Capabilities;
  console : list (Level * string)
}.

Definition new : t := {|
  cameraActive := false;
  microphoneActive := false;
  phoneLidarActive := false;
  depthEstimationActive := false;
  capabilities := {| camera := false; microphone := false; phoneLidar := false;
                     depthCamera := false |};
  console := []
|}.

Definition log (l : Level) (text : string) : St t unit :=
  smodify (fun s => mk (cameraActive s) (microphoneActive s) (phoneLidarActive s)
                       (depthEstimationActive s) (capabilities s)
                       (console s ++ [(l, text)])).

Definition setCapabilities (f : Capabilities -> Capabilities) : St t unit :=
  smodify (fun s => mk (cameraActive s) (microphoneActive s) (phoneLidarActive s)
                       (depthEstimationActive s) (f (capabilities s)) (console s)).

(** An awaited call of the platform. *)
Definition await {A} (r : Res A) : St t A := fun s => (s, r).

Definition isGranted (p : PermissionStatus) : bool :=
  match p with granted => true | _ => false end.

(** [status === 'granted' || status === 'undetermined'] *)
Definition isAvailable (p : PermissionStatus) : bool :=
  match p with granted | undetermined => true | denied => false end.

Definition checkCameraAvailable (env : Env) : St t bool :=
  stry (status <- await (getCameraPermissionsAsync env) ;; sret (isAvailable status))
       (fun _ => sret false).

Definition checkMicrophoneAvailable (env : Env) : St t bool :=
  stry (status <- await (getPermissionsAsync env) ;; sret (isAvailable status))
       (fun _ => sret false).

Definition checkCapabilities (env : Env) : St t unit :=
  stry
    (cam <- checkCameraAvailable env ;;
     setCapabilities (fun k => Build_Capabilities cam (microphone k) (phoneLidar k)
                                                  (depthCamera k)) ;;
     mic <- checkMicrophoneAvailable env ;;
     setCapabilities (fun k => Build_Capabilities (camera k) mic (phoneLidar k)
                                                  (depthCamera k)) ;;
     (if isIos (platformOS env)
      then setCapabilities (fun k => Build_Capabilities (camera k) (microphone k)
                                       (lidarModel (modelName env)) (depthCamera k))
      else sret tt) ;;
     setCapabilities (fun k => Build_Capabilities (camera k) (microphone k)
                                 (phoneLidar k) (isIos (platformOS env))))
    (fun message => log LError ("[FallbackSensors] Capability check error: " ++ message)).

(** [results], the object [requestPermissions] fills and returns: a
    property is missing until its request was answered. *)
Record Results := { r_camera : option bool; r_microphone : option bool }.

(** A method body with its local [results]. *)
Definition onService {A} (m : St t A) : St (t * Results) A :=
  fun sr => let (s', a) := m (fst sr) in ((s', snd sr), a).

Definition setResults (f : Results -> Results) : St (t * Results) unit :=
  smodify (fun sr => (fst sr, f (snd sr))).

Definition requestPermissions (env : Env) : St t Results :=
  fun s =>
    let body : St (t * Results) unit :=
      stry
        (k <- onService (sget capabilities) ;;
         (if camera k
          then
            cameraResult <- onService (await (requestCameraPermissionsAsync env)) ;;
            setResults (fun r => Build_Results (Some (isGranted cameraResult))
                                               (r_microphone r)) ;;
            onService (setCapabilities
                         (fun k => Build_Capabilities (isGranted cameraResult)
                                     (microphone k) (phoneLidar k) (depthCamera k)))
          else sret tt) ;;
         k <- onService (sget capabilities) ;;
         (if microphone k
          then
            audioResult <- onService (await (requestPermissionsAsync env)) ;;
            setResults (fun r => Build_Results (r_camera r)
                                               (Some (isGranted audioResult))) ;;
            onService (setCapabilities
                         (fun k => Build_Capabilities (camera k)
                                     (isGranted audioResult) (phoneLidar k)
                                     (depthCamera k)))
          else sret tt))
        (fun message =>
           onService (log LError ("[FallbackSensors] Permission request error: "
                                  ++ message)))
    in
    let sr := after body (s, {| r_camera := None; r_microphone := None |}) in
    (fst sr, Ok (snd sr)).

Record InitResult := {
  i_success : bool;
  i_capabilities : option Capabilities;
  i_error : option string
}.

Definition initialize (env : Env) : St t InitResult :=
  stry
    (log LLog "[FallbackSensors] Initializing fallback sensors..." ;;
     checkCapabilities env ;;
     requestPermissions env ;;
     log LLog "[FallbackSensors] Fallback sensors initialized" ;;
     log LLog "[FallbackSensors] Capabilities:" ;;
     k <- sget capabilities ;;
     sret {| i_success := true; i_capabilities := Some k; i_error := None |})
    (fun message =>
       log LError ("[FallbackSensors] Initialization error: " ++ message) ;;
       sret {| i_success := false; i_capabilities := None; i_error := Some message |}).

Record CameraResult := { a_success : bool; a_method : string; a_accuracy : string }.

Definition activateCameraDepthEstimation : St t CameraResult :=
  k <- sget capabilities ;;
  if negb (camera k) then sthrow "Camera not available"
  else
    stry
      (log LLog "[FallbackSensors] Activating camera depth estimation" ;;
       smodify (fun s => mk true (microphoneActive s) (phoneLidarActive s) true
                            (capabilities s) (console s)) ;;
       k <- sget capabilities ;;
       sret {| a_success := true;
               a_method := if phoneLidar k then "phone_lidar"
                           else "visual_depth_estimation";
               a_accuracy := if phoneLidar k then "high" else "medium" |})
      (fun message =>
         log LError ("[FallbackSensors] Camera activation error: " ++ message) ;;
         sthrow message).

Record MicrophoneResult := { m_success : bool; m_ready : bool }.

Definition activateMicrophone (env : Env) : St t MicrophoneResult :=
  k <- sget capabilities ;;
  if negb (microphone k) then sthrow "Microphone not available"
  else
    stry
      (log LLog "[FallbackSensors] Activating microphone for voice input" ;;
       await (setAudioModeAsync env) ;;
       smodify (fun s => mk (cameraActive s) true (phoneLidarActive s)
                            (depthEstimationActive s) (capabilities s) (console s)) ;;
       sret {| m_success := true; m_ready := true |})
      (fun message =>
         log LError ("[FallbackSensors] Microphone activation error: " ++ message) ;;
         sthrow message).

Record Success := { success : bool }.

Definition deactivateCameraDepthEstimation : St t Success :=
  stry
    (smodify (fun s => mk false (microphoneActive s) (phoneLidarActive s) false
                          (capabilities s) (console s)) ;;
     sret {| success := true |})
    (fun message =>
       log LError ("[FallbackSensors] Camera deactivation error: " ++ message) ;;
       sret {| success := false |}).

Definition deactivateMicrophone (env : Env) : St t Success :=
  stry
    (await (setAudioModeAsync env) ;;
     smodify (fun s => mk (cameraActive s) false (phoneLidarActive s)
                          (depthEstimationActive s) (capabilities s) (console s)) ;;
     sret {| success := true |})
    (fun message =>
       log LError ("[FallbackSensors] Microphone deactivation error: " ++ message) ;;
       sret {| success := false |}).

Definition cleanup (env : Env) : St t Success :=
  stry
    (cam <- sget cameraActive ;;
     (if cam then deactivateCameraDepthEstimation ;; sret tt else sret tt) ;;
     mic <- sget microphoneActive ;;
     (if mic then deactivateMicrophone env ;; sret tt else sret tt) ;;
     sret {| success := true |})
    (fun message =>
       log LError ("[FallbackSensors] Cleanup error: " ++ message) ;;
       sret {| success := false |}).

Record Status := {
  s_capabilities : Capabilities;
  s_camera : bool; s_microphone : bool; s_phoneLidar : bool; s_depthEstimation : bool;
  s_fallbackReady : bool
}.

Definition getStatus (s : t) : Status := {|
  s_capabilities := capabilities s;
  s_camera := cameraActive s;
  s_microphone := microphoneActive s;
  s_phoneLidar := phoneLidarActive s;
  s_depthEstimation := depthEstimationActive s;
  s_fallbackReady := camera (capabilities s) || microphone (capabilities s)
|}.

(** The [try] / [catch] that ends the screen's [handleFallbackActivation];
    [data] is [data.capabilities] of the notification. *)
Definition activateForFallback (env : Env) (data : Screen.Capabilities)
  : St t unit :=
  stry
    (initialize env ;;
     (if Screen.camera data
      then activateCameraDepthEstimation ;; sret tt else sret tt) ;;
     (if Screen.microphone data
      then activateMicrophone env ;; sret tt else sret tt))
    (fun message => log LError ("Fallback activation error: " ++ message)).

End Sensors.

(** * Properties *)

(** ** The classifier *)

Lemma Qltb_lt (x y : Q) : Qltb x y = true <-> (x < y)%Q.
Proof.
  unfold Qltb. rewrite Qlt_alt.
  destruct (x ?= y)%Q; split; congruence.
Qed.

Lemma Qltb_ge (x y : Q) : Qltb x y = false <-> (y <= x)%Q.
Proof.
  split; intro H.
  - apply Qnot_lt_le. intro L. apply Qltb_lt in L. congruence.
  - destruct (Qltb x y) eqn:E; [|reflexivity].
    apply Qltb_lt in E. exfalso. exact (Qle_not_lt _ _ H E).
Qed.

Lemma Qltb_compat (x x' y : Q) : (x == x')%Q -> Qltb x y = Qltb x' y.
Proof.
  intro E. unfold Qltb. now rewrite E.
Qed.

Lemma analyzeDistanceData_cases (data : Dist.t) :
  let m := minDistance data in
  (analyzeDistanceData data = CRITICAL <-> (m < 1 # 2)%Q) /\
  (analyzeDistanceData data = DANGER <-> (1 # 2 <= m)%Q /\ (m < 1)%Q) /\
  (analyzeDistanceData data = WARNING <-> (1 <= m)%Q /\ (m < 2)%Q) /\
  (analyzeDistanceData data = SAFE <-> (2 <= m)%Q).
Proof.
  intro m. unfold analyzeDistanceData. fold m.
  destruct (Qltb m (1 # 2)) eqn:E1;
    [apply Qltb_lt in E1 | apply Qltb_ge in E1];
    (destruct (Qltb m 1) eqn:E2;
       [apply Qltb_lt in E2 | apply Qltb_ge in E2]);
    (destruct (Qltb m 2) eqn:E3;
       [apply Qltb_lt in E3 | apply Qltb_ge in E3]);
    repeat split; intros; try discriminate; try reflexivity; try lra.
Qed.

Lemma minDistance_nonnull (data : Dist.t) (f l r : Q) :
  Dist.front data = Some f -> Dist.left data = Some l -> Dist.right data = Some r ->
  minDistance data = Qmin (Qmin f l) r.
Proof.
  intros Hf Hl Hr. unfold minDistance, Math_min. now rewrite Hf, Hl, Hr.
Qed.

Lemma analyzeDistanceData_min (d d' : Dist.t) :
  (minDistance d' == minDistance d)%Q ->
  analyzeDistanceData d' = analyzeDistanceData d.
Proof.
  intro E. unfold analyzeDistanceData.
  now rewrite !(Qltb_compat _ _ _ E).
Qed.

(** C4.  For a sample whose three components are numbers, the level is
    decided by [m = min(front, left, right)] alone, against upper-exclusive
    thresholds met in ascending order: Critical when [m < 0.5], Danger when
    [0.5 <= m < 1], Warning when [1 <= m < 2], Safe otherwise; two samples
    with the same minimum get the same level, both services agree, and the
    sample [{front: 0.3, left: 2, right: 2}] is Critical. *)
Theorem C4_severity_by_minimum (data : Dist.t) (f l r : Q) :
  Dist.front data = Some f -> Dist.left data = Some l -> Dist.right data = Some r ->
  let m := Qmin (Qmin f l) r in
  (analyzeDistanceData data = CRITICAL <-> (m < 1 # 2)%Q) /\
  (analyzeDistanceData data = DANGER <-> (1 # 2 <= m)%Q /\ (m < 1)%Q) /\
  (analyzeDistanceData data = WARNING <-> (1 <= m)%Q /\ (m < 2)%Q) /\
  (analyzeDistanceData data = SAFE <-> (2 <= m)%Q) /\
  (forall data', (minDistance data' == m)%Q ->
                 analyzeDistanceData data' = analyzeDistanceData data) /\
  Legacy.analyzeDistanceData data = analyzeDistanceData data /\
  analyzeDistanceData
    (Dist.mk (Some (3 # 10)%Q) (Some 2%Q) (Some 2%Q) (Dist.timestamp data) (Dist.source data))
  = CRITICAL.
Proof.
  intros Hf Hl Hr m.
  pose proof (minDistance_nonnull data f l r Hf Hl Hr) as Hm. fold m in Hm.
  pose proof (analyzeDistanceData_cases data) as C. cbv zeta in C. rewrite Hm in C.
  destruct C as (C1 & C2 & C3 & C4).
  split; [exact C1|]. split; [exact C2|]. split; [exact C3|]. split; [exact C4|].
  split; [|split; reflexivity].
  intros data' E. apply analyzeDistanceData_min. now rewrite Hm.
Qed.

Lemma C4_severity_by_minimum_witness :
  analyzeDistanceData sample_03_2_2 = CRITICAL.
Proof.
  apply (proj2 (proj1 (C4_severity_by_minimum sample_03_2_2 (3 # 10)%Q 2%Q 2%Q
                         eq_refl eq_refl eq_refl))).
  reflexivity.
Defined.

(** ** The direction *)

(** C9, as stated, fails: with the three components tied, the source
    answers [right], where front > left > right asks for [front]. *)
Lemma C9_tie_counterexample :
  specDirection sample_1_1_1 = Front /\
  getClosestDirection sample_1_1_1 = Right /\
  Legacy.getClosestDirection sample_1_1_1 = Right /\
  getClosestDirection sample_1_1_1 <> specDirection sample_1_1_1.
Proof.
  repeat split; try reflexivity. discriminate.
Qed.

Lemma getClosestDirection_unfold (data : Dist.t) :
  getClosestDirection data =
  let f := toNumber (Dist.front data) in
  let l := toNumber (Dist.left data) in
  let r := toNumber (Dist.right data) in
  if Qltb f l
  then (if Qltb f r then Front else Right)
  else (if Qltb l r then Left else Right).
Proof.
  unfold getClosestDirection, reduce, keys. cbn [fold_left distances].
  destruct (Qltb (toNumber (Dist.front data)) (toNumber (Dist.left data)));
    reflexivity.
Qed.

(** C9, amended.  The direction is a component at the minimum, and among
    tied components the one written last wins: right before left before
    front.  Both services compute it the same way. *)
Theorem C9_direction_last_minimum_wins (data : Dist.t) :
  let f := toNumber (Dist.front data) in
  let l := toNumber (Dist.left data) in
  let r := toNumber (Dist.right data) in
  (toNumber (distances data (getClosestDirection data)) == minDistance data)%Q /\
  (getClosestDirection data = Right <-> (r <= f)%Q /\ (r <= l)%Q) /\
  (getClosestDirection data = Left <-> (l <= f)%Q /\ (l < r)%Q) /\
  (getClosestDirection data = Front <-> (f < l)%Q /\ (f < r)%Q) /\
  Legacy.getClosestDirection data = getClosestDirection data.
Proof.
  intros f l r.
  change (Legacy.getClosestDirection data) with (getClosestDirection data).
  rewrite getClosestDirection_unfold. cbv zeta. fold f l r.
  unfold minDistance, Math_min. fold f l r.
  destruct (Qltb f l) eqn:E1; [apply Qltb_lt in E1 | apply Qltb_ge in E1];
    [destruct (Qltb f r) eqn:E2; [apply Qltb_lt in E2 | apply Qltb_ge in E2]
    |destruct (Qltb l r) eqn:E2; [apply Qltb_lt in E2 | apply Qltb_ge in E2]];
    cbn [distances]; fold f l r;
    (split; [| repeat split; intros; try discriminate; try reflexivity; try lra]).
  all: destruct (Q.min_spec f l) as [[? E]|[? E]];
    destruct (Q.min_spec (Qmin f l) r) as [[? E']|[? E']].
  all: lra.
Qed.

(** ** Notification and the error log, step by step *)

Lemma notifyListeners_eq (event : string) (data : Payload) (c : Ctl) :
  notifyListeners event data c = (notified event data c, Ok tt).
Proof.
  unfold notifyListeners, notified, notifyLog, bind, observe, modify, get,
    try_catch, invoke, logError, ret.
  destruct c as [st dv rc ht rt mi ld dd ls el fm pl ts nt ck tr co].
  cbn [listeners set_trace set_console console trace connectionState device
       retryCount healthCheckTimer reconnectTimer monitoringInterval
       lastDataTimestamp distanceData errorLog fallbackMode phoneHasLidar
       timers nextTimerId clock].
  destruct (map_get event ls) as [cb|]; [destruct (cb data)|];
    cbn; rewrite ?app_nil_r; reflexivity.
Qed.

Lemma handleError_eq (errorType : ErrorType) (message : string) (c : Ctl) :
  handleError errorType message c = (handled errorType message c, Ok tt).
Proof.
  unfold handleError, handled, bind, get, modify, ret, pushShift, logError.
  cbn [errorLog set_errorLog].
  destruct (Nat.ltb ERROR_LOG_CAPACITY (List.length (errorLog c ++ [_])));
    rewrite notifyListeners_eq; reflexivity.
Qed.

Lemma exec_handleError (errorType : ErrorType) (message : string) (c : Ctl) :
  exec (handleError errorType message) c = handled errorType message c.
Proof. unfold exec. now rewrite handleError_eq. Qed.

Arguments notifyListeners : simpl never.
Arguments handleError : simpl never.

(** ** The error log stays within its capacity *)

Lemma lastn_short {A} (n : nat) (l : list A) :
  List.length l <= n -> lastn n l = l.
Proof.
  intro H. unfold lastn. replace (List.length l - n) with 0 by lia. reflexivity.
Qed.

Lemma lastn_length {A} (n : nat) (l : list A) :
  List.length (lastn n l) = Nat.min n (List.length l).
Proof.
  unfold lastn. rewrite length_skipn. lia.
Qed.

Lemma tl_skipn {A} (k : nat) (l : list A) : tl (skipn k l) = skipn (S k) l.
Proof.
  revert l. induction k as [|k IH]; intros [|x l]; try reflexivity.
  change (tl (skipn k l) = skipn (S k) l). apply IH.
Qed.

Lemma pushShift_lastn (l : list ErrorRecord) (e : ErrorRecord) :
  pushShift (lastn ERROR_LOG_CAPACITY l) e = lastn ERROR_LOG_CAPACITY (l ++ [e]).
Proof.
  unfold pushShift, shift.
  rewrite length_app, lastn_length. cbn [List.length].
  destruct (Nat.ltb_spec ERROR_LOG_CAPACITY
              (Nat.min ERROR_LOG_CAPACITY (List.length l) + 1)) as [H|H].
  - unfold lastn. rewrite length_app. cbn [List.length].
    assert (ERROR_LOG_CAPACITY <= List.length l) by lia.
    rewrite skipn_app.
    assert (0 < ERROR_LOG_CAPACITY) by (unfold ERROR_LOG_CAPACITY; lia).
    replace (List.length l + 1 - ERROR_LOG_CAPACITY - List.length l) with 0 by lia.
    replace (List.length l + 1 - ERROR_LOG_CAPACITY)
      with (S (List.length l - ERROR_LOG_CAPACITY)) by lia.
    change (skipn 0 [e]) with [e]. rewrite <- tl_skipn.
    destruct (skipn (List.length l - ERROR_LOG_CAPACITY) l) eqn:E; [|reflexivity].
    apply (f_equal (@List.length _)) in E. rewrite length_skipn in E.
    cbn [List.length] in E. lia.
  - assert (List.length l < ERROR_LOG_CAPACITY) by lia.
    rewrite !lastn_short; [reflexivity| |lia].
    rewrite length_app. cbn [List.length]. lia.
Qed.

Lemma insertErrors_log (errs : list (ErrorType * string)) (c : Ctl) (before : list ErrorRecord) :
  errorLog c = lastn ERROR_LOG_CAPACITY before ->
  let c' := insertErrors errs c in
  errorLog c' = lastn ERROR_LOG_CAPACITY (before ++ recordsOf errs c) /\
  clock c' = clock c /\ connectionState c' = connectionState c.
Proof.
  revert c before. induction errs as [|[ty msg] errs IH]; intros c before H.
  - cbn. rewrite app_nil_r. auto.
  - cbv zeta. unfold insertErrors. cbn [fold_left fst snd].
    rewrite !exec_handleError.
    specialize (IH (handled ty msg c) (before ++ [errorRecord ty msg c])).
    cbv zeta in IH. unfold insertErrors in IH.
    destruct IH as (L & K & S).
    + cbn. rewrite H. apply pushShift_lastn.
    + change (recordsOf errs (handled ty msg c)) with (recordsOf errs c) in L.
      change (clock (handled ty msg c)) with (clock c) in K.
      change (connectionState (handled ty msg c)) with (connectionState c) in S.
      cbv zeta. unfold insertErrors. split; [|split; assumption].
      rewrite L, <- app_assoc. reflexivity.
Qed.

(** C5.  Whatever errors are inserted into a log within its capacity, the
    log stays within 50 records and holds the last 50 of the records ever
    written, in insertion order; 51 insertions into an empty log leave
    exactly the records 2 to 51. *)
Theorem C5_error_log_bounded_fifo (c : Ctl) (errs : list (ErrorType * string)) :
  List.length (errorLog c) <= ERROR_LOG_CAPACITY ->
  let c' := insertErrors errs c in
  List.length (errorLog c') <= 50 /\
  errorLog c' = lastn 50 (errorLog c ++ recordsOf errs c) /\
  (errorLog c = [] -> List.length errs = 51 ->
   errorLog c' = tl (recordsOf errs c) /\ List.length (errorLog c') = 50).
Proof.
  intros H c'.
  destruct (insertErrors_log errs c (errorLog c)) as (L & _ & _).
  { symmetry. now apply lastn_short. }
  fold c' in L. change ERROR_LOG_CAPACITY with 50 in L.
  split; [|split].
  - rewrite L, lastn_length. lia.
  - exact L.
  - intros E N. rewrite L, E. cbn [app]. unfold lastn, recordsOf.
    rewrite length_map, N. cbn [Nat.sub skipn].
    destruct errs as [|e errs]; [discriminate|].
    cbn [map tl List.length]. rewrite length_map. cbn in N. split; [reflexivity|lia].
Qed.

Lemma C5_error_log_bounded_fifo_witness :
  errorLog (insertErrors fiftyOneErrors (newController 0))
  = tl (recordsOf fiftyOneErrors (newController 0)).
Proof.
  apply (C5_error_log_bounded_fifo (newController 0) fiftyOneErrors).
  - cbn. lia.
  - reflexivity.
  - reflexivity.
Defined.



(** ** Symbolic execution *)

Arguments notifyLog : simpl never.
Arguments pushShift : simpl never.
Arguments connectLoop : simpl never.
Arguments activateFallbackMode : simpl never.

(** One pass of evaluation over the monad, the setters and the blocks that
    do not branch on the subscribers. *)
Ltac norm :=
  lazy beta iota zeta delta
    [ bind try_catch get modify ret throw fmap exec result fst snd
      set_connectionState set_device set_retryCount set_healthCheckTimer
      set_reconnectTimer set_monitoringInterval set_lastDataTimestamp
      set_distanceData set_listeners set_errorLog set_fallbackMode
      set_phoneHasLidar set_timers set_nextTimerId set_clock set_trace set_console
      connectionState device retryCount healthCheckTimer reconnectTimer
      monitoringInterval lastDataTimestamp distanceData listeners errorLog
      fallbackMode phoneHasLidar timers nextTimerId clock trace console
      logInfo logError observe elapse sleep setTimer clearTimer
      notified handled activated connectionLost errorRecord clearHandle
      samplingTimer healthTimer reconnectTimeout
      startDistanceMonitoring stopDistanceMonitoring startHealthCheck
      stopHealthCheck startFallbackSensors raceConnection raceScan latency found
      connectionEstablished connectionFailed backoff announceConnecting
      isConnected ConnectionState_eqb MAX_RETRY_ATTEMPTS Nat.eqb orb negb andb
      err_type err_message err_timestamp err_state dev_id dev_name
      platformOS deviceTypeAsync modelName isIos isWeb isAndroid
      subscribe onDistanceUpdate onObstacleDetected onStateChange onError
      onFallbackActivated clearErrorLog ].

Lemma activateFallbackMode_eq (reason : string) (c : Ctl) :
  activateFallbackMode reason c = (activated reason c, Ok tt).
Proof.
  destruct c as [st dv rc ht rt mi ld dd ls el fm pl ts nt ck tc co].
  unfold activateFallbackMode.
  destruct pl; norm; rewrite !notifyListeners_eq; norm; reflexivity.
Qed.

(** Runs a method on a controller given by its fields: the monad is
    evaluated, and the methods that branch on the subscribers or on the
    length of the error log are replaced by their state transformers. *)
Ltac run_method :=
  norm;
  repeat (first [ rewrite notifyListeners_eq
                | rewrite handleError_eq
                | rewrite activateFallbackMode_eq ]; norm).

Lemma connectLoop_S (tr : Transport) (deviceId : string) (autoRetry : bool)
      (fuel attempt : nat) :
  connectLoop tr deviceId autoRetry (S fuel) attempt =
  try_catch
    (logInfo ("Connection attempt " ++ string_of_nat attempt ++ "/"
              ++ string_of_nat MAX_RETRY_ATTEMPTS) ;;
     raceConnection (tr attempt) deviceId ;;
     connectionEstablished deviceId attempt)
    (fun message =>
       logError ("Connection attempt " ++ string_of_nat attempt ++ " failed: "
                 ++ message) ;;
       if Nat.eqb attempt MAX_RETRY_ATTEMPTS || negb autoRetry
       then connectionFailed message
       else
         backoff attempt ;;
         connectLoop tr deviceId autoRetry fuel (S attempt)).
Proof. reflexivity. Qed.

Lemma exec_fmap {A B} (f : A -> B) (m : M A) (c : Ctl) :
  exec (fmap f m) c = exec m c.
Proof.
  unfold exec, fmap, bind. destruct (m c) as [c1 [a|e]]; reflexivity.
Qed.

Lemma retryDelay_formula (attempt : nat) :
  retryDelay attempt = (2000 * 2 ^ Z.of_nat (attempt - 1))%Z.
Proof. reflexivity. Qed.

Lemma retryDelay_increasing (attempt : nat) :
  1 <= attempt -> (retryDelay attempt < retryDelay (S attempt))%Z.
Proof.
  intro H. unfold retryDelay, RETRY_DELAY_BASE.
  replace (Z.of_nat (S attempt - 1)) with (Z.succ (Z.of_nat (attempt - 1))) by lia.
  rewrite Z.pow_succ_r by lia.
  assert (0 < 2 ^ Z.of_nat (attempt - 1))%Z by (apply Z.pow_pos_nonneg; lia).
  lia.
Qed.

Lemma attempts_app (a b : list Obs) : attempts (a ++ b) = attempts a ++ attempts b.
Proof.
  induction a as [|[] a IH]; cbn; rewrite ?IH; reflexivity.
Qed.

Lemma sleeps_app (a b : list Obs) : sleeps (a ++ b) = sleeps a ++ sleeps b.
Proof.
  induction a as [|[] a IH]; cbn; rewrite ?IH; reflexivity.
Qed.

Lemma stateChanges_app (a b : list Obs) :
  stateChanges (a ++ b) = stateChanges a ++ stateChanges b.
Proof.
  induction a as [|[ev [] | | |] a IH]; cbn [stateChanges app]; rewrite ?IH;
    try reflexivity.
  destruct (String.eqb ev "stateChange"); reflexivity.
Qed.


(** ** Predicates kept by every step *)

Lemma pushShift_bounded (l : list ErrorRecord) (e : ErrorRecord) :
  List.length l <= ERROR_LOG_CAPACITY ->
  List.length (pushShift l e) <= ERROR_LOG_CAPACITY.
Proof.
  intro H. rewrite <- (lastn_short ERROR_LOG_CAPACITY l H), pushShift_lastn.
  rewrite lastn_length. lia.
Qed.

Section Keeps.

Variable P : Ctl -> Prop.

Lemma keeps_ret {A} (a : A) : keeps P (ret a).
Proof. intros c H. exact H. Qed.

Lemma keeps_throw {A} (message : string) : keeps P (@throw A message).
Proof. intros c H. exact H. Qed.

Lemma keeps_const {A} (r : Res A) : keeps P (fun c => (c, r)).
Proof. intros c H. exact H. Qed.

Lemma keeps_get {A} (f : Ctl -> A) : keeps P (get f).
Proof. intros c H. exact H. Qed.

Lemma keeps_bind {A B} (m : M A) (k : A -> M B) :
  keeps P m -> (forall a, keeps P (k a)) -> keeps P (bind m k).
Proof.
  intros Hm Hk c H. specialize (Hm c H). unfold exec, bind in *.
  destruct (m c) as [c1 [a|e]]; cbn [fst] in *; [apply Hk, Hm|exact Hm].
Qed.

Lemma keeps_try_catch {A} (m : M A) (h : string -> M A) :
  keeps P m -> (forall e, keeps P (h e)) -> keeps P (try_catch m h).
Proof.
  intros Hm Hh c H. specialize (Hm c H). unfold exec, try_catch in *.
  destruct (m c) as [c1 [a|e]]; cbn [fst] in *; [exact Hm|apply Hh, Hm].
Qed.

Lemma keeps_fmap {A B} (f : A -> B) (m : M A) : keeps P m -> keeps P (fmap f m).
Proof.
  intro Hm. unfold fmap. apply keeps_bind; [exact Hm|]. intro a. apply keeps_ret.
Qed.

Lemma keeps_modify (f : Ctl -> Ctl) :
  (forall c, P c -> P (f c)) -> keeps P (modify f).
Proof.
  intros Hf c H. apply Hf, H.
Qed.

End Keeps.

(** The two predicates on a controller given by its fields. *)
Ltac kept :=
  unfold bounded, fallbackFlagged, ERROR_LOG_CAPACITY in *; cbn in *;
  solve [ assumption | lia | intuition congruence ].

Lemma bounded_handleError (errorType : ErrorType) (message : string) :
  keeps bounded (handleError errorType message).
Proof.
  intros c H. unfold bounded in *. rewrite exec_handleError.
  destruct c. cbn in *. now apply pushShift_bounded.
Qed.

Lemma flagged_handleError (errorType : ErrorType) (message : string) :
  keeps fallbackFlagged (handleError errorType message).
Proof.
  intros c H. rewrite exec_handleError. destruct c. exact H.
Qed.

Lemma bounded_notifyListeners (event : string) (data : Payload) :
  keeps bounded (notifyListeners event data).
Proof.
  intros c H. unfold exec. rewrite notifyListeners_eq. destruct c. exact H.
Qed.

Lemma flagged_notifyListeners (event : string) (data : Payload) :
  keeps fallbackFlagged (notifyListeners event data).
Proof.
  intros c H. unfold exec. rewrite notifyListeners_eq. destruct c. exact H.
Qed.

Lemma bounded_setTimer (k : TimerKind) (delay : Z) : keeps bounded (setTimer k delay).
Proof. intros c H. destruct c. exact H. Qed.

Lemma flagged_setTimer (k : TimerKind) (delay : Z) :
  keeps fallbackFlagged (setTimer k delay).
Proof. intros c H. destruct c. exact H. Qed.

Create HintDb keeps.

#[local] Hint Resolve keeps_ret keeps_throw keeps_const keeps_get
  bounded_handleError flagged_handleError
  bounded_notifyListeners flagged_notifyListeners
  bounded_setTimer flagged_setTimer : keeps.

Ltac keeps_walk :=
  repeat
    match goal with
    | |- forall _, _ => intro
    | |- keeps _ (bind _ _) => apply keeps_bind
    | |- keeps _ (try_catch _ _) => apply keeps_try_catch
    | |- keeps _ (fmap _ _) => apply keeps_fmap
    | |- keeps _ (modify _) =>
        apply keeps_modify;
        let c := fresh "c" in let H := fresh "H" in
        intros c H; destruct c; kept
    | |- keeps _ (let _ := _ in _) => cbv zeta
    | |- keeps _ (if ?b then _ else _) => destruct b
    | |- keeps _ (match ?x with _ => _ end) => destruct x
    | |- keeps _ _ => solve [auto with keeps]
    | |- keeps _ _ =>
        progress unfold logInfo, logError, observe, elapse, sleep, clearTimer,
          clearErrorLog, startDistanceMonitoring, stopDistanceMonitoring,
          startHealthCheck, stopHealthCheck, startFallbackSensors,
          raceConnection, raceScan, backoff, announceConnecting,
          onDistanceUpdate, onObstacleDetected, onStateChange, onError,
          onFallbackActivated
    end.

Lemma keeps_activateFallbackMode (P : Ctl -> Prop) (reason : string) :
  P = bounded \/ P = fallbackFlagged ->
  keeps P (activateFallbackMode reason).
Proof.
  intros [-> | ->] c H; unfold exec; rewrite activateFallbackMode_eq;
    destruct c; norm; kept.
Qed.

Lemma keeps_connectionEstablished (P : Ctl -> Prop) (deviceId : string) (attempt : nat) :
  P = bounded \/ P = fallbackFlagged ->
  keeps P (connectionEstablished deviceId attempt).
Proof.
  intros [-> | ->] c H; unfold exec, connectionEstablished;
    destruct c; run_method; kept.
Qed.

Lemma keeps_connectLoop (P : Ctl -> Prop) (tr : Transport) (deviceId : string)
      (autoRetry : bool) (fuel attempt : nat) :
  P = bounded \/ P = fallbackFlagged ->
  keeps P (connectLoop tr deviceId autoRetry fuel attempt).
Proof.
  intro HP. pose proof (fun r => keeps_activateFallbackMode P r HP) as HA.
  pose proof (fun id a => keeps_connectionEstablished P id a HP) as HE.
  revert attempt. induction fuel as [|fuel IH]; intro attempt.
  - apply keeps_ret.
  - rewrite connectLoop_S. unfold connectionFailed.
    destruct HP as [-> | ->]; keeps_walk.
Qed.

Lemma keeps_connectToDevice (P : Ctl -> Prop) (tr : Transport) (deviceId : string)
      (autoRetry : bool) :
  P = bounded \/ P = fallbackFlagged ->
  keeps P (connectToDevice tr deviceId autoRetry).
Proof.
  intro HP.
  pose proof (fun f a => keeps_connectLoop P tr deviceId autoRetry f a HP) as HL.
  unfold connectToDevice. destruct HP as [-> | ->]; keeps_walk.
Qed.

Lemma keeps_call (P : Ctl -> Prop) (o : Op) :
  P = bounded \/ P = fallbackFlagged -> keeps P (call o).
Proof.
  intro HP.
  pose proof (fun r => keeps_activateFallbackMode P r HP) as HA.
  pose proof (fun tr id ar => keeps_connectToDevice P tr id ar HP) as HL.
  destruct o;
    unfold call, subscribe, initialize, checkDeviceCapabilities,
      checkBluetoothAvailable, scanForDevice, scanDiscovery, disconnect,
      monitoringTick, simulateFallbackDistanceData, simulateDistanceReading,
      updateDistanceData, checkConnectionHealth, handleConnectionLoss,
      reconnectCallback;
    destruct HP as [-> | ->]; keeps_walk.
Qed.

Lemma reachable_keeps (P : Ctl -> Prop) (c : Ctl) :
  P = bounded \/ P = fallbackFlagged ->
  (forall now, P (newController now)) ->
  reachable c -> P c.
Proof.
  intros HP H0 (now & ops & ->). specialize (H0 now).
  revert H0. generalize (newController now).
  induction ops as [|o ops IH]; intros c H; [exact H|].
  cbn [runAll fold_left]. apply IH. apply (keeps_call P o HP c H).
Qed.

(** In every reachable state the error log holds at most 50 records. *)
Lemma reachable_errorLog_bounded (c : Ctl) :
  reachable c -> List.length (errorLog c) <= 50.
Proof.
  apply (reachable_keeps bounded); [left; reflexivity|].
  intro now. unfold bounded, ERROR_LOG_CAPACITY. cbn. lia.
Qed.

(** In every reachable state in fallback the flag is set. *)
Lemma reachable_fallback_flagged (c : Ctl) :
  reachable c -> connectionState c = FALLBACK -> fallbackMode c = true.
Proof.
  apply (reachable_keeps fallbackFlagged); [right; reflexivity|].
  intros now H. discriminate H.
Qed.

(** ** Connecting over a transport that never answers *)

Lemma connectToDevice_exhausted (tr : Transport) (deviceId : string) (c : Ctl) :
  (forall attempt, tr attempt <> Established) ->
  exists e, exhausted tr deviceId c e.
Proof.
  intros H.
  pose proof (H 1) as H1. pose proof (H 2) as H2. pose proof (H 3) as H3.
  destruct c as [st dv rc ht rt mi ld dd ls el fm pl ts nt ck tc co].
  unfold exhausted, exec, result.
  destruct (tr 1) eqn:T1; [congruence| |];
    (destruct (tr 2) eqn:T2; [congruence| |]);
    (destruct (tr 3) eqn:T3; [congruence| |]);
    match goal with
    | |- context [connectToDevice tr deviceId true ?s] =>
        eassert (E : connectToDevice tr deviceId true s = _)
          by (unfold connectToDevice; run_method;
              rewrite connectLoop_S, T1; run_method;
              rewrite connectLoop_S, T2; run_method;
              rewrite connectLoop_S, T3; run_method; reflexivity)
    end;
    rewrite E; norm; eexists;
    (split; [|split; [|split; [reflexivity|split; [|split; [reflexivity|auto]]]]]);
    try reflexivity; rewrite <- !app_assoc; reflexivity.
Qed.

(** One pass of the loop whose attempt fails and is retried: the next
    pass starts from the state the pass leaves, in which the time of the
    race and then the delay of the backoff have gone by. *)
Lemma retried_attempt
      (tr : Transport) (deviceId : string) (attempt fuel : nat) (c : Ctl) :
  tr attempt <> Established ->
  attempt <> MAX_RETRY_ATTEMPTS ->
  let c1 := exec (connectLoop tr deviceId true 1 attempt) c in
  connectLoop tr deviceId true (S fuel) attempt c
  = connectLoop tr deviceId true fuel (S attempt) c1 /\
  clock c1 = (clock c + raceTime (tr attempt) + retryDelay attempt)%Z /\
  trace c1 = trace c ++ [Establish deviceId; Sleep (retryDelay attempt)].
Proof.
  intros F L. cbv zeta. unfold exec.
  destruct c as [st dv rc ht rt mi ld dd ls el fm pl ts nt ck tc co].
  rewrite (connectLoop_S tr deviceId true fuel attempt),
          (connectLoop_S tr deviceId true 0 attempt).
  change (connectLoop tr deviceId true 0 (S attempt)) with (@ret (option ConnectResult) None).
  destruct attempt as [|[|[|[|n]]]];
    [ | | | exfalso; apply L; reflexivity | ];
    (destruct (tr _) as [|message|]; [congruence| |]);
    norm; rewrite <- ?app_assoc; repeat split; reflexivity.
Qed.

(** C1.  With [autoRetry] set and a transport that fails every attempt,
    [connectToDevice] makes exactly three attempts and waits
    [2000 * 2^(attempt-1)] ms after the first and after the second (2000,
    then 4000: each delay longer than the one before), then records a
    [CONNECTION_FAILED] error, announces [FAILED], activates fallback mode
    and throws.  The waiting is time that goes by: a pass of the loop
    whose attempt fails and is not the last ends, and the next attempt
    starts, when the clock has advanced by the time of the race and then
    by the delay, and the call ends when the three races and the two
    delays have gone by. *)
Theorem C1_three_attempts_backoff_fallback
        (tr : Transport) (deviceId : string) (c : Ctl) :
  (forall attempt, tr attempt <> Established) ->
  let c' := exec (connectToDevice tr deviceId true) c in
  exists e : ErrorRecord,
    exhausted tr deviceId c e /\
    attempts (trace c') = attempts (trace c) ++ [deviceId; deviceId; deviceId] /\
    sleeps (trace c') = sleeps (trace c) ++ [2000; 4000]%Z /\
    stateChanges (trace c') = stateChanges (trace c) ++ [CONNECTING; FAILED; FALLBACK] /\
    (forall attempt, 1 <= attempt ->
       retryDelay attempt = (2000 * 2 ^ Z.of_nat (attempt - 1))%Z /\
       (retryDelay attempt < retryDelay (S attempt))%Z) /\
    (forall attempt fuel c0, attempt <> 3 ->
       let c1 := exec (connectLoop tr deviceId true 1 attempt) c0 in
       connectLoop tr deviceId true (S fuel) attempt c0
       = connectLoop tr deviceId true fuel (S attempt) c1 /\
       clock c1 = (clock c0 + raceTime (tr attempt) + retryDelay attempt)%Z /\
       trace c1 = trace c0 ++ [Establish deviceId; Sleep (retryDelay attempt)]) /\
    clock c' = (clock c + raceTime (tr 1%nat) + 2000
                        + raceTime (tr 2%nat) + 4000
                        + raceTime (tr 3%nat))%Z /\
    (forall a, (0 < raceTime a)%Z).
Proof.
  intros H c'.
  destruct (connectToDevice_exhausted tr deviceId c H) as (e & T).
  exists e. split; [exact T|].
  destruct T as (_ & _ & _ & T & _ & _ & _ & _ & K). fold c' in T, K.
  split; [rewrite T, attempts_app; reflexivity|].
  split; [rewrite T, sleeps_app; reflexivity|].
  split; [rewrite T, stateChanges_app; reflexivity|].
  split.
  { intros attempt L. split; [apply retryDelay_formula|now apply retryDelay_increasing]. }
  split.
  { intros attempt fuel c0 L. apply retried_attempt; [apply H|exact L]. }
  split; [exact K|].
  intros [| |]; reflexivity.
Qed.

Lemma C1_three_attempts_backoff_fallback_witness :
  connectionState (exec (connectToDevice alwaysRejects "DRISHTIKA_001" true)
                        (newController 0)) = FALLBACK.
Proof.
  destruct (C1_three_attempts_backoff_fallback alwaysRejects "DRISHTIKA_001"
              (newController 0)) as (e & W & _).
  - intros attempt. discriminate.
  - apply W.
Defined.

(** Two failures, then a connection at the third attempt: the two delays
    are slept, nothing is written to the error log (only the console hears
    of a failed attempt that is retried), and the controller is connected
    after 9 seconds. *)
Example third_attempt_connects :
  let c := exec (connectToDevice failsTwice "X" true) (newController 0) in
  result (connectToDevice failsTwice "X" true) (newController 0)
    = Ok (Some {| cr_success := true;
                  cr_device := Some {| dev_id := "X"; dev_name := "Drishtika" |};
                  cr_attempt := 3 |}) /\
  connectionState c = CONNECTED /\
  device c = Some {| dev_id := "X"; dev_name := "Drishtika" |} /\
  sleeps (trace c) = [2000; 4000]%Z /\
  stateChanges (trace c) = [CONNECTING; CONNECTED] /\
  errorLog c = [] /\
  clock c = 9000%Z /\
  timers c = [healthTimer 1; samplingTimer 2].
Proof.
  vm_compute. repeat split; reflexivity.
Qed.

(** ** Re-entering fallback mode *)

(** C6, as stated, fails: a second activation notifies both channels again
    and starts one more sampling timer beside the first. *)
Lemma C6_second_activation_counterexample :
  let c := inFallback in
  let c' := exec (activateFallbackMode "User requested fallback mode") c in
  reachable c /\
  connectionState c = FALLBACK /\
  trace c' = trace c ++
             [ Notify "stateChange" (PState FALLBACK);
               Notify "fallbackActivated"
                      (PFallback "User requested fallback mode" false) ] /\
  timers c = [samplingTimer 1] /\
  timers c' = [samplingTimer 1; samplingTimer 2] /\
  ~ sameBeyondLogging c c'.
Proof.
  cbv zeta. split; [eexists; eexists; reflexivity|].
  split; [vm_compute; reflexivity|]. split; [vm_compute; reflexivity|].
  split; [vm_compute; reflexivity|]. split; [vm_compute; reflexivity|].
  unfold sameBeyondLogging. intro E.
  apply (f_equal timers) in E. vm_compute in E. discriminate.
Qed.

(** C6, amended.  A second activation leaves the connection state, the
    fallback flag, the device handle, the retry counter, the error log, the
    last sample and its timestamp, the subscribers and the clock as they
    were; it returns normally; and it notifies the state channel and the
    fallback channel once more, with the new reason. *)
Theorem C6_second_activation_keeps_state (reason : string) (c : Ctl) :
  reachable c -> connectionState c = FALLBACK ->
  let c' := exec (activateFallbackMode reason) c in
  result (activateFallbackMode reason) c = Ok tt /\
  connectionState c' = connectionState c /\
  fallbackMode c' = fallbackMode c /\
  device c' = device c /\
  retryCount c' = retryCount c /\
  errorLog c' = errorLog c /\
  distanceData c' = distanceData c /\
  lastDataTimestamp c' = lastDataTimestamp c /\
  listeners c' = listeners c /\
  phoneHasLidar c' = phoneHasLidar c /\
  clock c' = clock c /\
  trace c' = trace c ++
             [ Notify "stateChange" (PState FALLBACK);
               Notify "fallbackActivated" (PFallback reason (phoneHasLidar c)) ].
Proof.
  intros Rc S c'. pose proof (reachable_fallback_flagged c Rc S) as F.
  subst c'. unfold exec, result.
  rewrite activateFallbackMode_eq.
  destruct c as [st dv rc ht rt mi ld dd ls el fm pl ts nt ck tc co].
  cbn [connectionState fallbackMode] in S, F. subst st fm.
  norm. rewrite <- app_assoc. repeat split; reflexivity.
Qed.

Lemma C6_second_activation_keeps_state_witness :
  connectionState (exec (activateFallbackMode "User requested fallback mode") inFallback)
  = connectionState inFallback.
Proof.
  assert (reachable inFallback) as R by (eexists; eexists; reflexivity).
  assert (connectionState inFallback = FALLBACK) as S by (vm_compute; reflexivity).
  exact (proj1 (proj2 (C6_second_activation_keeps_state
                         "User requested fallback mode" inFallback R S))).
Defined.

(** ** Scanning *)

Lemma scanForDevice_found (d : Discovery) (timeout : Z) (c : Ctl) (dev : ScannedDevice) :
  (latency d <= timeout)%Z -> found d = Some dev ->
  let c' := exec (scanForDevice d timeout) c in
  result (scanForDevice d timeout) c = Ok dev /\
  connectionState c' = CONNECTING /\
  trace c' = trace c ++ [Notify "stateChange" (PState CONNECTING); PerformScan] /\
  device c' = device c /\ errorLog c' = errorLog c /\ timers c' = timers c.
Proof.
  intros L F.
  destruct c as [st dv rc ht rt mi ld dd ls el fm pl ts nt ck tc co].
  destruct d as [lat fnd]. cbn [latency found] in L, F. subst fnd.
  apply Z.leb_le in L.
  cbv zeta. unfold exec, result.
  match goal with
  | |- context [scanForDevice ?d timeout ?s] =>
      eassert (E : scanForDevice d timeout s = _)
        by (unfold scanForDevice, scanDiscovery; run_method; rewrite L; run_method; reflexivity)
  end.
  rewrite E. norm. rewrite <- app_assoc.
  repeat split; reflexivity.
Qed.

Lemma scanForDevice_nothing (d : Discovery) (timeout : Z) (c : Ctl) :
  (latency d <= timeout)%Z -> found d = None ->
  let c' := exec (scanForDevice d timeout) c in
  result (scanForDevice d timeout) c = Throw "No device found" /\
  connectionState c' = DISCONNECTED /\
  errorLog c' = pushShift (errorLog c)
                  {| err_type := DEVICE_NOT_FOUND; err_message := "No device found";
                     err_timestamp := (clock c + latency d)%Z;
                     err_state := CONNECTING |} /\
  device c' = device c /\ fallbackMode c' = fallbackMode c /\ timers c' = timers c.
Proof.
  intros L F.
  destruct c as [st dv rc ht rt mi ld dd ls el fm pl ts nt ck tc co].
  destruct d as [lat fnd]. cbn [latency found] in L, F. subst fnd.
  apply Z.leb_le in L.
  cbv zeta. unfold exec, result.
  match goal with
  | |- context [scanForDevice ?d timeout ?s] =>
      eassert (E : scanForDevice d timeout s = _)
        by (unfold scanForDevice, scanDiscovery; run_method; rewrite L; run_method; reflexivity)
  end.
  rewrite E. norm. repeat split; reflexivity.
Qed.

Lemma scanForDevice_timeout (d : Discovery) (timeout : Z) (c : Ctl) :
  (timeout < latency d)%Z ->
  let c' := exec (scanForDevice d timeout) c in
  let e := {| err_type := DEVICE_NOT_FOUND; err_message := "Scan timeout";
              err_timestamp := (clock c + Z.max 0 timeout)%Z;
              err_state := CONNECTING |} in
  result (scanForDevice d timeout) c = Throw "Scan timeout" /\
  connectionState c' = DISCONNECTED /\
  errorLog c' = pushShift (errorLog c) e /\
  trace c' = trace c ++ [ Notify "stateChange" (PState CONNECTING); PerformScan;
                          Notify "error" (PError e);
                          Notify "stateChange" (PState DISCONNECTED) ] /\
  device c' = device c /\ timers c' = timers c.
Proof.
  intros L.
  destruct c as [st dv rc ht rt mi ld dd ls el fm pl ts nt ck tc co].
  destruct d as [lat fnd]. cbn [latency] in L.
  apply Z.leb_gt in L.
  cbv zeta. unfold exec, result.
  match goal with
  | |- context [scanForDevice ?d timeout ?s] =>
      eassert (E : scanForDevice d timeout s = _)
        by (unfold scanForDevice, scanDiscovery; run_method; rewrite L; run_method; reflexivity)
  end.
  rewrite E. norm. rewrite <- !app_assoc.
  repeat split; reflexivity.
Qed.

(** C8 against the code.  A scan from [DISCONNECTED] that finds the device
    returns it and leaves the controller [CONNECTING]: the state set on
    entry is put back only on the failure path.  A scan that times out
    throws, records [DEVICE_NOT_FOUND] and ends [DISCONNECTED]. *)
Theorem C8_successful_scan_leaves_connecting :
  let c := newController 0 in
  let found := exec (scanForDevice performScan 10000) c in
  let missed := exec (scanForDevice performScan 1000) c in
  connectionState c = DISCONNECTED /\
  result (scanForDevice performScan 10000) c
    = Ok {| sd_id := "DRISHTIKA_001"; sd_name := "Drishtika Wearable";
            sd_rssi := -60; sd_batteryLevel := 85 |} /\
  connectionState found = CONNECTING /\
  stateChanges (trace found) = [CONNECTING] /\
  result (scanForDevice performScan 1000) c = Throw "Scan timeout" /\
  connectionState missed = DISCONNECTED /\
  map err_type (errorLog missed) = [DEVICE_NOT_FOUND] /\
  stateChanges (trace missed) = [CONNECTING; DISCONNECTED].
Proof.
  vm_compute. repeat split; reflexivity.
Qed.

(** ** Disconnecting *)

Lemma disconnect_eq (c : Ctl) :
  disconnect c =
  (notified "disconnected" PEmpty
     (notified "stateChange" (PState DISCONNECTED)
        (set_retryCount 0
           (set_connectionState DISCONNECTED
              (set_device None
                 (set_reconnectTimer None
                    (set_monitoringInterval None
                       (set_healthCheckTimer None
                          (set_timers
                             (clearHandle (reconnectTimer c)
                                (clearHandle (monitoringInterval c)
                                   (clearHandle (healthCheckTimer c) (timers c))))
                             (set_console
                                (console c ++ [(LInfo, "Disconnecting from device")])
                                c))))))))),
   Ok {| dr_success := true; dr_error := None |}).
Proof.
  unfold disconnect.
  destruct c as [st dv rc [ht|] [rt|] [mi|] ld dd ls el fm pl ts nt ck tc co];
    run_method; reflexivity.
Qed.

Lemma disconnect_effect (c : Ctl) :
  let c' := exec disconnect c in
  result disconnect c = Ok {| dr_success := true; dr_error := None |} /\
  connectionState c' = DISCONNECTED /\
  device c' = None /\
  retryCount c' = 0 /\
  healthCheckTimer c' = None /\
  monitoringInterval c' = None /\
  reconnectTimer c' = None /\
  timers c' = clearHandle (reconnectTimer c)
                (clearHandle (monitoringInterval c)
                   (clearHandle (healthCheckTimer c) (timers c))) /\
  errorLog c' = errorLog c /\
  fallbackMode c' = fallbackMode c /\
  trace c' = trace c ++ [ Notify "stateChange" (PState DISCONNECTED);
                          Notify "disconnected" PEmpty ].
Proof.
  unfold exec, result. rewrite disconnect_eq.
  destruct c as [st dv rc ht rt mi ld dd ls el fm pl ts nt ck tc co].
  norm. rewrite <- app_assoc. repeat split; reflexivity.
Qed.

(** A second [disconnect] changes no field of the controller and no timer;
    it notifies the two channels again. *)
Lemma disconnect_twice (c : Ctl) :
  let c1 := exec disconnect c in
  let c2 := exec disconnect c1 in
  result disconnect c1 = Ok {| dr_success := true; dr_error := None |} /\
  set_trace [] (set_console [] c2) = set_trace [] (set_console [] c1) /\
  trace c2 = trace c1 ++ [ Notify "stateChange" (PState DISCONNECTED);
                           Notify "disconnected" PEmpty ].
Proof.
  unfold exec, result. rewrite !disconnect_eq.
  destruct c as [st dv rc ht rt mi ld dd ls el fm pl ts nt ck tc co].
  norm. rewrite <- app_assoc. repeat split; reflexivity.
Qed.

(** C7 against the code.  After a lost connection and a failed
    reconnection two sampling timers run, and [monitoringInterval] holds the
    second only.  [disconnect] succeeds, clears the handle, resets the
    counter and ends [DISCONNECTED], but the first sampling timer stays
    with the runtime and still fires. *)
Theorem C7_disconnect_leaves_a_sampling_timer :
  let c := lostAndFallenBack in
  let c' := exec disconnect c in
  reachable c /\
  connectionState c = FALLBACK /\
  timers c = [samplingTimer 4; samplingTimer 5] /\
  monitoringInterval c = Some 5 /\
  result disconnect c = Ok {| dr_success := true; dr_error := None |} /\
  connectionState c' = DISCONNECTED /\
  device c' = None /\
  retryCount c' = 0 /\
  timers c' = [samplingTimer 4] /\
  trace (run (OpSamplingFires 4 1 1 1) c')
    = trace c' ++
      [ Notify "distance"
          (PDistance (Dist.mk (Some 1%Q) (Some 1%Q) (Some 1%Q) (Some (clock c'))
                              (Some camera_depth_estimation)));
        Notify "obstacle" (PObstacle WARNING 1%Q Right (Some camera_depth_estimation)) ].
Proof.
  cbv zeta. split; [eexists; eexists; reflexivity|].
  vm_compute. repeat split; reflexivity.
Qed.

(** ** The heartbeat *)

Lemma handleConnectionLoss_eq (c : Ctl) :
  handleConnectionLoss c = (connectionLost c, Ok tt).
Proof.
  unfold handleConnectionLoss, connectionLost.
  destruct c as [st dv rc [ht|] rt [mi|] ld dd ls el fm pl ts nt ck tc co];
    run_method; reflexivity.
Qed.

Lemma checkConnectionHealth_not_connected (c : Ctl) :
  connectionState c <> CONNECTED -> checkConnectionHealth c = (c, Ok tt).
Proof.
  intro H. unfold checkConnectionHealth.
  destruct c as [st dv rc ht rt mi ld dd ls el fm pl ts nt ck tc co].
  cbn [connectionState] in H. destruct st; try congruence; reflexivity.
Qed.

Lemma checkConnectionHealth_recent (c : Ctl) (t : Z) :
  lastDataTimestamp c = Some t ->
  (clock c - t <= 2 * HEALTH_CHECK_INTERVAL)%Z ->
  checkConnectionHealth c = (c, Ok tt).
Proof.
  intros L H. unfold checkConnectionHealth.
  destruct c as [st dv rc ht rt mi ld dd ls el fm pl ts nt ck tc co].
  cbn [lastDataTimestamp clock] in L, H. subst ld.
  assert (Z.ltb (HEALTH_CHECK_INTERVAL * 2) (ck - orNow (Some t) ck) = false) as F.
  { apply Z.ltb_ge. unfold orNow, HEALTH_CHECK_INTERVAL in *.
    destruct (Z.eqb t 0); lia. }
  destruct st; norm; rewrite ?F; reflexivity.
Qed.

Lemma checkConnectionHealth_never_sampled (c : Ctl) :
  lastDataTimestamp c = None -> checkConnectionHealth c = (c, Ok tt).
Proof.
  intros L. unfold checkConnectionHealth.
  destruct c as [st dv rc ht rt mi ld dd ls el fm pl ts nt ck tc co].
  cbn [lastDataTimestamp] in L. subst ld.
  assert (Z.ltb (HEALTH_CHECK_INTERVAL * 2) (ck - orNow None ck) = false) as F.
  { apply Z.ltb_ge. unfold orNow, HEALTH_CHECK_INTERVAL. lia. }
  destruct st; norm; rewrite ?F; reflexivity.
Qed.








(** ** What holds in every reachable state *)

(** C2, as stated, fails: after a lost connection and a failed
    reconnection the controller is in fallback mode and still holds the
    device it had. *)
Lemma C2_handle_kept_in_fallback_counterexample :
  reachable lostAndFallenBack /\
  connectionState lostAndFallenBack = FALLBACK /\
  device lostAndFallenBack
    = Some {| dev_id := "DRISHTIKA_001"; dev_name := "Drishtika" |} /\
  fallbackMode lostAndFallenBack = true /\
  ~ specInvariant lostAndFallenBack.
Proof.
  split; [eexists; eexists; reflexivity|].
  assert (connectionState lostAndFallenBack = FALLBACK) as S
      by (vm_compute; reflexivity).
  assert (device lostAndFallenBack
          = Some {| dev_id := "DRISHTIKA_001"; dev_name := "Drishtika" |}) as D
      by (vm_compute; reflexivity).
  assert (fallbackMode lostAndFallenBack = true) as F
      by (vm_compute; reflexivity).
  repeat split; try assumption.
  intros [_ N]. apply N. split; [exact F|]. rewrite D. discriminate.
Qed.

Lemma settled_Inv (c : Ctl) : settled c -> Inv c.
Proof.
  unfold settled, Inv. intros [(S & D & F)|(N1 & N2)] [H|H]; try congruence; auto.
Qed.

Lemma sameCore_Inv (c c' : Ctl) : sameCore c c' -> Inv c -> Inv c'.
Proof.
  unfold sameCore, Inv. intros (S & D & F) I. rewrite S, D, F. exact I.
Qed.

Lemma sameCore_trans (a b c : Ctl) : sameCore a b -> sameCore b c -> sameCore a c.
Proof.
  unfold sameCore. intros (S1 & D1 & F1) (S2 & D2 & F2).
  rewrite S2, D2, F2. auto.
Qed.

(** The invariant on a controller given by its fields. *)
Ltac inv_done :=
  unfold Inv in *; norm;
  repeat match goal with
         | H : context [connectionState _] |- _ => progress cbn in H
         end;
  intuition congruence.

Lemma connectLoop_core (tr : Transport) (deviceId : string) (autoRetry : bool)
      (fuel attempt : nat) (c : Ctl) :
  let c' := exec (connectLoop tr deviceId autoRetry fuel attempt) c in
  settled c' \/ sameCore c c'.
Proof.
  revert attempt c. induction fuel as [|fuel IH]; intros attempt c.
  - right. unfold sameCore. cbn. auto.
  - cbv zeta. unfold exec.
    remember (Nat.eqb attempt MAX_RETRY_ATTEMPTS || negb autoRetry) as final eqn:Hf.
    destruct c as [st dv rc ht rt mi ld dd ls el fm pl ts nt ck tc co].
    destruct (tr attempt) eqn:T, final;
      match goal with
      | |- context [connectLoop tr deviceId autoRetry (S fuel) attempt ?s] =>
          eassert (E : connectLoop tr deviceId autoRetry (S fuel) attempt s = _)
            by (rewrite connectLoop_S, T, <- Hf; run_method; reflexivity)
      end;
      rewrite E;
      try (left; unfold settled; norm;
           first [ left; repeat split; congruence
                 | right; split; congruence ]).
    all: match goal with
         | |- context [connectLoop _ _ _ _ ?e ?s] =>
             destruct (IH e s) as [G|G];
             [left; exact G
             |right; refine (sameCore_trans _ s _ _ G);
              unfold sameCore; norm; repeat split; reflexivity]
         end.
Qed.

Lemma connectToDevice_unfold (tr : Transport) (deviceId : string) (autoRetry : bool)
      (c : Ctl) :
  connectToDevice tr deviceId autoRetry c =
  connectLoop tr deviceId autoRetry MAX_RETRY_ATTEMPTS 1
    (notified "stateChange" (PState CONNECTING) (set_connectionState CONNECTING c)).
Proof.
  unfold connectToDevice.
  destruct c as [st dv rc ht rt mi ld dd ls el fm pl ts nt ck tc co].
  run_method. reflexivity.
Qed.

Lemma connectToDevice_Inv (tr : Transport) (deviceId : string) (autoRetry : bool)
      (c : Ctl) :
  Inv (exec (connectToDevice tr deviceId autoRetry) c).
Proof.
  unfold exec. rewrite connectToDevice_unfold.
  destruct (connectLoop_core tr deviceId autoRetry MAX_RETRY_ATTEMPTS 1
              (notified "stateChange" (PState CONNECTING)
                        (set_connectionState CONNECTING c)))
    as [G|(G1 & _)].
  - apply settled_Inv, G.
  - unfold exec in G1. intros [H|H]; rewrite G1 in H;
      destruct c; cbn in H; discriminate.
Qed.

Lemma activated_Inv (reason : string) (c : Ctl) : Inv (activated reason c).
Proof.
  destruct c. inv_done.
Qed.

Lemma initialize_Inv (env : Env) (c : Ctl) : Inv c -> Inv (exec (initialize env) c).
Proof.
  intro H. unfold exec, initialize, checkDeviceCapabilities, checkBluetoothAvailable.
  destruct c as [st dv rc ht rt mi ld dd ls el fm pl ts nt ck tc co].
  destruct env as [os dt mn].
  destruct os, dt; run_method; inv_done.
Qed.

Lemma scanForDevice_Inv (d : Discovery) (timeout : Z) (c : Ctl) :
  Inv (exec (scanForDevice d timeout) c).
Proof.
  destruct (Z.leb_spec (latency d) timeout) as [L|L].
  - destruct (found d) as [dev|] eqn:F.
    + destruct (scanForDevice_found d timeout c dev L F) as (_ & S & _).
      intros [H|H]; rewrite S in H; discriminate.
    + destruct (scanForDevice_nothing d timeout c L F) as (_ & S & _).
      intros [H|H]; rewrite S in H; discriminate.
  - destruct (scanForDevice_timeout d timeout c L) as (_ & S & _).
    intros [H|H]; rewrite S in H; discriminate.
Qed.

Lemma disconnect_Inv (c : Ctl) : Inv (exec disconnect c).
Proof.
  destruct (disconnect_effect c) as (_ & S & _).
  intros [H|H]; rewrite S in H; discriminate.
Qed.

Lemma monitoringTick_core (f l r : Q) (c : Ctl) :
  sameCore c (exec (monitoringTick f l r) c).
Proof.
  unfold exec, monitoringTick, simulateFallbackDistanceData, simulateDistanceReading,
    updateDistanceData.
  destruct c as [st dv rc ht rt mi ld dd ls el fm pl ts nt ck tc co].
  destruct fm; run_method;
    match goal with
    | |- context [isSafe ?x] => destruct (isSafe x)
    end; run_method; unfold sameCore; norm; repeat split; reflexivity.
Qed.

Lemma checkConnectionHealth_Inv (c : Ctl) :
  Inv c -> Inv (exec checkConnectionHealth c).
Proof.
  intro H. unfold exec, checkConnectionHealth.
  destruct c as [st dv rc ht rt mi ld dd ls el fm pl ts nt ck tc co].
  destruct st; norm; try inv_done.
  destruct (Z.ltb _ _); [|inv_done].
  rewrite handleConnectionLoss_eq. inv_done.
Qed.

Lemma reconnectCallback_Inv (tr : Transport) (c : Ctl) :
  Inv c -> Inv (exec (reconnectCallback tr) c).
Proof.
  intro H. unfold exec, reconnectCallback.
  destruct c as [st [[id name]|] rc ht rt mi ld dd ls el fm pl ts nt ck tc co];
    norm; [|exact H].
  match goal with
  | |- context [connectToDevice tr id true ?s] =>
      pose proof (connectToDevice_Inv tr id true s) as I;
      unfold exec in I;
      remember (connectToDevice tr id true s) as q eqn:Q
  end.
  destruct q as [c1 [a|e]]; cbn [fst] in I.
  - exact I.
  - rewrite activateFallbackMode_eq. apply activated_Inv.
Qed.

Lemma run_Inv (o : Op) (c : Ctl) : Inv c -> Inv (run o c).
Proof.
  intro H. unfold run. destruct o; unfold call.
  - rewrite exec_fmap. now apply initialize_Inv.
  - destruct c, ch; inv_done.
  - rewrite exec_fmap. apply scanForDevice_Inv.
  - rewrite exec_fmap. apply connectToDevice_Inv.
  - unfold exec, bind. rewrite activateFallbackMode_eq. apply activated_Inv.
  - rewrite exec_fmap. apply disconnect_Inv.
  - destruct c; inv_done.
  - destruct c; inv_done.
  - unfold exec, bind, get.
    destruct (liveAs id TSampling c); [|exact H].
    pose proof (monitoringTick_core f l r c) as K. unfold exec in K.
    destruct (monitoringTick f l r c) as [c1 [[]|e]]; cbn [fst ret] in *;
      exact (sameCore_Inv _ _ K H).
  - unfold exec, bind, get.
    destruct (liveAs id THealth c); [|exact H].
    pose proof (checkConnectionHealth_Inv c H) as K. unfold exec in K.
    destruct (checkConnectionHealth c) as [c1 [[]|e]]; cbn [fst ret] in *; exact K.
  - unfold exec, bind, get.
    destruct (liveAs id TReconnect c); [|exact H].
    cbn [clearTimer modify].
    match goal with
    | |- context [reconnectCallback tr ?s] =>
        assert (Inv s) as Hs by (destruct c; inv_done);
        pose proof (reconnectCallback_Inv tr s Hs) as K; unfold exec in K;
        destruct (reconnectCallback tr s) as [c1 [[]|e]]; cbn [fst ret] in *; exact K
    end.
Qed.

Lemma runAll_Inv (ops : list Op) (c : Ctl) : Inv c -> Inv (runAll ops c).
Proof.
  revert c. induction ops as [|o ops IH]; intros c H.
  - exact H.
  - cbn [runAll fold_left]. apply IH, run_Inv, H.
Qed.

Lemma scanDiscovery_Inv (d : Discovery) (timeout : Z) (c : Ctl) :
  Inv c -> Inv (exec (scanDiscovery d timeout) c).
Proof.
  intro H. unfold exec, scanDiscovery.
  destruct c as [st dv rc ht rt mi ld dd ls el fm pl ts nt ck tc co].
  destruct d as [lat fnd]. norm.
  destruct (Z.leb lat timeout); [destruct fnd|]; run_method; inv_done.
Qed.

Lemma runStep_Inv (s : Step) (c : Ctl) : Inv c -> Inv (runStep s c).
Proof.
  intro H. destruct s; unfold runStep.
  - now apply run_Inv.
  - unfold exec, announceConnecting. destruct c. run_method. inv_done.
  - now apply scanDiscovery_Inv.
  - destruct (connectLoop_core tr deviceId autoRetry 1 attempt c) as [G|G].
    + apply settled_Inv, G.
    + exact (sameCore_Inv _ _ G H).
Qed.

(** The invariant also holds when other calls and timers run during the
    awaits of a scan or of a connection. *)
Lemma interleaved_Inv (c : Ctl) : interleaved c -> Inv c.
Proof.
  intros (now & steps & ->).
  assert (Inv (newController now)) as H
      by (unfold Inv; cbn; intros [K|K]; discriminate).
  revert H. generalize (newController now).
  induction steps as [|s steps IH]; intros c H; [exact H|].
  cbn [fold_left]. apply IH, runStep_Inv, H.
Qed.

Lemma reachable_interleaved (c : Ctl) : reachable c -> interleaved c.
Proof.
  intros (now & ops & ->). exists now, (map Whole ops).
  unfold runAll. generalize (newController now).
  induction ops as [|o ops IH]; intro c; [reflexivity|].
  cbn [map fold_left]. apply IH.
Qed.

(** C2, amended.  In every reachable state, a controller that is
    [CONNECTED] or [RECONNECTING] holds a device and is not in fallback
    mode. *)
Theorem C2_connected_holds_device (c : Ctl) :
  reachable c ->
  connectionState c = CONNECTED \/ connectionState c = RECONNECTING ->
  device c <> None /\ fallbackMode c = false.
Proof.
  intros (now & ops & ->). apply runAll_Inv.
  unfold Inv, newController. cbn. intros [H|H]; discriminate.
Qed.

Lemma C2_connected_holds_device_witness :
  device silentForTenSeconds <> None /\ fallbackMode silentForTenSeconds = false.
Proof.
  apply (C2_connected_holds_device silentForTenSeconds).
  - eexists. eexists. reflexivity.
  - left. vm_compute. reflexivity.
Defined.

(** ** Subscribers that throw *)

Lemma calmed_idempotent (ls : list (string * Callback)) :
  calmed (calmed ls) = calmed ls.
Proof.
  unfold calmed. rewrite map_map. reflexivity.
Qed.

Lemma calmed_map_set (k : string) (cb : Callback) (ls : list (string * Callback)) :
  calmed (map_set k cb ls) = map_set k quietSubscriber (calmed ls).
Proof.
  induction ls as [|[k' v] ls IH]; [reflexivity|].
  cbn [map_set calmed map fst]. destruct (String.eqb k k'); [reflexivity|].
  cbn [map fst]. f_equal. exact IH.
Qed.

Lemma sameButLog_calm (c : Ctl) : sameButLog c (calm c).
Proof.
  destruct c. unfold sameButLog, erase, calm. cbn.
  now rewrite calmed_idempotent.
Qed.

(** Two controllers alike but for the log, given by their fields. *)
Ltac alike H :=
  unfold sameButLog, erase, calm, isConnected, isFallbackMode, liveAs in H |- *;
  cbn in H |- *;
  injection H; intros; subst; rewrite ?calmed_map_set; try congruence.

Lemma respects_ret {A} (a : A) : respects (ret a).
Proof. intros c1 c2 H. split; [exact H|reflexivity]. Qed.

Lemma respects_throw {A} (message : string) : respects (@throw A message).
Proof. intros c1 c2 H. split; [exact H|reflexivity]. Qed.

Lemma respects_const {A} (r : Res A) : respects (fun c => (c, r)).
Proof. intros c1 c2 H. split; [exact H|reflexivity]. Qed.

Lemma respects_bind {A B} (m : M A) (k : A -> M B) :
  respects m -> (forall a, respects (k a)) -> respects (bind m k).
Proof.
  intros Hm Hk c1 c2 H. destruct (Hm c1 c2 H) as [H1 H2].
  unfold exec, result, bind in *.
  destruct (m c1) as [d1 [a1|e1]], (m c2) as [d2 [a2|e2]];
    cbn [fst snd] in *; try discriminate.
  - injection H2 as ->. apply (Hk a2 d1 d2 H1).
  - injection H2 as ->. split; [exact H1|reflexivity].
Qed.

Lemma respects_try_catch {A} (m : M A) (h : string -> M A) :
  respects m -> (forall e, respects (h e)) -> respects (try_catch m h).
Proof.
  intros Hm Hh c1 c2 H. destruct (Hm c1 c2 H) as [H1 H2].
  unfold exec, result, try_catch in *.
  destruct (m c1) as [d1 [a1|e1]], (m c2) as [d2 [a2|e2]];
    cbn [fst snd] in *; try discriminate.
  - split; [exact H1|exact H2].
  - injection H2 as ->. apply (Hh e2 d1 d2 H1).
Qed.

Lemma respects_fmap {A B} (f : A -> B) (m : M A) : respects m -> respects (fmap f m).
Proof.
  intro Hm. unfold fmap. apply respects_bind; [exact Hm|].
  intro a. apply respects_ret.
Qed.

Lemma respects_modify (f : Ctl -> Ctl) :
  (forall c1 c2, sameButLog c1 c2 -> sameButLog (f c1) (f c2)) ->
  respects (modify f).
Proof.
  intros Hf c1 c2 H. split; [apply Hf, H|reflexivity].
Qed.

Lemma respects_get {A} (f : Ctl -> A) :
  (forall c1 c2, sameButLog c1 c2 -> f c1 = f c2) -> respects (get f).
Proof.
  intros Hf c1 c2 H. split; [exact H|]. unfold result, get. cbn.
  now rewrite (Hf c1 c2 H).
Qed.

(** C10 at its root: [notifyListeners] returns normally whatever the
    subscriber does, and a subscriber that throws changes the console
    only. *)
Lemma respects_notifyListeners (event : string) (data : Payload) :
  respects (notifyListeners event data).
Proof.
  intros c1 c2 H. unfold exec, result. rewrite !notifyListeners_eq.
  split; [|reflexivity]. destruct c1, c2. alike H.
Qed.

Lemma respects_setTimer (k : TimerKind) (delay : Z) : respects (setTimer k delay).
Proof.
  intros c1 c2 H. destruct c1, c2. unfold exec, result, setTimer.
  split; alike H.
Qed.

Create HintDb respects.

#[local] Hint Resolve respects_ret respects_throw respects_const
  respects_notifyListeners respects_setTimer : respects.

(** Walks through a computation: the monad by the lemmas above, the
    assignments and the reads by comparing the two controllers field by
    field. *)
Ltac respects_walk :=
  repeat
    match goal with
    | |- forall _, _ => intro
    | |- respects (bind _ _) => apply respects_bind
    | |- respects (try_catch _ _) => apply respects_try_catch
    | |- respects (fmap _ _) => apply respects_fmap
    | |- respects (modify (fun c => set_listeners _ c)) =>
        solve [auto with respects]
    | |- respects (modify _) =>
        apply respects_modify;
        let c1 := fresh "c" in let c2 := fresh "c" in let H := fresh "H" in
        intros c1 c2 H; destruct c1, c2; solve [alike H]
    | |- respects (get _) =>
        apply respects_get;
        let c1 := fresh "c" in let c2 := fresh "c" in let H := fresh "H" in
        intros c1 c2 H; destruct c1, c2; solve [alike H]
    | |- respects (let _ := _ in _) => cbv zeta
    | |- respects (if ?b then _ else _) => destruct b
    | |- respects (match ?x with _ => _ end) => destruct x
    | |- respects _ => solve [auto with respects]
    | |- respects _ =>
        progress unfold logInfo, logError, observe, elapse, sleep, clearTimer,
          clearErrorLog, startDistanceMonitoring, stopDistanceMonitoring,
          startHealthCheck, stopHealthCheck, startFallbackSensors,
          raceConnection, raceScan, backoff, announceConnecting,
          onDistanceUpdate, onObstacleDetected, onStateChange, onError,
          onFallbackActivated
    end.

Lemma respects_handleError (errorType : ErrorType) (message : string) :
  respects (handleError errorType message).
Proof. unfold handleError. respects_walk. Qed.

#[local] Hint Resolve respects_handleError : respects.

Lemma respects_activateFallbackMode (reason : string) :
  respects (activateFallbackMode reason).
Proof. unfold activateFallbackMode. respects_walk. Qed.

#[local] Hint Resolve respects_activateFallbackMode : respects.

Lemma respects_updateDistanceData (data : Dist.t) : respects (updateDistanceData data).
Proof. unfold updateDistanceData. respects_walk. Qed.

#[local] Hint Resolve respects_updateDistanceData : respects.

Lemma respects_monitoringTick (f l r : Q) : respects (monitoringTick f l r).
Proof.
  unfold monitoringTick, simulateFallbackDistanceData, simulateDistanceReading.
  respects_walk.
Qed.

Lemma respects_connectionEstablished (deviceId : string) (attempt : nat) :
  respects (connectionEstablished deviceId attempt).
Proof. unfold connectionEstablished. respects_walk. Qed.

Lemma respects_connectionFailed (message : string) :
  respects (connectionFailed message).
Proof. unfold connectionFailed. respects_walk. Qed.

#[local] Hint Resolve respects_monitoringTick respects_connectionEstablished
  respects_connectionFailed : respects.

Lemma respects_connectLoop (tr : Transport) (deviceId : string) (autoRetry : bool)
      (fuel attempt : nat) :
  respects (connectLoop tr deviceId autoRetry fuel attempt).
Proof.
  revert attempt. induction fuel as [|fuel IH]; intro attempt.
  - apply respects_ret.
  - rewrite connectLoop_S. respects_walk.
Qed.

#[local] Hint Resolve respects_connectLoop : respects.

Lemma respects_connectToDevice (tr : Transport) (deviceId : string) (autoRetry : bool) :
  respects (connectToDevice tr deviceId autoRetry).
Proof. unfold connectToDevice. respects_walk. Qed.

#[local] Hint Resolve respects_connectToDevice : respects.

Lemma respects_handleConnectionLoss : respects handleConnectionLoss.
Proof. unfold handleConnectionLoss. respects_walk. Qed.

#[local] Hint Resolve respects_handleConnectionLoss : respects.

Lemma respects_checkConnectionHealth : respects checkConnectionHealth.
Proof. unfold checkConnectionHealth. respects_walk. Qed.

Lemma respects_reconnectCallback (tr : Transport) : respects (reconnectCallback tr).
Proof. unfold reconnectCallback. respects_walk. Qed.

Lemma respects_disconnect : respects disconnect.
Proof. unfold disconnect. respects_walk. Qed.

Lemma respects_scanForDevice (d : Discovery) (timeout : Z) :
  respects (scanForDevice d timeout).
Proof. unfold scanForDevice, scanDiscovery. respects_walk. Qed.

Lemma respects_initialize (env : Env) : respects (initialize env).
Proof.
  unfold initialize, checkDeviceCapabilities, checkBluetoothAvailable.
  respects_walk.
Qed.

#[local] Hint Resolve respects_checkConnectionHealth respects_reconnectCallback
  respects_disconnect respects_scanForDevice respects_initialize : respects.

Lemma respects_subscription (k : string) (callback : Callback) :
  respects (modify (fun c => set_listeners (map_set k callback (listeners c)) c)).
Proof.
  apply respects_modify. intros c1 c2 H. destruct c1, c2.
  unfold sameButLog, erase, calm in H |- *.
  cbn -[calmed map_set] in H |- *.
  injection H; intros; subst. rewrite !calmed_map_set. congruence.
Qed.

#[local] Hint Resolve respects_subscription : respects.

Lemma respects_call (o : Op) : respects (call o).
Proof.
  destruct o; unfold call, subscribe; respects_walk.
Qed.

Lemma sameButLog_fields (c1 c2 : Ctl) :
  sameButLog c1 c2 ->
  connectionState c1 = connectionState c2 /\
  device c1 = device c2 /\
  retryCount c1 = retryCount c2 /\
  fallbackMode c1 = fallbackMode c2 /\
  errorLog c1 = errorLog c2 /\
  distanceData c1 = distanceData c2 /\
  lastDataTimestamp c1 = lastDataTimestamp c2 /\
  timers c1 = timers c2 /\
  healthCheckTimer c1 = healthCheckTimer c2 /\
  monitoringInterval c1 = monitoringInterval c2 /\
  reconnectTimer c1 = reconnectTimer c2 /\
  clock c1 = clock c2 /\
  trace c1 = trace c2 /\
  map fst (listeners c1) = map fst (listeners c2).
Proof.
  intro H. destruct c1, c2.
  unfold sameButLog, erase, calm in H. cbn -[calmed] in H |- *.
  injection H; intros; subst. repeat split.
  match goal with
  | K : calmed _ = calmed _ |- _ =>
      apply (f_equal (map fst)) in K; unfold calmed in K;
      rewrite !map_map in K; cbn [fst] in K; exact K
  end.
Qed.

(** C10.  Whatever the subscribers do, a notification returns normally
    and, but for the console, leaves the controller as it would be with
    subscribers that return normally.  Hence every call and every timer
    callback, run to completion, gives the same result (or throws the same
    error) and the same state, timers, clock and notifications as with
    subscribers that never throw. *)
Theorem C10_subscriber_exceptions_contained (o : Op) (c : Ctl) :
  (forall event data,
     result (notifyListeners event data) c = Ok tt /\
     sameButLog (exec (notifyListeners event data) c)
                (exec (notifyListeners event data) (calm c))) /\
  result (call o) c = result (call o) (calm c) /\
  sameButLog (run o c) (run o (calm c)) /\
  connectionState (run o c) = connectionState (run o (calm c)) /\
  device (run o c) = device (run o (calm c)) /\
  fallbackMode (run o c) = fallbackMode (run o (calm c)) /\
  errorLog (run o c) = errorLog (run o (calm c)) /\
  timers (run o c) = timers (run o (calm c)) /\
  trace (run o c) = trace (run o (calm c)).
Proof.
  pose proof (sameButLog_calm c) as H.
  destruct (respects_call o c (calm c) H) as [S R].
  split.
  { intros event data. split.
    - unfold result. now rewrite notifyListeners_eq.
    - apply (respects_notifyListeners event data c (calm c) H). }
  split; [exact R|]. split; [exact S|].
  destruct (sameButLog_fields _ _ S)
    as (F1 & F2 & _ & F4 & F5 & _ & _ & F8 & _ & _ & _ & _ & F13 & _).
  repeat split; assumption.
Qed.

(** A subscriber that throws on every state change does not keep the
    controller from connecting; each throw is a line on the console. *)
Example throwing_subscriber_is_logged :
  let c := run (OpConnect alwaysEstablishes "DRISHTIKA_001" true)
               (run (OpSubscribe ChStateChange throwingSubscriber) (newController 0)) in
  connectionState c = CONNECTED /\
  stateChanges (trace c) = [CONNECTING; CONNECTED] /\
  filter (fun l => match fst l with LError => true | LInfo => false end) (console c)
  = [(LError, "Listener error: boom"); (LError, "Listener error: boom")].
Proof.
  vm_compute. repeat split; reflexivity.
Qed.

(** * Further properties of the controller *)

(** ** Walking a computation with a predicate of one's own *)

(** [first_try] is offered every goal before the computation is taken
    apart; [done] closes what a [modify] leaves, on a controller given by
    its fields. *)
Ltac walk first_try done :=
  repeat
    match goal with
    | |- forall _, _ => intro
    | |- keeps _ _ => progress first_try
    | H : forall e d, keeps ?P (notifyListeners e d)
      |- keeps ?P (notifyListeners _ _) => apply H
    | H : forall t m, keeps ?P (handleError t m)
      |- keeps ?P (handleError _ _) => apply H
    | H : forall k d, keeps ?P (setTimer k d)
      |- keeps ?P (setTimer _ _) => apply H
    | H : forall tr i a f n, keeps ?P (connectLoop tr i a f n)
      |- keeps ?P (connectLoop _ _ _ _ _) => apply H
    | H : forall n, keeps ?P (connectLoop ?tr ?i ?a ?f n)
      |- keeps ?P (connectLoop ?tr ?i ?a ?f _) => apply H
    | |- keeps _ (bind _ _) => apply keeps_bind
    | |- keeps _ (try_catch _ _) => apply keeps_try_catch
    | |- keeps _ (fmap _ _) => apply keeps_fmap
    | |- keeps _ (ret _) => apply keeps_ret
    | |- keeps _ (throw _) => apply keeps_throw
    | |- keeps _ (get _) => apply keeps_get
    | |- keeps _ (fun c => (c, _)) => apply keeps_const
    | |- keeps _ (modify _) =>
        apply keeps_modify;
        let c := fresh "c" in let H := fresh "H" in
        intros c H; destruct c; done
    | |- keeps _ (let _ := _ in _) => cbv zeta
    | |- keeps _ (if ?b then _ else _) => destruct b
    | |- keeps _ (match ?x with _ => _ end) => destruct x
    | |- keeps _ _ =>
        progress unfold connectionFailed, initialize, reconnectCallback,
          connectToDevice, scanForDevice, scanDiscovery, subscribe,
          checkDeviceCapabilities, checkBluetoothAvailable, monitoringTick,
          simulateFallbackDistanceData, simulateDistanceReading,
          updateDistanceData
    | |- keeps _ _ =>
        progress unfold connectionEstablished, activateFallbackMode, disconnect,
          checkConnectionHealth, announceConnecting
    | |- keeps _ _ =>
        progress unfold handleConnectionLoss, startFallbackSensors,
          logInfo, logError, observe, elapse, sleep, clearTimer,
          clearErrorLog, startDistanceMonitoring, stopDistanceMonitoring,
          startHealthCheck, stopHealthCheck, raceConnection, raceScan, backoff,
          onDistanceUpdate, onObstacleDetected, onStateChange, onError,
          onFallbackActivated
    end.

(** The connection loop, every operation and every step keep a predicate
    that the three leaves keep and that [done] carries over each
    assignment. *)
Ltac walk_loop first_try done :=
  let fuel := fresh "fuel" in
  let IH := fresh "IH" in
  intros ? ? ? fuel;
  induction fuel as [|fuel IH]; intro;
  [ apply keeps_ret | rewrite connectLoop_S; walk first_try done ].

Ltac walk_call first_try done :=
  let o := fresh "o" in
  intro o; destruct o; unfold call; walk first_try done.

Ltac walk_step first_try done :=
  let s := fresh "s" in
  let c := fresh "c" in
  let H := fresh "H" in
  intros s c H; revert c H; destruct s;
  [ match goal with
    | HC : forall o, keeps _ (call o) |- _ => intros c H; exact (HC _ c H)
    end
  | change (keeps ?P announceConnecting) with (keeps P announceConnecting);
    match goal with |- forall c, ?P c -> ?P (runStep Announce c) =>
      change (keeps P announceConnecting) end;
    walk first_try done
  | match goal with |- forall c, ?P c -> ?P (runStep (Discover ?d ?t) c) =>
      change (keeps P (scanDiscovery d t)) end;
    walk first_try done
  | match goal with |- forall c, ?P c -> ?P (runStep (Iteration ?tr ?i ?a ?n) c) =>
      change (keeps P (connectLoop tr i a 1 n)) end;
    walk first_try done ].

(** ** Every step is a sequence of actions *)

Lemma connectionEstablished_eq (deviceId : string) (attempt : nat) (c : Ctl) :
  connectionEstablished deviceId attempt c =
  (established deviceId c,
   Ok (Some {| cr_success := true;
               cr_device := Some {| dev_id := deviceId; dev_name := "Drishtika" |};
               cr_attempt := attempt |})).
Proof.
  unfold connectionEstablished, established.
  destruct c as [st dv rc ht rt mi ld dd ls el fm pl ts nt ck tc co].
  run_method. reflexivity.
Qed.

Lemma disconnect_disconnected (c : Ctl) :
  disconnect c = (disconnected c, Ok {| dr_success := true; dr_error := None |}).
Proof. apply disconnect_eq. Qed.

Lemma subscribe_eq (ch : Channel) (callback : Callback) (c : Ctl) :
  subscribe ch callback c =
  (set_listeners (map_set (channelName ch) callback (listeners c)) c, Ok tt).
Proof. destruct ch; reflexivity. Qed.

Lemma Steps_trans (a b c : Ctl) : Steps a b -> Steps b c -> Steps a c.
Proof.
  intros H1 H2. induction H2 as [|c1 c2 _ IH A]; [exact H1|].
  exact (steps_act _ _ _ IH A).
Qed.

Section Acting.

Variable c0 : Ctl.

Lemma acting_sample (event : string) (data : Payload) :
  event = "distance" \/ event = "obstacle" ->
  keeps (Steps c0) (notifyListeners event data).
Proof.
  intros E c H. unfold exec. rewrite notifyListeners_eq. cbn [fst].
  exact (steps_act _ _ _ (steps_act _ _ _ H (act_sample c event data E))
                   (act_console _ _)).
Qed.

Lemma acting_handleError (errorType : ErrorType) (message : string) :
  keeps (Steps c0) (handleError errorType message).
Proof.
  intros c H. rewrite exec_handleError.
  exact (steps_act _ _ _
           (steps_act _ _ _
              (steps_act _ _ _ H (act_error c errorType message))
              (act_console _ _))
           (act_console _ _)).
Qed.

(** An assignment to [connectionState] with its notification. *)
Lemma acting_state (s : ConnectionState) :
  passing s ->
  keeps (Steps c0)
    (modify (set_connectionState s) ;;
     st <- get connectionState ;;
     notifyListeners "stateChange" (PState st)).
Proof.
  intros E c H. unfold exec, bind, modify, get. rewrite notifyListeners_eq. cbn [fst].
  exact (steps_act _ _ _ (steps_act _ _ _ H (act_state c s E)) (act_console _ _)).
Qed.

Lemma acting_state_then {A} (s : ConnectionState) (k : M A) :
  passing s ->
  keeps (Steps c0) k ->
  keeps (Steps c0)
    (modify (set_connectionState s) ;;
     st <- get connectionState ;;
     notifyListeners "stateChange" (PState st) ;;
     k).
Proof.
  intros E K c H. pose proof (acting_state s E c H) as H1.
  unfold exec, bind, modify, get in *. rewrite notifyListeners_eq in *.
  cbn [fst] in H1. apply (K _ H1).
Qed.

Lemma acting_connectionEstablished (deviceId : string) (attempt : nat) :
  keeps (Steps c0) (connectionEstablished deviceId attempt).
Proof.
  intros c H. unfold exec. rewrite connectionEstablished_eq.
  exact (steps_act _ _ _ H (act_established c deviceId)).
Qed.

Lemma acting_activateFallbackMode (reason : string) :
  keeps (Steps c0) (activateFallbackMode reason).
Proof.
  intros c H. unfold exec. rewrite activateFallbackMode_eq.
  exact (steps_act _ _ _ H (act_activated c reason)).
Qed.

Lemma acting_disconnect : keeps (Steps c0) disconnect.
Proof.
  intros c H. unfold exec. rewrite disconnect_disconnected.
  exact (steps_act _ _ _ H (act_disconnected c)).
Qed.

Lemma acting_checkConnectionHealth : keeps (Steps c0) checkConnectionHealth.
Proof.
  intros c H. unfold exec, checkConnectionHealth.
  destruct c as [st dv rc ht rt mi ld dd ls el fm pl ts nt ck tc co].
  destruct st; norm; try exact H.
  destruct (Z.ltb _ _); [|exact H].
  rewrite handleConnectionLoss_eq. cbn [fst].
  refine (steps_act _ _ _ (steps_act _ _ _ H (act_console _ _)) (act_lost _ _)).
  reflexivity.
Qed.

End Acting.

(** What an assignment on its own leaves to show. *)
Ltac acting_done :=
  idtac;
  match goal with
  | H : Steps ?c0 ?c |- Steps ?c0 _ =>
      first [ exact H
            | exact (steps_act _ _ _ H (act_console _ _))
            | exact (steps_act _ _ _ H (act_clock _ _))
            | refine (steps_act _ _ _ H (act_observe _ _ _)); exact I
            | exact (steps_act _ _ _ H (act_data _ _))
            | exact (steps_act _ _ _ H (act_timestamp _))
            | exact (steps_act _ _ _ H (act_clearLog _))
            | exact (steps_act _ _ _ H (act_lidar _ _))
            | exact (steps_act _ _ _ H (act_subscribe _ ChDistance _))
            | exact (steps_act _ _ _ H (act_subscribe _ ChObstacle _))
            | exact (steps_act _ _ _ H (act_subscribe _ ChStateChange _))
            | exact (steps_act _ _ _ H (act_subscribe _ ChError _))
            | exact (steps_act _ _ _ H (act_subscribe _ ChFallbackActivated _)) ]
  end.

(** The blocks that are one action. *)
Ltac acting_blocks :=
  idtac;
  match goal with
  | |- keeps (Steps ?c0) (notifyListeners "distance" _) =>
      apply acting_sample; left; reflexivity
  | |- keeps (Steps ?c0) (notifyListeners "obstacle" _) =>
      apply acting_sample; right; reflexivity
  | |- keeps (Steps ?c0) (handleError _ _) => apply acting_handleError
  | |- keeps (Steps ?c0) (connectionEstablished _ _) => apply acting_connectionEstablished
  | |- keeps (Steps ?c0) (activateFallbackMode _) => apply acting_activateFallbackMode
  | |- keeps (Steps ?c0) disconnect => apply acting_disconnect
  | |- keeps (Steps ?c0) checkConnectionHealth => apply acting_checkConnectionHealth
  | |- keeps (Steps ?c0) announceConnecting =>
      apply acting_state; unfold passing; auto
  | |- keeps (Steps ?c0)
         (bind (modify (set_connectionState ?s))
               (fun _ => bind (get connectionState)
                              (fun st => bind (notifyListeners "stateChange" _) _))) =>
      apply acting_state_then; [unfold passing; auto|]
  end.

Lemma acting_connectLoop (c0 : Ctl) (tr : Transport) (deviceId : string)
      (autoRetry : bool) (fuel attempt : nat) :
  keeps (Steps c0) (connectLoop tr deviceId autoRetry fuel attempt).
Proof.
  revert tr deviceId autoRetry fuel attempt.
  walk_loop acting_blocks acting_done.
Qed.

Lemma acting_reconnectCallback (c0 : Ctl) (tr : Transport) :
  keeps (Steps c0) (reconnectCallback tr).
Proof.
  pose proof (acting_connectLoop c0) as HL.
  walk acting_blocks acting_done.
Qed.

Lemma acting_call (c0 : Ctl) (o : Op) : keeps (Steps c0) (call o).
Proof.
  pose proof (acting_connectLoop c0) as HL.
  destruct o; unfold call;
    try solve [walk acting_blocks acting_done].
  (* the reconnect timeout fires *)
  intros c H. unfold exec, bind, get.
  destruct (liveAs id TReconnect c) eqn:L; [|exact H].
  cbn [clearTimer modify].
  pose proof (steps_act _ _ _ H (act_fired c id L)) as H1.
  pose proof (acting_reconnectCallback c0 tr _ H1) as H2. unfold exec in H2.
  destruct (reconnectCallback tr _) as [c1 [[]|e]]; exact H2.
Qed.

Lemma acting_runStep (c0 : Ctl) (s : Step) (c : Ctl) :
  Steps c0 c -> Steps c0 (runStep s c).
Proof.
  pose proof (acting_connectLoop c0) as HL.
  pose proof (acting_call c0) as HC.
  revert s c. walk_step acting_blocks acting_done.
Qed.

(** Induction over the actions: what holds of a new controller and is kept
    by every action holds wherever the controller can get, awaits
    included. *)
Lemma interleaved_acts (P : Ctl -> Prop) :
  (forall now, P (newController now)) ->
  (forall c c', P c -> Act c c' -> P c') ->
  forall c, interleaved c -> P c.
Proof.
  intros H0 HA c (now & steps & ->).
  assert (Steps (newController now)
                (fold_left (fun c s => runStep s c) steps (newController now))) as S.
  { remember (newController now) as c0 eqn:E. clear E.
    assert (forall c, Steps c0 c ->
                      Steps c0 (fold_left (fun c s => runStep s c) steps c)) as G.
    { induction steps as [|s steps IH]; intros c H; [exact H|].
      cbn [fold_left]. apply IH, acting_runStep, H. }
    apply G, steps_refl. }
  induction S as [|c1 c2 _ IH A]; [apply H0|].
  exact (HA _ _ IH A).
Qed.

(** ** What every action keeps *)

(** Takes an action apart, on a controller given by its fields. *)
Ltac act_cases H A :=
  destruct A;
  match goal with
  | c : Ctl |- _ =>
      destruct c as [st dv rc ht rt mi ld dd ls el fm pl ts nt ck tc co]
  end;
  repeat match goal with
         | Q : quiet ?o |- _ => destruct o; [contradiction Q| | |]; clear Q
         | Q : _ = _ \/ _ = _ |- _ => destruct Q; subst
         | Q : passing _ |- _ => destruct Q as [Q|[Q|Q]]; subst
         end;
  norm; cbn in H |- *.

Lemma inSync_act (c c' : Ctl) : inSync c -> Act c c' -> inSync c'.
Proof.
  intros H A. unfold inSync in *. act_cases H A.
  all: rewrite ?stateChanges_app; cbn; rewrite ?app_nil_r, ?last_last.
  all: try assumption; try reflexivity.
  all: destruct d; cbn; rewrite ?app_nil_r; assumption.
Qed.

Lemma retryFree_act (c c' : Ctl) : retryFree c -> Act c c' -> retryFree c'.
Proof.
  intros H A. unfold retryFree in *. act_cases H A.
  all: first [assumption | reflexivity].
Qed.

Lemma modeAfter_app (a b : list Obs) (mode : bool) :
  modeAfter (a ++ b) mode = modeAfter b (modeAfter a mode).
Proof.
  revert mode. induction a as [|o a IH]; intro mode; [reflexivity|].
  destruct o; cbn [app modeAfter]; try apply IH.
  destruct (String.eqb event "fallbackActivated"); [apply IH|].
  destruct (String.eqb event "connected"); apply IH.
Qed.

Lemma flagFollows_act (c c' : Ctl) : flagFollows c -> Act c c' -> flagFollows c'.
Proof.
  intros H A. unfold flagFollows in *. act_cases H A.
  all: rewrite ?modeAfter_app; cbn; try assumption; try reflexivity.
Qed.

Lemma bounded_act (c c' : Ctl) : bounded c -> Act c c' -> bounded c'.
Proof.
  intros H A. unfold bounded in *. act_cases H A.
  all: try assumption; try (cbn; lia).
  apply pushShift_bounded, H.
Qed.

Lemma fallbackFlagged_act (c c' : Ctl) :
  fallbackFlagged c -> Act c c' -> fallbackFlagged c'.
Proof.
  intros H A. unfold fallbackFlagged in *. act_cases H A.
  all: try assumption; try reflexivity; try discriminate.
Qed.

(** *** Timers *)

Lemma TimerKind_eqb_eq (a b : TimerKind) : TimerKind_eqb a b = true <-> a = b.
Proof. destruct a, b; cbn; split; congruence. Qed.

Lemma liveAs_live (id : nat) (k : TimerKind) (c : Ctl) :
  liveAs id k c = true <-> live id k c.
Proof.
  unfold liveAs, live. rewrite existsb_exists.
  split; intros (t & I & H); exists t; split; trivial.
  - apply andb_true_iff in H. destruct H as [H1 H2].
    apply Nat.eqb_eq in H1. apply TimerKind_eqb_eq in H2. auto.
  - destruct H as [H1 H2]. apply andb_true_iff.
    split; [apply Nat.eqb_eq|apply TimerKind_eqb_eq]; assumption.
Qed.

Lemma In_clearHandle (h : option nat) (ts : list Timer) (t : Timer) :
  In t (clearHandle h ts) -> In t ts.
Proof.
  destruct h as [id|]; cbn; [|auto]. intro H. apply filter_In in H. tauto.
Qed.

Lemma In_cleared (id : nat) (ts : list Timer) (t : Timer) :
  In t ts -> tid t <> id -> In t (filter (fun t => negb (Nat.eqb (tid t) id)) ts).
Proof.
  intros I N. apply filter_In. split; [exact I|].
  apply negb_true_iff, Nat.eqb_neq, N.
Qed.

Lemma NoDup_tid_filter (p : Timer -> bool) (ts : list Timer) :
  NoDup (map tid ts) -> NoDup (map tid (filter p ts)).
Proof.
  induction ts as [|t ts IH]; intro H; [constructor|].
  cbn [map] in H. inversion H as [|x l N D]; subst.
  cbn [filter]. destruct (p t); [|auto].
  cbn [map]. constructor; [|auto].
  intro I. apply N. apply in_map_iff in I. destruct I as (u & E & I).
  apply filter_In in I. apply in_map_iff. exists u. tauto.
Qed.

Lemma NoDup_tid_clearHandle (h : option nat) (ts : list Timer) :
  NoDup (map tid ts) -> NoDup (map tid (clearHandle h ts)).
Proof.
  destruct h; [apply NoDup_tid_filter|auto].
Qed.

Lemma NoDup_tid_fresh (ts : list Timer) (t : Timer) (n : nat) :
  NoDup (map tid ts) -> (forall u, In u ts -> tid u < n) -> n <= tid t ->
  NoDup (map tid (ts ++ [t])).
Proof.
  intros D B L. rewrite map_app. cbn [map].
  apply NoDup_app; [exact D|repeat constructor; intros []|].
  intros x I [<-|[]]. apply in_map_iff in I. destruct I as (u & E & I).
  specialize (B u I). lia.
Qed.

Lemma NoDup_tid_same (ts : list Timer) (t u : Timer) :
  NoDup (map tid ts) -> In t ts -> In u ts -> tid t = tid u -> t = u.
Proof.
  induction ts as [|x ts IH]; intros D It Iu E; [destruct It|].
  cbn [map] in D. inversion D as [|y l N D']; subst.
  destruct It as [<-|It], Iu as [<-|Iu]; trivial.
  - exfalso. apply N. rewrite E. now apply in_map.
  - exfalso. apply N. rewrite <- E. now apply in_map.
  - now apply IH.
Qed.

Ltac in_cases :=
  repeat match goal with
         | I : In _ (_ ++ _) |- _ => apply in_app_iff in I; destruct I as [I|I]
         | I : In _ [_] |- _ => destruct I as [I|[]]; subst
         | I : In _ (clearHandle _ _) |- _ => apply In_clearHandle in I
         | I : In _ (filter _ _) |- _ => apply filter_In in I; destruct I as [I _]
         end.

(** The identifier of a timer the runtime holds is below the next one. *)
Ltac below :=
  match goal with
  | B : forall t, In t ?ts -> tid t < _, I : In ?t ?ts |- _ =>
      pose proof (B t I); cbn in *; lia
  end.

Lemma timersSound_act (c c' : Ctl) : timersSound c -> Act c c' -> timersSound c'.
Proof.
  intros H A. unfold timersSound in *.
  destruct A;
    try match goal with
        | L : liveAs _ _ _ = true |- _ => apply liveAs_live in L
        end;
    destruct c as [st dv rc ht rt mi ld dd ls el fm pl ts nt ck tc co];
    unfold established, activated, connectionLost, disconnected, notified,
      samplingTimer, healthTimer, reconnectTimeout, live in *;
    cbn in *.
  all: destruct H as (B & D & HH & HS & HR & SC & SF).
  all: try exact (conj B (conj D (conj HH (conj HS (conj HR (conj SC SF)))))).
  - (* an assignment of a passing state *)
    destruct H0 as [-> | [-> | ->]];
      (split; [exact B|split; [exact D|split; [exact HH|split; [exact HS|
       split; [exact HR|split; intro; discriminate]]]]]).
  - (* connected: two new timers *)
    repeat split; intros; try discriminate.
    + in_cases; cbn; try lia. below.
    + apply NoDup_tid_fresh with (n := S nt); cbn; [|intros; in_cases; cbn|lia].
      * apply NoDup_tid_fresh with (n := nt); cbn; auto.
      * below.
      * lia.
    + injection H as <-. eexists.
      split; [apply in_app_iff; left; apply in_app_iff; right; left; reflexivity|].
      split; reflexivity.
    + injection H as <-. eexists.
      split; [apply in_app_iff; right; left; reflexivity|].
      split; reflexivity.
    + destruct (HR _ H). lia.
    + destruct (HR _ H) as [L K]. in_cases; cbn in *; try lia. now apply K.
  - (* fallback: one new timer *)
    repeat split; intros; try discriminate.
    + in_cases; cbn; try lia. below.
    + apply NoDup_tid_fresh with (n := nt); cbn; auto.
    + destruct (HH _ H) as (t & I & E). exists t.
      split; [apply in_app_iff; now left|exact E].
    + injection H as <-. eexists.
      split; [apply in_app_iff; right; left; reflexivity|].
      split; reflexivity.
    + destruct (HR _ H). lia.
    + destruct (HR _ H) as [L K]. in_cases; cbn in *; try lia. now apply K.
  - (* the connection is lost: two timers cleared, a timeout set *)
    repeat split; intros; try discriminate.
    + in_cases; cbn; try lia. below.
    + apply NoDup_tid_fresh with (n := nt); cbn; [| |lia].
      * now apply NoDup_tid_clearHandle, NoDup_tid_clearHandle.
      * intros. in_cases. auto.
    + match goal with E : Some _ = Some _ |- _ => injection E as <- end. lia.
    + match goal with E : Some _ = Some _ |- _ => injection E as <- end.
      in_cases; cbn in *; [|reflexivity]. below.
  - (* disconnected: the three handles cleared *)
    repeat split; intros; try discriminate.
    + in_cases. auto.
    + now apply NoDup_tid_clearHandle, NoDup_tid_clearHandle, NoDup_tid_clearHandle.
  - (* the reconnect timeout fires *)
    destruct H0 as (r & Ir & Er & Kr).
    assert (forall t k, In t ts -> tkind t = k -> k <> TReconnect -> tid t <> id) as N.
    { intros t k I K NK E. rewrite <- Er in E.
      rewrite (NoDup_tid_same ts t r D I Ir E) in K. congruence. }
    repeat split; intros.
    + in_cases. auto.
    + now apply NoDup_tid_filter.
    + destruct (HH _ H) as (t & I & E & K). exists t.
      split; [|auto]. apply In_cleared; [exact I|]. apply (N t THealth I K). discriminate.
    + destruct (HS _ H) as (t & I & E & K). exists t.
      split; [|auto]. apply In_cleared; [exact I|]. apply (N t TSampling I K). discriminate.
    + now destruct (HR _ H).
    + destruct (HR _ H) as [L K]. in_cases. now apply K.
    + now apply SC.
    + now apply SC.
    + now apply SF.
Qed.

(** *** Subscribers *)

Lemma map_get_set_same (k : string) (v : Callback) (m : list (string * Callback)) :
  map_get k (map_set k v m) = Some v.
Proof.
  induction m as [|[k' v'] m IH]; cbn [map_set map_get].
  - now rewrite String.eqb_refl.
  - destruct (String.eqb k k') eqn:E; cbn [map_get]; rewrite ?String.eqb_refl, ?E; auto.
Qed.

Lemma map_get_set_other (k k' : string) (v : Callback) (m : list (string * Callback)) :
  k' <> k -> map_get k' (map_set k v m) = map_get k' m.
Proof.
  intro N. induction m as [|[k1 v1] m IH]; cbn [map_set map_get].
  - apply String.eqb_neq in N. now rewrite N.
  - destruct (String.eqb k k1) eqn:E; cbn [map_get].
    + apply String.eqb_eq in E. subst k1.
      apply String.eqb_neq in N. now rewrite N.
    + destruct (String.eqb k' k1); auto.
Qed.

Lemma map_get_None (k : string) (m : list (string * Callback)) :
  map_get k m = None <-> ~ In k (map fst m).
Proof.
  induction m as [|[k' v'] m IH]; cbn [map_get map fst In]; [tauto|].
  destruct (String.eqb_spec k k') as [->|N].
  - split; [discriminate|]. intro H. exfalso. apply H. now left.
  - rewrite IH. split; [intros H [E|I]; [congruence|auto]|tauto].
Qed.

Lemma map_set_keys (k : string) (v : Callback) (m : list (string * Callback)) :
  map fst (map_set k v m) =
  if in_dec string_dec k (map fst m) then map fst m else map fst m ++ [k].
Proof.
  induction m as [|[k' v'] m IH]; cbn [map_set map fst]; [reflexivity|].
  destruct (String.eqb_spec k k') as [->|N].
  - cbn [map fst]. destruct (in_dec string_dec k' (k' :: map fst m)) as [_|X];
      [reflexivity|]. exfalso. apply X. now left.
  - cbn [map fst]. rewrite IH.
    destruct (in_dec string_dec k (map fst m)) as [I|X],
             (in_dec string_dec k (k' :: map fst m)) as [I'|X'];
      try reflexivity.
    + exfalso. apply X'. now right.
    + destruct I' as [E|I']; [congruence|contradiction].
Qed.

Lemma listenersClosed_act (c c' : Ctl) :
  listenersClosed c -> Act c c' -> listenersClosed c'.
Proof.
  intros H A. unfold listenersClosed in *.
  destruct A; destruct c as [st dv rc ht rt mi ld dd ls el fm pl ts nt ck tc co];
    unfold established, activated, connectionLost, disconnected, notified in *;
    cbn in *; try exact H.
  destruct H as [D K]. rewrite map_set_keys.
  destruct (in_dec string_dec (channelName ch) (map fst ls)) as [I|N]; [auto|].
  split.
  - apply NoDup_app; [exact D|repeat constructor; intros []|].
    intros x I [<-|[]]. contradiction.
  - intros k I. apply in_app_iff in I. destruct I as [I|[<-|[]]]; [auto|].
    destruct ch; cbn; tauto.
Qed.

Lemma Inv_act (c c' : Ctl) : Inv c -> Act c c' -> Inv c'.
Proof.
  intros H A. unfold Inv in *. act_cases H A.
  all: try assumption.
  all: try (intros [X|X]; discriminate).
  all: try (intros _; split; [discriminate|reflexivity]).
  - intros _. apply H. now left.
Qed.

(** ** What holds wherever the controller can get *)

(** X1.  [retryCount] is never anything but [0]: the constructor, a
    successful connection and [disconnect] assign [0] and nothing assigns
    anything else, so [getConnectionStatus] always reports [retryCount: 0],
    also when other calls or timers run during the awaits of a scan or of
    a connection. *)
Theorem retry_counter_stays_zero (c : Ctl) :
  interleaved c ->
  retryCount c = 0 /\ cs_retryCount (getConnectionStatus c) = 0.
Proof.
  intro H. assert (retryFree c) as R.
  { revert c H. apply interleaved_acts; [reflexivity|apply retryFree_act]. }
  split; exact R.
Qed.

Lemma retry_counter_stays_zero_witness :
  retryCount inFlight = 0 /\ cs_retryCount (getConnectionStatus inFlight) = 0.
Proof.
  apply (retry_counter_stays_zero inFlight).
  eexists. eexists. reflexivity.
Defined.

(** X2.  What [getConnectionStatus] reports is consistent wherever the
    controller can get: [connected: true] comes with a device, with
    [batteryLevel: 85], [signalStrength: -60] and [fallbackMode: false];
    state [fallback_mode] comes with [fallbackMode: true]; and
    [errorCount] is at most 50. *)
Theorem connection_status_consistent (c : Ctl) :
  interleaved c ->
  let s := getConnectionStatus c in
  (cs_connected s = true ->
   cs_state s = CONNECTED /\
   (exists d, cs_device s = Some d) /\
   cs_batteryLevel s = 85%Z /\ cs_signalStrength s = (-60)%Z /\
   cs_fallbackMode s = false) /\
  (cs_state s = FALLBACK -> cs_fallbackMode s = true) /\
  cs_errorCount s <= 50.
Proof.
  intro H. cbv zeta.
  assert (Inv c) as I by (apply interleaved_Inv, H).
  assert (fallbackFlagged c) as F.
  { clear I. revert c H. apply interleaved_acts.
    - intros now X. discriminate X.
    - apply fallbackFlagged_act. }
  assert (bounded c) as B.
  { clear I F. revert c H. apply interleaved_acts.
    - intro now. unfold bounded, ERROR_LOG_CAPACITY. cbn. lia.
    - apply bounded_act. }
  unfold Inv, fallbackFlagged, bounded, ERROR_LOG_CAPACITY in *.
  destruct c as [st dv rc ht rt mi ld dd ls el fm pl ts nt ck tc co].
  cbn in *. repeat split; try assumption.
  - destruct st; try discriminate. reflexivity.
  - destruct st; try discriminate.
    destruct I as [D _]; [now left|]. destruct dv; [eauto|congruence].
  - destruct st; try discriminate.
    destruct I as [D _]; [now left|]. destruct dv; [reflexivity|congruence].
  - destruct st; try discriminate.
    destruct I as [D _]; [now left|]. destruct dv; [reflexivity|congruence].
  - destruct st; try discriminate. apply I. now left.
Qed.

Lemma lostAndFallenBack_interleaved : interleaved lostAndFallenBack.
Proof.
  exists 0%Z.
  exists (map Whole [ OpConnect alwaysEstablishes "DRISHTIKA_001" true;
                      OpSamplingFires 2 1 1 1;
                      OpWait 10001;
                      OpHealthFires 1;
                      OpReconnectFires 3 alwaysRejects ]).
  vm_compute. reflexivity.
Defined.

Lemma connection_status_consistent_witness :
  cs_fallbackMode (getConnectionStatus lostAndFallenBack) = true /\
  cs_errorCount (getConnectionStatus lostAndFallenBack) <= 50.
Proof.
  destruct (connection_status_consistent lostAndFallenBack
              lostAndFallenBack_interleaved) as (_ & F & B).
  split; [apply F; vm_compute; reflexivity|exact B].
Defined.

(** X3.  A subscriber of the state channel is never left behind: wherever
    the controller can get, the state carried by the latest [stateChange]
    notification is the controller's connection state ([disconnected]
    before the first notification). *)
Theorem state_channel_in_sync (c : Ctl) :
  interleaved c ->
  last (stateChanges (trace c)) DISCONNECTED = connectionState c.
Proof.
  revert c. apply (interleaved_acts inSync); [reflexivity|apply inSync_act].
Qed.

Lemma state_channel_in_sync_witness :
  last (stateChanges (trace inFlight)) DISCONNECTED = connectionState inFlight.
Proof.
  apply (state_channel_in_sync inFlight).
  eexists. eexists. reflexivity.
Defined.

(** X4.  [isFallbackMode] answers [true] from a [fallbackActivated]
    notification until the next [connected] notification, whatever is
    called in between ([disconnect] included): wherever the controller can
    get, the flag says whether the later of the two notifications was
    [fallbackActivated]. *)
Theorem fallback_flag_follows_events (c : Ctl) :
  interleaved c ->
  isFallbackMode c = modeAfter (trace c) false.
Proof.
  revert c. apply (interleaved_acts flagFollows); [reflexivity|apply flagFollows_act].
Qed.

Lemma fallback_flag_follows_events_witness :
  isFallbackMode (exec disconnect lostAndFallenBack) =
  modeAfter (trace (exec disconnect lostAndFallenBack)) false.
Proof.
  apply (fallback_flag_follows_events (exec disconnect lostAndFallenBack)).
  exists 0%Z.
  exists (map Whole [ OpConnect alwaysEstablishes "DRISHTIKA_001" true;
                      OpSamplingFires 2 1 1 1;
                      OpWait 10001;
                      OpHealthFires 1;
                      OpReconnectFires 3 alwaysRejects;
                      OpDisconnect ]).
  vm_compute. reflexivity.
Defined.

Lemma interleaved_timersSound (c : Ctl) : interleaved c -> timersSound c.
Proof.
  revert c. apply interleaved_acts; [|apply timersSound_act].
  intro now. unfold timersSound, live. cbn.
  repeat split; intros; try discriminate; try contradiction. constructor.
Qed.

(** X5.  The timers that matter are running: wherever the controller can
    get, in state [connected] it holds the handle of a live heartbeat timer
    and of a live sampling timer, and in state [fallback_mode] the handle of
    a live sampling timer. *)
Theorem timers_run_when_needed (c : Ctl) :
  interleaved c ->
  (connectionState c = CONNECTED ->
   exists h s, healthCheckTimer c = Some h /\ liveAs h THealth c = true /\
               monitoringInterval c = Some s /\ liveAs s TSampling c = true) /\
  (connectionState c = FALLBACK ->
   exists s, monitoringInterval c = Some s /\ liveAs s TSampling c = true).
Proof.
  intro H. destruct (interleaved_timersSound c H) as (_ & _ & HH & HS & _ & SC & SF).
  split; intro S.
  - destruct (SC S) as [N1 N2].
    destruct (healthCheckTimer c) as [h|] eqn:E1; [|congruence].
    destruct (monitoringInterval c) as [s|] eqn:E2; [|congruence].
    exists h, s. repeat split; try apply liveAs_live; auto.
  - specialize (SF S).
    destruct (monitoringInterval c) as [s|] eqn:E2; [|congruence].
    exists s. split; [reflexivity|]. apply liveAs_live. auto.
Qed.

Lemma timers_run_when_needed_witness :
  exists s, monitoringInterval lostAndFallenBack = Some s /\
            liveAs s TSampling lostAndFallenBack = true.
Proof.
  apply (timers_run_when_needed lostAndFallenBack lostAndFallenBack_interleaved).
  vm_compute. reflexivity.
Defined.

(** X6.  Three of the notifications reach nobody: the controller offers
    a registration for [distance], [obstacle], [stateChange], [error] and
    [fallbackActivated] only, so wherever it can get there is no subscriber
    for [connected], [disconnected] or [connectionLost], a notification of
    one of them is an entry of the trace and nothing else, and the
    listener map holds at most five subscribers. *)
Theorem unheard_notifications (c : Ctl) (event : string) (data : Payload) :
  interleaved c ->
  event = "connected" \/ event = "disconnected" \/ event = "connectionLost" ->
  map_get event (listeners c) = None /\
  notifyListeners event data c = (set_trace (trace c ++ [Notify event data]) c, Ok tt) /\
  List.length (listeners c) <= 5.
Proof.
  intros H E.
  assert (listenersClosed c) as [D K].
  { revert c H. apply interleaved_acts; [|apply listenersClosed_act].
    intro now. split; [constructor|intros k []]. }
  assert (map_get event (listeners c) = None) as G.
  { apply map_get_None. intro I. specialize (K _ I).
    unfold channelNames in K. cbn in K.
    destruct E as [-> | [-> | ->]]; intuition discriminate. }
  split; [exact G|]. split.
  - rewrite notifyListeners_eq. unfold notified, notifyLog. rewrite G.
    destruct c. cbn. now rewrite app_nil_r.
  - rewrite <- (length_map fst).
    change 5 with (List.length channelNames).
    apply NoDup_incl_length; [exact D|exact K].
Qed.

Lemma unheard_notifications_witness :
  map_get "connected" (listeners inFlight) = None /\
  notifyListeners "connected" PEmpty inFlight =
    (set_trace (trace inFlight ++ [Notify "connected" PEmpty]) inFlight, Ok tt) /\
  List.length (listeners inFlight) <= 5.
Proof.
  apply (unheard_notifications inFlight "connected" PEmpty).
  - eexists. eexists. reflexivity.
  - left. reflexivity.
Defined.

(** X7.  One subscriber for each channel, the last one registered: a
    registration replaces the subscriber of its channel, leaves the
    subscribers of the other channels as they are and does not make the
    listener map longer than the first registration did. *)
Theorem registration_replaces (ch : Channel) (first second : Callback) (c : Ctl) :
  let c1 := exec (subscribe ch first) c in
  let c2 := exec (subscribe ch second) c1 in
  map_get (channelName ch) (listeners c2) = Some second /\
  (forall other, other <> channelName ch ->
                 map_get other (listeners c2) = map_get other (listeners c)) /\
  List.length (listeners c2) = List.length (listeners c1) /\
  notifyLog (listeners c2) (channelName ch) = notifyLog [(channelName ch, second)] (channelName ch).
Proof.
  cbv zeta. unfold exec. rewrite !subscribe_eq. cbn [fst].
  destruct c as [st dv rc ht rt mi ld dd ls el fm pl ts nt ck tc co]. cbn.
  repeat split.
  - apply map_get_set_same.
  - intros other N. now rewrite !map_get_set_other.
  - rewrite <- !(length_map fst), (map_set_keys _ second).
    destruct (in_dec string_dec _ _) as [_|X]; [reflexivity|].
    exfalso. apply (proj2 (map_get_None _ _)) in X.
    rewrite map_get_set_same in X. discriminate.
  - unfold notifyLog. rewrite map_get_set_same. cbn. now rewrite String.eqb_refl.
Qed.

(** ** How a connection ends *)

(** Runs [connectToDevice] along the path the outcomes in the context
    choose. *)
Ltac run_connect :=
  unfold connectToDevice; run_method;
  repeat (rewrite connectLoop_S;
          repeat match goal with
                 | T : ?tr _ = _ |- context [?tr _] => rewrite T
                 end;
          run_method).

(** The clock after the attempts the outcomes in the context choose. *)
Ltac connect_clock :=
  cbv [waited seq Nat.sub map fold_right];
  repeat match goal with
         | T : ?tr _ = _ |- context [?tr _] => rewrite T
         end;
  cbv [raceTime];
  change (retryDelay 1) with 2000%Z; change (retryDelay 2) with 4000%Z;
  unfold ESTABLISH_LATENCY, CONNECTION_TIMEOUT; lia.

Ltac connect_facts :=
  norm; repeat split; try reflexivity;
  rewrite ?attempts_app, ?sleeps_app, ?stateChanges_app, <- ?app_assoc;
  try reflexivity; try solve [connect_clock].

Ltac connect_path :=
  match goal with
  | |- context [connectToDevice ?tr ?deviceId ?autoRetry ?s] =>
      let E := fresh "E" in
      eassert (E : connectToDevice tr deviceId autoRetry s = _)
        by (run_connect; reflexivity);
      rewrite E; clear E
  end.

Ltac earlier_failed :=
  let j := fresh "j" in
  let Hj := fresh "Hj" in
  intros j Hj; destruct j as [|[|[|[|j]]]]; try lia; congruence.

Ltac connect_ok k :=
  left; exists k; connect_path;
  split; [lia|]; split; [assumption|]; split; [earlier_failed|];
  split; [first [now left|now right]|];
  unfold connectedAt; connect_facts.

Ltac connect_ko k :=
  right; exists k; connect_path;
  split; [first [left; split; reflexivity|right; split; reflexivity]|];
  split; [earlier_failed|];
  unfold givenUpAt; connect_facts;
  eexists; repeat split; reflexivity.

Lemma connectToDevice_cases (tr : Transport) (deviceId : string) (autoRetry : bool)
      (c : Ctl) :
  let c' := exec (connectToDevice tr deviceId autoRetry) c in
  let r := result (connectToDevice tr deviceId autoRetry) c in
  (exists k, 1 <= k <= 3 /\ tr k = Established /\
             (forall j, 1 <= j < k -> tr j <> Established) /\
             (k = 1 \/ autoRetry = true) /\
             connectedAt tr k deviceId c c' r) \/
  (exists k, (k = 3 /\ autoRetry = true \/ k = 1 /\ autoRetry = false) /\
             (forall j, 1 <= j <= k -> tr j <> Established) /\
             givenUpAt tr k deviceId c c' r).
Proof.
  cbv zeta. unfold exec, result.
  destruct c as [st dv rc ht rt mi ld dd ls el fm pl ts nt ck tc co].
  destruct (tr 1) eqn:T1; [connect_ok 1| |];
    (destruct autoRetry;
     [ destruct (tr 2) eqn:T2; [connect_ok 2| |];
       (destruct (tr 3) eqn:T3; [connect_ok 3|connect_ko 3|connect_ko 3])
     | connect_ko 1 ]).
Qed.

(** X8.  [connectToDevice] never falls out of its loop: whatever the
    transport does and whether [autoRetry] is set or not, the call either
    returns [{ success: true, device, attempt }] with [attempt] from 1 to 3
    and leaves the controller [connected], holding the device and out of
    fallback mode, or throws [Connection failed after 3 attempts] and leaves
    it in [fallback_mode] with the flag set and the device it had.  It
    never returns [undefined] and never ends [connecting] or [failed]. *)
Theorem connect_ends_connected_or_in_fallback
        (tr : Transport) (deviceId : string) (autoRetry : bool) (c : Ctl) :
  let c' := exec (connectToDevice tr deviceId autoRetry) c in
  let r := result (connectToDevice tr deviceId autoRetry) c in
  let dev := {| dev_id := deviceId; dev_name := "Drishtika" |} in
  (exists k, 1 <= k <= 3 /\
             r = Ok (Some {| cr_success := true; cr_device := Some dev;
                             cr_attempt := k |}) /\
             connectionState c' = CONNECTED /\ device c' = Some dev /\
             fallbackMode c' = false) \/
  (r = Throw "Connection failed after 3 attempts" /\
   connectionState c' = FALLBACK /\ fallbackMode c' = true /\
   device c' = device c).
Proof.
  cbv zeta.
  destruct (connectToDevice_cases tr deviceId autoRetry c)
    as [(k & K & _ & _ & _ & R & S & D & F & _)|(k & _ & _ & R & S & F & D & _)].
  - left. exists k. auto.
  - right. auto.
Qed.

(** The attempt that is established first decides how the call ends. *)
Lemma connectToDevice_connects
      (tr : Transport) (deviceId : string) (autoRetry : bool) (c : Ctl) (k : nat) :
  1 <= k <= 3 ->
  tr k = Established ->
  (forall j, 1 <= j < k -> tr j <> Established) ->
  k = 1 \/ autoRetry = true ->
  connectedAt tr k deviceId c
    (exec (connectToDevice tr deviceId autoRetry) c)
    (result (connectToDevice tr deviceId autoRetry) c).
Proof.
  intros K T N A.
  destruct (connectToDevice_cases tr deviceId autoRetry c)
    as [(k' & K' & T' & N' & _ & R)|(k' & A' & N' & _)].
  - assert (k' = k) as ->; [|exact R].
    destruct (Nat.lt_trichotomy k' k) as [L|[E|L]]; [|exact E|].
    + exfalso. apply (N k'); [lia|exact T'].
    + exfalso. apply (N' k); [lia|exact T].
  - exfalso. apply (N' k); [|exact T].
    destruct A' as [[-> _]|[-> B]]; [lia|].
    destruct A as [->|A]; [lia|congruence].
Qed.

(** X9.  When the first attempt the transport establishes is attempt [k]
    (at most 3, and 1 unless [autoRetry] is set), [connectToDevice] returns
    [{ success: true, device: { id, name: 'Drishtika' }, attempt: k }].
    Each failed attempt [j] before it is followed by a sleep of
    [2000 * 2^(j-1)] ms and by nothing else: the trace is [connecting],
    then attempt and sleep for each failed attempt, then attempt [k],
    [connected]; the pass of the loop for a failed attempt ends, and the
    next starts, when the time of its race and then its delay have gone
    by, so that the call returns after the races and the delays together.
    The failed attempts leave no record in the error log; the controller is
    [connected] and out of fallback mode, and a heartbeat timer and a
    sampling timer were added to those the runtime held. *)
Theorem connect_at_attempt
        (tr : Transport) (deviceId : string) (autoRetry : bool) (c : Ctl) (k : nat) :
  1 <= k <= 3 ->
  tr k = Established ->
  (forall j, 1 <= j < k -> tr j <> Established) ->
  k = 1 \/ autoRetry = true ->
  connectedAt tr k deviceId c
    (exec (connectToDevice tr deviceId autoRetry) c)
    (result (connectToDevice tr deviceId autoRetry) c) /\
  (forall j fuel c0, 1 <= j < k ->
     let c1 := exec (connectLoop tr deviceId autoRetry 1 j) c0 in
     connectLoop tr deviceId autoRetry (S fuel) j c0
     = connectLoop tr deviceId autoRetry fuel (S j) c1 /\
     clock c1 = (clock c0 + raceTime (tr j) + retryDelay j)%Z /\
     trace c1 = trace c0 ++ [Establish deviceId; Sleep (retryDelay j)]) /\
  (forall j, 1 <= j -> retryDelay j = (2000 * 2 ^ Z.of_nat (j - 1))%Z) /\
  (forall a, (0 < raceTime a)%Z).
Proof.
  intros K T N A.
  split; [now apply connectToDevice_connects|].
  split.
  - intros j fuel c0 J. destruct A as [->| ->]; [lia|]. apply retried_attempt.
    + now apply N.
    + unfold MAX_RETRY_ATTEMPTS. lia.
  - split; [intros j J; apply retryDelay_formula|].
    intros [| |]; reflexivity.
Qed.

Lemma connect_at_attempt_witness :
  clock (exec (connectToDevice failsTwice "X" true) (newController 0)) = 9000%Z.
Proof.
  destruct (connect_at_attempt failsTwice "X" true (newController 0) 3)
    as [W _].
  - lia.
  - reflexivity.
  - intros j Hj. destruct j as [|[|[|j]]]; try lia; discriminate.
  - right. reflexivity.
  - destruct W as (_ & _ & _ & _ & _ & _ & _ & _ & _ & _ & _ & _ & W).
    rewrite W. reflexivity.
Defined.

(** X10.  Without [autoRetry] a failed first attempt is the only one: no
    second attempt and no sleep, a [connection_failed] error is recorded
    with state [connecting], [failed] and [fallback_mode] are announced,
    fallback mode is activated, and the message thrown still reads
    [Connection failed after 3 attempts]. *)
Theorem connect_without_retry (tr : Transport) (deviceId : string) (c : Ctl) :
  tr 1 <> Established ->
  let c' := exec (connectToDevice tr deviceId false) c in
  result (connectToDevice tr deviceId false) c
    = Throw "Connection failed after 3 attempts" /\
  attempts (trace c') = attempts (trace c) ++ [deviceId] /\
  sleeps (trace c') = sleeps (trace c) /\
  stateChanges (trace c') = stateChanges (trace c) ++ [CONNECTING; FAILED; FALLBACK] /\
  (exists e, err_type e = CONNECTION_FAILED /\ err_state e = CONNECTING /\
             errorLog c' = pushShift (errorLog c) e) /\
  connectionState c' = FALLBACK /\ fallbackMode c' = true.
Proof.
  intros T. cbv zeta.
  destruct (connectToDevice_cases tr deviceId false c)
    as [(k & K & T' & N & A & _)|(k & A & _ & R & S & F & _ & E & At & Sl & Sc & _)].
  - exfalso. destruct A as [->|A]; [contradiction|discriminate].
  - destruct A as [[_ A]|[-> _]]; [discriminate|].
    cbn in At, Sl. rewrite app_nil_r in Sl. auto 10.
Qed.

Lemma connect_without_retry_witness :
  attempts (trace (exec (connectToDevice alwaysRejects "X" false) (newController 0)))
  = [ "X" ].
Proof.
  apply (connect_without_retry alwaysRejects "X" (newController 0)).
  discriminate.
Defined.

(** ** The reconnection *)








(** ** The heartbeat and the samples *)

(** X11.  The heartbeat check leaves the controller exactly as it is when
    the state is not [connected], when no sample was ever received
    ([lastDataTimestamp] is [null], or [0], which [||] takes for missing),
    or when the last sample is at most 10000 ms old.  So a connection that
    never delivers a sample is never declared lost, however long it is
    silent. *)
Theorem health_check_stays_quiet (c : Ctl) :
  connectionState c <> CONNECTED \/
  lastDataTimestamp c = None \/
  lastDataTimestamp c = Some 0%Z \/
  (exists t, lastDataTimestamp c = Some t /\ (clock c - t <= 10000)%Z) ->
  checkConnectionHealth c = (c, Ok tt).
Proof.
  intros [H|[H|[H|(t & H & L)]]].
  - now apply checkConnectionHealth_not_connected.
  - now apply checkConnectionHealth_never_sampled.
  - unfold checkConnectionHealth.
    destruct c as [st dv rc ht rt mi ld dd ls el fm pl ts nt ck tc co].
    cbn [lastDataTimestamp] in H. subst ld.
    assert (Z.ltb (HEALTH_CHECK_INTERVAL * 2) (ck - orNow (Some 0%Z) ck) = false) as F.
    { apply Z.ltb_ge. unfold orNow, HEALTH_CHECK_INTERVAL. cbn. lia. }
    destruct st; norm; rewrite ?F; reflexivity.
  - apply (checkConnectionHealth_recent c t H). unfold HEALTH_CHECK_INTERVAL. lia.
Qed.

Lemma health_check_stays_quiet_witness :
  checkConnectionHealth
    (exec (elapse 3600000)
          (exec (connectToDevice alwaysEstablishes "DRISHTIKA_001" true)
                (newController 0)))
  = (exec (elapse 3600000)
          (exec (connectToDevice alwaysEstablishes "DRISHTIKA_001" true)
                (newController 0)),
     Ok tt).
Proof.
  apply health_check_stays_quiet.
  right. left. vm_compute. reflexivity.
Defined.

Lemma monitoringTick_eq (f l r : Q) (c : Ctl) :
  let src := if fallbackMode c
             then (if phoneHasLidar c then phone_lidar else camera_depth_estimation)
             else drishtika_hardware in
  let data := Dist.mk (Some f) (Some l) (Some r) (Some (clock c)) (Some src) in
  monitoringTick f l r c =
  (set_lastDataTimestamp (Some (clock c)) (exec (updateDistanceData data) c), Ok tt).
Proof.
  cbv zeta. unfold monitoringTick, simulateFallbackDistanceData, simulateDistanceReading,
    updateDistanceData, exec.
  destruct c as [st dv rc ht rt mi ld dd ls el fm pl ts nt ck tc co].
  destruct fm, pl; run_method;
    match goal with
    | |- context [isSafe ?x] => destruct (isSafe x)
    end; run_method; reflexivity.
Qed.

Lemma updateDistanceData_eq (data : Dist.t) (c : Ctl) :
  updateDistanceData data c =
  (let c1 := notified "distance" (PDistance data) (set_distanceData data c) in
   if Qltb (minDistance data) 2
   then notified "obstacle"
          (PObstacle (analyzeDistanceData data) (minDistance data)
                     (getClosestDirection data) (Dist.source data)) c1
   else c1,
   Ok tt).
Proof.
  unfold updateDistanceData.
  assert (isSafe (analyzeDistanceData data) = negb (Qltb (minDistance data) 2)) as S.
  { unfold analyzeDistanceData.
    destruct (Qltb (minDistance data) (1 # 2)) eqn:E1;
      destruct (Qltb (minDistance data) 1) eqn:E2;
      destruct (Qltb (minDistance data) 2) eqn:E3; try reflexivity;
      exfalso;
      repeat match goal with
             | E : Qltb _ _ = true |- _ => apply Qltb_lt in E
             | E : Qltb _ _ = false |- _ => apply Qltb_ge in E
             end; lra. }
  destruct c as [st dv rc ht rt mi ld dd ls el fm pl ts nt ck tc co].
  run_method. rewrite S.
  destruct (Qltb (minDistance data) 2); run_method; reflexivity.
Qed.

(** X12.  A sample: [updateDistanceData] stores it, notifies [distance],
    and notifies [obstacle] after that exactly when the smallest of the
    three distances is below 2, with the level, that smallest distance, the
    direction [getClosestDirection] gives and the source of the sample.
    Nothing else of the controller changes, and no subscriber can make it
    throw. *)
Theorem obstacle_event_below_two (data : Dist.t) (c : Ctl) :
  let c' := exec (updateDistanceData data) c in
  let obstacle := Notify "obstacle"
                    (PObstacle (analyzeDistanceData data) (minDistance data)
                               (getClosestDirection data) (Dist.source data)) in
  result (updateDistanceData data) c = Ok tt /\
  distanceData c' = data /\
  trace c' = trace c ++ Notify "distance" (PDistance data)
                        :: (if Qltb (minDistance data) 2 then [obstacle] else []) /\
  (Qltb (minDistance data) 2 = true <-> analyzeDistanceData data <> SAFE) /\
  set_console [] (set_trace [] (set_distanceData (distanceData c) c')) =
  set_console [] (set_trace [] c).
Proof.
  cbv zeta. unfold exec, result. rewrite updateDistanceData_eq.
  destruct (analyzeDistanceData_cases data) as (_ & _ & _ & SAFE_iff).
  cbv zeta in SAFE_iff.
  assert (Qltb (minDistance data) 2 = true <-> analyzeDistanceData data <> SAFE) as I.
  { rewrite SAFE_iff. destruct (Qltb (minDistance data) 2) eqn:E.
    - apply Qltb_lt in E. split; [intros _ G; lra|reflexivity].
    - apply Qltb_ge in E. split; [discriminate|intro G; contradiction]. }
  destruct c as [st dv rc ht rt mi ld dd ls el fm pl ts nt ck tc co].
  destruct (Qltb (minDistance data) 2); norm;
    rewrite <- ?app_assoc; repeat split; try reflexivity; apply I.
Qed.

(** X13.  A sampling tick: the sample carries the time of the clock and
    the source the mode asks for ([drishtika_hardware] out of fallback
    mode, else [phone_lidar] with a LiDAR phone and
    [camera_depth_estimation] without), [lastDataTimestamp] becomes that
    time, state, device, timers and error log stay as they are; and a
    heartbeat check within the next 10000 ms changes nothing. *)
Theorem sample_keeps_heartbeat_quiet (f l r : Q) (ms : Z) (c : Ctl) :
  (0 <= ms <= 10000)%Z ->
  let c1 := exec (monitoringTick f l r) c in
  let src := if fallbackMode c
             then (if phoneHasLidar c then phone_lidar else camera_depth_estimation)
             else drishtika_hardware in
  result (monitoringTick f l r) c = Ok tt /\
  distanceData c1 = Dist.mk (Some f) (Some l) (Some r) (Some (clock c)) (Some src) /\
  lastDataTimestamp c1 = Some (clock c) /\
  connectionState c1 = connectionState c /\ device c1 = device c /\
  fallbackMode c1 = fallbackMode c /\ timers c1 = timers c /\
  errorLog c1 = errorLog c /\
  checkConnectionHealth (exec (elapse ms) c1) = (exec (elapse ms) c1, Ok tt).
Proof.
  intro M. cbv zeta.
  pose proof (monitoringTick_eq f l r c) as E. cbv zeta in E.
  unfold exec in E. rewrite updateDistanceData_eq in E. cbn [fst] in E.
  unfold result, exec. rewrite E. clear E. cbn [fst snd].
  destruct c as [st dv rc ht rt mi ld dd ls el fm pl ts nt ck tc co].
  destruct (Qltb _ 2); norm; repeat split; try reflexivity.
  all: match goal with
       | |- checkConnectionHealth ?s = _ =>
           apply (checkConnectionHealth_recent s ck); [reflexivity|];
           unfold HEALTH_CHECK_INTERVAL; cbn; lia
       end.
Qed.

Lemma sample_keeps_heartbeat_quiet_witness :
  lastDataTimestamp (exec (monitoringTick 1 1 1) inFallback) = Some 0%Z /\
  Dist.source (distanceData (exec (monitoringTick 1 1 1) inFallback))
    = Some camera_depth_estimation.
Proof.
  destruct (sample_keeps_heartbeat_quiet 1 1 1 5000 inFallback) as (_ & D & L & _).
  - lia.
  - split; [exact L|]. rewrite D. reflexivity.
Defined.

(** ** Samples with a component that is [null] *)

(** X14.  A component that is [null] counts as a distance of [0]: a
    sample of numbers and [null]s in which [front], [left] or [right] is
    [null] is classified [CRITICAL] by both services, whatever the other
    components are, and the smallest distance is exactly [0] when the other
    components are not negative.  The [distanceData] the constructor
    writes, three [null]s, is such a sample.  (A component that is absent
    from the object is [undefined], not [null], and is no value of
    [Dist.t]: nothing is said of it here.) *)
Theorem null_component_is_critical (data : Dist.t) :
  Dist.front data = None \/ Dist.left data = None \/ Dist.right data = None ->
  analyzeDistanceData data = CRITICAL /\
  Legacy.analyzeDistanceData data = CRITICAL /\
  (minDistance data <= 0)%Q /\
  ((0 <= toNumber (Dist.front data))%Q -> (0 <= toNumber (Dist.left data))%Q ->
   (0 <= toNumber (Dist.right data))%Q -> (minDistance data == 0)%Q).
Proof.
  intro H.
  assert (minDistance data <= 0)%Q as L.
  { unfold minDistance, Math_min.
    set (f := toNumber (Dist.front data)). set (l := toNumber (Dist.left data)).
    set (r := toNumber (Dist.right data)).
    assert (f == 0 \/ l == 0 \/ r == 0)%Q as Z.
    { subst f l r. destruct H as [H|[H|H]]; rewrite H; cbn; auto using Qeq_refl. }
    destruct (Q.min_spec f l) as [[? E]|[? E]];
      destruct (Q.min_spec (Qmin f l) r) as [[? E']|[? E']];
      destruct Z as [Z|[Z|Z]]; lra. }
  destruct (analyzeDistanceData_cases data) as (C & _). cbv zeta in C.
  assert (analyzeDistanceData data = CRITICAL) as A by (apply C; lra).
  split; [exact A|]. split; [exact A|]. split; [exact L|].
  intros Hf Hl Hr. apply Qle_antisym; [exact L|].
  unfold minDistance, Math_min.
  destruct (Q.min_spec (toNumber (Dist.front data)) (toNumber (Dist.left data)))
    as [[? E]|[? E]];
    destruct (Q.min_spec (Qmin (toNumber (Dist.front data)) (toNumber (Dist.left data)))
                         (toNumber (Dist.right data))) as [[? E']|[? E']];
    lra.
Qed.

Lemma null_component_is_critical_witness :
  analyzeDistanceData (distanceData (newController 0)) = CRITICAL.
Proof.
  apply (null_component_is_critical (distanceData (newController 0))).
  left. reflexivity.
Defined.

(** ** Initialisation *)

(** X15.  [initialize] never throws and always answers [success: true];
    [fallbackMode] in the answer is [false] on iOS and Android and [true]
    on every other platform.  On iOS and Android the state, the fallback
    flag, the error log, the timers and the trace are left as they were; on
    the other platforms fallback mode is activated (state [fallback_mode],
    flag set, one more sampling timer), and only on the web is an error
    recorded: [bluetooth_unavailable], "Web platform detected".  That
    [Device.getDeviceTypeAsync] rejects changes none of this. *)
Theorem initialize_outcome (env : Env) (c : Ctl) :
  let c' := exec (initialize env) c in
  let mobile := isIos (platformOS env) || isAndroid (platformOS env) in
  result (initialize env) c
    = Ok {| ir_success := true; ir_fallbackMode := negb mobile |} /\
  (mobile = true ->
   connectionState c' = connectionState c /\ fallbackMode c' = fallbackMode c /\
   errorLog c' = errorLog c /\ timers c' = timers c /\ trace c' = trace c) /\
  (mobile = false ->
   connectionState c' = FALLBACK /\ fallbackMode c' = true /\
   timers c' = timers c ++ [samplingTimer (nextTimerId c)] /\
   stateChanges (trace c') = stateChanges (trace c) ++ [FALLBACK]) /\
  (platformOS env = web ->
   errorLog c' = pushShift (errorLog c)
                   {| err_type := BLUETOOTH_UNAVAILABLE;
                      err_message := "Web platform detected";
                      err_timestamp := clock c;
                      err_state := connectionState c |}) /\
  (platformOS env <> web -> errorLog c' = errorLog c).
Proof.
  cbv zeta. unfold exec, result, initialize, checkDeviceCapabilities,
              checkBluetoothAvailable.
  destruct c as [st dv rc ht rt mi ld dd ls el fm pl ts nt ck tc co].
  destruct env as [os dt mn].
  destruct os, dt; run_method;
    rewrite ?stateChanges_app, <- ?app_assoc;
    repeat split; intros; try reflexivity; try discriminate; try congruence.
Qed.

(** ** The LiDAR of the phone *)

Lemma includes_occursIn (s sub : string) :
  sub <> "" -> (includes s sub = true <-> occursIn sub s).
Proof.
  intro N. unfold includes, occursIn.
  destruct (String.index 0 sub s) as [n|] eqn:E.
  - split; [intros _|reflexivity]. exists n. exact (String.index_correct1 _ _ _ _ E).
  - split; [discriminate|]. intros (n & H). exfalso.
    apply (String.index_correct3 0 n sub s E N); [lia|exact H].
Qed.

(** X16.  [checkDeviceCapabilities] never throws.  On iOS, when the
    device type can be read, the phone is taken to have LiDAR exactly when
    its model name contains [Pro] and contains one of [12], [13], [14],
    [15], anywhere in the name; a missing model name means no LiDAR.  On
    every other platform, and when reading the device type fails, the flag
    is left as it was. *)
Theorem lidar_by_model_name (env : Env) (c : Ctl) :
  let c' := exec (checkDeviceCapabilities env) c in
  result (checkDeviceCapabilities env) c = Ok tt /\
  (platformOS env = ios -> (exists t, deviceTypeAsync env = Ok t) ->
   (phoneHasLidar c' = true <->
    exists name, modelName env = Some name /\ occursIn "Pro" name /\
                 (occursIn "12" name \/ occursIn "13" name \/
                  occursIn "14" name \/ occursIn "15" name))) /\
  (platformOS env <> ios \/ (exists e, deviceTypeAsync env = Throw e) ->
   phoneHasLidar c' = phoneHasLidar c) /\
  connectionState c' = connectionState c /\ trace c' = trace c.
Proof.
  cbv zeta. unfold exec, result, checkDeviceCapabilities.
  destruct c as [st dv rc ht rt mi ld dd ls el fm pl ts nt ck tc co].
  destruct env as [os dt mn].
  assert (lidarModel mn = true <->
          exists name, mn = Some name /\ occursIn "Pro" name /\
                       (occursIn "12" name \/ occursIn "13" name \/
                        occursIn "14" name \/ occursIn "15" name)) as L.
  { unfold lidarModel. destruct mn as [name|].
    - rewrite andb_true_iff, !orb_true_iff, !includes_occursIn by discriminate.
      split.
      + intros (P & N). exists name. tauto.
      + intros (n & E & P & N). injection E as <-. tauto.
    - split; [discriminate|]. intros (n & E & _). discriminate. }
  destruct os, dt; run_method; repeat split; try reflexivity;
    try (intros; exact L);
    try (intros [X|(e & X)]; congruence);
    try (intros X (t & Y); congruence).
  all: intros; try congruence.
  all: try (destruct H as [X|(e & X)]; congruence).
  all: try (apply L; assumption).
  all: match goal with
       | X : exists t, Throw _ = Ok t |- _ => destruct X as (t & X); discriminate
       end.
Qed.

Lemma lidar_by_model_name_witness :
  phoneHasLidar
    (exec (checkDeviceCapabilities
             {| platformOS := ios; deviceTypeAsync := Ok "1";
                modelName := Some "iPad Pro (12.9-inch)" |})
          (newController 0)) = true.
Proof.
  apply (lidar_by_model_name
           {| platformOS := ios; deviceTypeAsync := Ok "1";
              modelName := Some "iPad Pro (12.9-inch)" |} (newController 0)).
  - reflexivity.
  - eexists. reflexivity.
  - exists "iPad Pro (12.9-inch)". split; [reflexivity|].
    split; [exists 5; reflexivity|]. left. exists 10. reflexivity.
Defined.

(** * [WatchConnectivityService] *)

Lemma Watch_send_eq (message : Watch.Message) (failure : string) (w : Watch.t) :
  Watch.send message failure w =
  if Watch.isConnected w
  then (Watch.mk true (Watch.messageHandlers w)
          (Watch.console w ++
           [(Watch.LLog, ("[WatchConnectivity] Sending message: " ++ Watch.type message)%string)]),
        Ok {| Watch.success := true |})
  else (w, Ok {| Watch.success := false |}).
Proof.
  destruct w as [[|] hs co]; reflexivity.
Qed.

Lemma Watch_sent_app (b : bool) (hs : list (string * Watch.Handler))
      (co : list (Watch.Level * string)) (l : Watch.Level) (text : string) :
  Watch.sent (Watch.mk b hs (co ++ [(l, text)])) =
  Watch.sent (Watch.mk b hs co) ++
  match l with Watch.LLog => [text] | _ => [] end.
Proof.
  unfold Watch.sent. cbn [Watch.console]. rewrite filter_app, map_app.
  destruct l; reflexivity.
Qed.

Lemma Watch_run_off_ios (o : Watch.Op) (w : Watch.t) :
  (forall os, o = Watch.Initialize os -> os <> ios) ->
  Watch.isConnected w = false ->
  Watch.isConnected (Watch.run o w) = false /\
  Watch.sent (Watch.run o w) = Watch.sent w.
Proof.
  intros H C. destruct w as [b hs co]. cbn [Watch.isConnected] in C. subst b.
  destruct o; unfold Watch.run, after, Watch.sendObstacleAlert,
    Watch.sendEmotionUpdate, Watch.sendModeChange, Watch.sendStatusUpdate;
    rewrite ?Watch_send_eq; cbn [fst Watch.isConnected]; auto.
  - assert (os <> ios) as N by (now apply H).
    destruct os; try congruence; cbn -[Watch.sent]; rewrite Watch_sent_app, app_nil_r; auto.
  - unfold Watch.handleIncomingMessage, sbind, sget. cbn [Watch.messageHandlers].
    destruct (Watch.lookup _ hs) as [h|]; [|auto].
    destruct (h _) as [[text| |]|]; cbn -[Watch.sent];
      rewrite ?Watch_sent_app, ?app_nil_r; auto.
Qed.

(** X17.  Off iOS the watch is never reached: when [initialize] is only
    ever called on a platform other than iOS, then after any sequence of
    calls [isConnected] is [false], all four [send...] methods answer
    [{ success: false }] without throwing and leave the service as it is,
    and no message was ever handed to [sendMessage]. *)
Theorem watch_silent_off_ios (ops : list Watch.Op) (now : Z)
        (obstacle : Watch.Obstacle) (emotion : Watch.Emotion) (mode : Value)
        (status : Watch.Status) :
  (forall os, In (Watch.Initialize os) ops -> os <> ios) ->
  let w := fold_left (fun w o => Watch.run o w) ops Watch.new in
  Watch.isConnected w = false /\
  Watch.sent w = [] /\
  Watch.sendObstacleAlert now obstacle w = (w, Ok {| Watch.success := false |}) /\
  Watch.sendEmotionUpdate now emotion w = (w, Ok {| Watch.success := false |}) /\
  Watch.sendModeChange now mode w = (w, Ok {| Watch.success := false |}) /\
  Watch.sendStatusUpdate now status w = (w, Ok {| Watch.success := false |}).
Proof.
  intros H. cbv zeta.
  assert (forall w0, Watch.isConnected w0 = false ->
            let w := fold_left (fun w o => Watch.run o w) ops w0 in
            Watch.isConnected w = false /\ Watch.sent w = Watch.sent w0) as G.
  { induction ops as [|o ops IH]; intros w0 C; [split; auto|].
    cbn [fold_left].
    destruct (Watch_run_off_ios o w0) as [C1 S1]; [|exact C|].
    - intros os ->. apply H. now left.
    - destruct (IH (fun os I => H os (or_intror I)) _ C1) as [C2 S2].
      split; [exact C2|]. now rewrite S2. }
  destruct (G Watch.new eq_refl) as [C S].
  unfold Watch.sendObstacleAlert, Watch.sendEmotionUpdate, Watch.sendModeChange,
    Watch.sendStatusUpdate.
  rewrite !Watch_send_eq, C. repeat split; try reflexivity. exact S.
Qed.

Lemma watch_silent_off_ios_witness :
  Watch.sent
    (fold_left (fun w o => Watch.run o w)
       [ Watch.Initialize android;
         Watch.SendModeChange 0 (VString "navigation") ]
       Watch.new) = [].
Proof.
  apply (watch_silent_off_ios
           [ Watch.Initialize android;
             Watch.SendModeChange 0 (VString "navigation") ]
           0 (Watch.Build_Obstacle VUndefined VUndefined VUndefined VUndefined)
           (Watch.Build_Emotion VUndefined VUndefined) VUndefined
           (Watch.Build_Status VUndefined VUndefined)).
  intros os [E|[E|[]]]; [injection E as <-|]; discriminate.
Defined.

(** X18.  On iOS [initialize] answers [true] and connects the watch, and
    from then on each of the four [send...] methods answers
    [{ success: true }] and hands exactly one message of its own type to
    [sendMessage]; none of them ever throws, connected or not. *)
Theorem watch_sends_on_ios (w0 : Watch.t) (now : Z)
        (obstacle : Watch.Obstacle) (emotion : Watch.Emotion) (mode : Value)
        (status : Watch.Status) :
  let w := after (Watch.initialize ios) w0 in
  let line := fun type => ("[WatchConnectivity] Sending message: " ++ type)%string in
  answer (Watch.initialize ios) w0 = Ok true /\
  Watch.isConnected w = true /\
  Watch.getConnectionStatus w = {| Watch.connected := true; Watch.paired := true;
                                   Watch.reachable := true |} /\
  (answer (Watch.sendObstacleAlert now obstacle) w = Ok {| Watch.success := true |} /\
   Watch.sent (after (Watch.sendObstacleAlert now obstacle) w)
     = Watch.sent w ++ [line "obstacle_alert"]) /\
  (answer (Watch.sendEmotionUpdate now emotion) w = Ok {| Watch.success := true |} /\
   Watch.sent (after (Watch.sendEmotionUpdate now emotion) w)
     = Watch.sent w ++ [line "emotion_update"]) /\
  (answer (Watch.sendModeChange now mode) w = Ok {| Watch.success := true |} /\
   Watch.sent (after (Watch.sendModeChange now mode) w)
     = Watch.sent w ++ [line "mode_change"]) /\
  (answer (Watch.sendStatusUpdate now status) w = Ok {| Watch.success := true |} /\
   Watch.sent (after (Watch.sendStatusUpdate now status) w)
     = Watch.sent w ++ [line "status_update"]).
Proof.
  cbv zeta. unfold answer, after, Watch.sendObstacleAlert, Watch.sendEmotionUpdate,
    Watch.sendModeChange, Watch.sendStatusUpdate.
  rewrite !Watch_send_eq. destruct w0 as [b hs co]. cbn -[Watch.sent].
  rewrite !Watch_sent_app. repeat split; reflexivity.
Qed.

Lemma Watch_lookup_insert (k : string) (h : Watch.Handler)
      (m : list (string * Watch.Handler)) :
  Watch.lookup k (Watch.insert k h m) = Some h.
Proof.
  induction m as [|[k' v'] m IH]; cbn [Watch.insert Watch.lookup].
  - now rewrite String.eqb_refl.
  - destruct (String.eqb k k') eqn:E; cbn [Watch.lookup];
      rewrite ?String.eqb_refl, ?E; auto.
Qed.

Lemma Watch_lookup_insert_other (k k' : string) (h : Watch.Handler)
      (m : list (string * Watch.Handler)) :
  k' <> k -> Watch.lookup k' (Watch.insert k h m) = Watch.lookup k' m.
Proof.
  intro N. induction m as [|[k1 v1] m IH]; cbn [Watch.insert Watch.lookup].
  - apply String.eqb_neq in N. now rewrite N.
  - destruct (String.eqb k k1) eqn:E; cbn [Watch.lookup].
    + apply String.eqb_eq in E. subst k1.
      apply String.eqb_neq in N. now rewrite N.
    + destruct (String.eqb k' k1); auto.
Qed.

(** X19.  Messages from the watch: a message goes to the handler
    registered last for its type and to no other.  When that handler
    throws a value whose [message] can be read, [handleIncomingMessage]
    writes one line on the console and returns; when it throws [null] or
    [undefined], reading [error.message] in the [catch] throws in turn and
    [handleIncomingMessage] throws a [TypeError], having written nothing.
    A message of a type without a handler is dropped and leaves the service
    exactly as it is.  Neither the connection flag nor the handlers
    change. *)
Theorem watch_message_dispatch (w : Watch.t) (type : string)
        (earlier handler : Watch.Handler) (message : Watch.Message) :
  let w1 := after (Watch.onMessage type handler)
                  (after (Watch.onMessage type earlier) w) in
  let logged := fun text =>
    Watch.mk (Watch.isConnected w1) (Watch.messageHandlers w1)
      (Watch.console w1 ++
       [(Watch.LError, ("[WatchConnectivity] Handler error: " ++ text)%string)]) in
  (Watch.type message = type ->
   Watch.handleIncomingMessage message w1 =
   match handler (Watch.data message) with
   | None => (w1, Ok tt)
   | Some (ThrownError text) => (logged text, Ok tt)
   | Some ThrownOther => (logged "undefined", Ok tt)
   | Some ThrownNullish => (w1, Throw TYPE_ERROR)
   end) /\
  (Watch.type message <> type ->
   Watch.lookup (Watch.type message) (Watch.messageHandlers w) = None ->
   Watch.handleIncomingMessage message w1 = (w1, Ok tt)) /\
  Watch.isConnected (after (Watch.handleIncomingMessage message) w1)
    = Watch.isConnected w /\
  Watch.messageHandlers (after (Watch.handleIncomingMessage message) w1)
    = Watch.messageHandlers w1.
Proof.
  cbv zeta. unfold after, Watch.onMessage, smodify. cbn [fst].
  destruct w as [b hs co]. cbn [Watch.isConnected Watch.messageHandlers Watch.console].
  unfold Watch.handleIncomingMessage, sbind, sget.
  cbn [Watch.messageHandlers].
  destruct (String.eqb_spec (Watch.type message) type) as [E|N].
  - rewrite E, Watch_lookup_insert.
    destruct (handler (Watch.data message)) as [[text| |]|]; cbn;
      repeat split; try reflexivity; intros; congruence.
  - rewrite !(Watch_lookup_insert_other type _ _ _ N).
    destruct (Watch.lookup (Watch.type message) hs) as [h|].
    + destruct (h (Watch.data message)) as [[text| |]|]; cbn;
        repeat split; try reflexivity; intros; congruence.
    + cbn. repeat split; try reflexivity; intros; congruence.
Qed.

(** * [HardwareIntegrationService] *)

Lemma Service_notifyListeners_core (event : string) (data : Payload) (s : Service.t) :
  let s' := after (Service.notifyListeners event data) s in
  Service.device s' = Service.device s /\
  Service.isConnected s' = Service.isConnected s /\
  Service.monitoringInterval s' = Service.monitoringInterval s /\
  Service.timers s' = Service.timers s /\
  Service.nextTimerId s' = Service.nextTimerId s.
Proof.
  cbv zeta. unfold after, Service.notifyListeners, sbind, sget.
  destruct (Service.lookup event (Service.listeners s)) as [cb|]; [|cbn; auto].
  destruct (cb data) as [[text| |]|]; destruct s; cbn; auto.
Qed.

Lemma Service_updateDistanceData_core (data : Dist.t) (s : Service.t) :
  let s' := after (Service.updateDistanceData data) s in
  Service.device s' = Service.device s /\
  Service.isConnected s' = Service.isConnected s /\
  Service.monitoringInterval s' = Service.monitoringInterval s /\
  Service.timers s' = Service.timers s /\
  Service.nextTimerId s' = Service.nextTimerId s.
Proof.
  cbv zeta. unfold after, Service.updateDistanceData, sbind, smodify.
  match goal with
  | |- context [Service.notifyListeners "distance" ?d ?s0] =>
      pose proof (Service_notifyListeners_core "distance" d s0) as N1;
      cbv zeta in N1; unfold after in N1;
      destruct (Service.notifyListeners "distance" d s0) as [s1 [[]|e]]
  end; cbn [fst] in *.
  - destruct (negb _).
    + match goal with
      | |- context [Service.notifyListeners "obstacle" ?d s1] =>
          pose proof (Service_notifyListeners_core "obstacle" d s1) as N2;
          cbv zeta in N2; unfold after in N2;
          destruct (Service.notifyListeners "obstacle" d s1) as [s2 r]
      end; cbn [fst] in *.
      destruct s; cbn in *. intuition congruence.
    + destruct s; cbn in *. intuition congruence.
  - destruct s; cbn in *. intuition congruence.
Qed.

Lemma serviceSound_run (o : Service.Op) (s : Service.t) :
  serviceSound s -> serviceSound (Service.run o s).
Proof.
  intros (C & M & B). unfold serviceSound.
  destruct o; unfold Service.run;
    try match goal with settings : option Service.Settings |- _ => destruct settings end;
    try (destruct s as [dv ic dd ls om mi ts nt co]; cbn in *;
         repeat split; intros; try discriminate; try congruence; auto;
         try apply C; try apply M; auto; fail).
  - (* initialize *)
    destruct os; destruct s; cbn in *; repeat split; try tauto; auto.
  - (* connectToDevice *)
    destruct s as [dv ic dd ls om mi ts nt co]; cbn in *.
    repeat split; intros; try discriminate; auto.
    apply in_app_iff in H. destruct H as [H|[<-|[]]]; [|lia].
    specialize (B _ H). lia.
  - (* disconnect *)
    destruct s as [[d|] ic dd ls om [h|] ts nt co]; cbn in *;
      repeat split; intros; try discriminate; try congruence; auto;
      try tauto.
    apply filter_In in H. apply B. tauto.
  - (* sendCommand *)
    destruct s as [dv [|] dd ls om mi ts nt co]; cbn in *; repeat split; tauto.
  - (* the sampling timer fires *)
    destruct (existsb _ _); [|repeat split; tauto].
    unfold Service.simulateDistanceReading.
    destruct (Service_updateDistanceData_core
                (Dist.mk (Some f) (Some l) (Some r) (Some now) None) s)
      as (E1 & E2 & E3 & E4 & E5).
    rewrite E1, E2, E3, E4, E5. repeat split; tauto.
Qed.

Lemma reachable_serviceSound (s : Service.t) : Service.reachable s -> serviceSound s.
Proof.
  intros (ops & ->).
  assert (serviceSound Service.new) as H.
  { unfold serviceSound. cbn. repeat split; intros; try discriminate; try tauto. }
  revert H. generalize Service.new.
  induction ops as [|o ops IH]; intros s H; [exact H|].
  cbn [fold_left]. apply IH, serviceSound_run, H.
Qed.

(** X20.  In the earlier service [isConnected] and [device] go together
    after any sequence of calls and timer ticks, and [sendCommand] follows
    them: it answers [{ success: true }] exactly while a device is held and
    throws [Device not connected] otherwise, changing nothing then. *)
Theorem service_command_needs_device (s : Service.t) (command : string) :
  Service.reachable s ->
  (Service.isConnected s = true <-> Service.device s <> None) /\
  (Service.device s <> None ->
   answer (Service.sendCommand command) s = Ok {| Service.success := true |}) /\
  (Service.device s = None ->
   Service.sendCommand command s = (s, Throw "Device not connected")) /\
  (Service.batteryLevel (Service.getConnectionStatus s) = 85%Z <->
   Service.device s <> None).
Proof.
  intro H. destruct (reachable_serviceSound s H) as (C & _).
  destruct s as [dv [|] dd ls om mi ts nt co]; cbn in *;
    repeat split; intros; try reflexivity; try tauto; try discriminate;
    exfalso; intuition congruence.
Qed.

Lemma service_command_needs_device_witness :
  answer (Service.sendCommand "beep")
         (Service.run (Service.ConnectToDevice "DRISHTIKA_001") Service.new)
  = Ok {| Service.success := true |}.
Proof.
  apply (service_command_needs_device
           (Service.run (Service.ConnectToDevice "DRISHTIKA_001") Service.new) "beep").
  - exists [Service.ConnectToDevice "DRISHTIKA_001"]. reflexivity.
  - discriminate.
Defined.

Lemma Service_disconnect_eq (s : Service.t) :
  Service.disconnect s =
  (match Service.device s with
   | Some _ =>
       Service.mk None false (Service.distanceData s) (Service.listeners s)
         (Service.offlineMode s)
         (match Service.monitoringInterval s with Some _ => None | None => None end)
         (match Service.monitoringInterval s with
          | Some id => filter (fun t => negb (Nat.eqb t id)) (Service.timers s)
          | None => Service.timers s
          end)
         (Service.nextTimerId s) (Service.console s)
   | None => s
   end, Ok {| Service.success := true |}).
Proof.
  destruct s as [[d|] ic dd ls om [h|] ts nt co]; reflexivity.
Qed.

Lemma filter_fresh (ts : list nat) (n : nat) :
  (forall id, In id ts -> id < n) ->
  filter (fun t => negb (Nat.eqb t n)) (ts ++ [n]) = ts.
Proof.
  intro B. rewrite filter_app. cbn. rewrite Nat.eqb_refl. cbn. rewrite app_nil_r.
  induction ts as [|t ts IH]; [reflexivity|].
  cbn [filter]. assert (t < n) as L by (apply B; now left).
  apply Nat.lt_neq, Nat.eqb_neq in L. rewrite L. cbn [negb].
  f_equal. apply IH. intros id I. apply B. now right.
Qed.

(** X21.  [disconnect] of the earlier service never throws, always
    answers [{ success: true }] and is idempotent: a second call changes
    nothing at all.  From a state without a device, connecting and
    disconnecting brings back the timers there were; connecting twice
    before disconnecting does not: the sampling timer of the first
    connection is overwritten in [monitoringInterval] and stays with the
    runtime. *)
Theorem service_disconnect_round_trip (s : Service.t) (first second : string) :
  Service.reachable s ->
  let s0 := after Service.disconnect s in
  let once := after Service.disconnect (after (Service.connectToDevice first) s0) in
  let twice := after Service.disconnect
                 (after (Service.connectToDevice second)
                    (after (Service.connectToDevice first) s0)) in
  answer Service.disconnect s = Ok {| Service.success := true |} /\
  Service.disconnect s0 = (s0, Ok {| Service.success := true |}) /\
  Service.device once = None /\ Service.isConnected once = false /\
  Service.timers once = Service.timers s0 /\
  Service.device twice = None /\ Service.isConnected twice = false /\
  Service.timers twice = Service.timers s0 ++ [Service.nextTimerId s0].
Proof.
  intro H. cbv zeta.
  assert (serviceSound (after Service.disconnect s)) as (C & M & B).
  { apply (serviceSound_run Service.Disconnect), reachable_serviceSound, H. }
  unfold answer, after in *. rewrite !Service_disconnect_eq in *. cbn [fst snd] in *.
  remember (match Service.device s with Some _ => _ | None => s end) as s0 eqn:E0.
  assert (Service.device s0 = None) as D.
  { subst s0. destruct s as [[d|] ic dd ls om mi ts nt co]; reflexivity. }
  clear E0 H. destruct s0 as [dv ic dd ls om mi ts nt co]. cbn in *. subst dv.
  rewrite (M eq_refl). cbn.
  rewrite filter_fresh by exact B.
  repeat split; try reflexivity.
  rewrite <- (filter_fresh (ts ++ [nt]) (S nt)) at 2.
  - rewrite filter_app. cbn [filter]. rewrite Nat.eqb_refl. cbn [negb].
    now rewrite app_nil_r.
  - intros id I. apply in_app_iff in I. destruct I as [I|[<-|[]]]; [|lia].
    specialize (B _ I). lia.
Qed.

Lemma service_disconnect_round_trip_witness :
  Service.timers
    (after Service.disconnect
       (after (Service.connectToDevice "B")
          (after (Service.connectToDevice "A") (after Service.disconnect Service.new))))
  = [1].
Proof.
  apply (service_disconnect_round_trip Service.new "A" "B").
  exists []. reflexivity.
Defined.

Lemma beep_interval (d : Dist.t) :
  Service.interval
    (Service.getBeepPattern (Service.levelName (Legacy.analyzeDistanceData d))) =
  if Qltb (minDistance d) (1 # 2) then 100%Z
  else if Qltb (minDistance d) 1 then 250%Z
  else if Qltb (minDistance d) 2 then 500%Z
  else 1000%Z.
Proof.
  unfold Legacy.analyzeDistanceData, Legacy.DISTANCE_THRESHOLDS_CRITICAL,
    Legacy.DISTANCE_THRESHOLDS_DANGER, Legacy.DISTANCE_THRESHOLDS_WARNING.
  destruct (Qltb (minDistance d) (1 # 2)); [reflexivity|].
  destruct (Qltb (minDistance d) 1); [reflexivity|].
  destruct (Qltb (minDistance d) 2); reflexivity.
Qed.

Ltac Qltb_cases :=
  repeat match goal with
         | |- context [Qltb ?x ?y] =>
             let E := fresh "E" in
             destruct (Qltb x y) eqn:E;
             [apply Qltb_lt in E|apply Qltb_ge in E]
         end.

(** X22.  The nearer the obstacle, the faster the beep: the interval of
    the pattern [getBeepPattern] gives for the level of a sample never
    grows when the smallest distance shrinks, and it is 100 ms below 0.5,
    250 ms below 1, 500 ms below 2 and 1000 ms from 2 on. *)
Theorem beep_faster_when_nearer (d1 d2 : Dist.t) :
  (minDistance d1 <= minDistance d2)%Q ->
  let beep := fun d => Service.getBeepPattern
                         (Service.levelName (Legacy.analyzeDistanceData d)) in
  (Service.interval (beep d1) <= Service.interval (beep d2))%Z /\
  ((minDistance d1 < 1 # 2)%Q <-> Service.interval (beep d1) = 100%Z) /\
  ((1 # 2 <= minDistance d1 /\ minDistance d1 < 1)%Q <->
   Service.interval (beep d1) = 250%Z) /\
  ((1 <= minDistance d1 /\ minDistance d1 < 2)%Q <->
   Service.interval (beep d1) = 500%Z) /\
  ((2 <= minDistance d1)%Q <-> Service.interval (beep d1) = 1000%Z).
Proof.
  intro L. cbv beta zeta. rewrite !beep_interval.
  split.
  - Qltb_cases; try lia; exfalso; lra.
  - Qltb_cases; repeat split; intros; try discriminate; try reflexivity;
      try lra; exfalso;
      repeat match goal with H : _ /\ _ |- _ => destruct H end; lra.
Qed.

Lemma beep_faster_when_nearer_witness :
  (Service.interval
     (Service.getBeepPattern
        (Service.levelName (Legacy.analyzeDistanceData sample_03_2_2)))
   <= Service.interval
        (Service.getBeepPattern
           (Service.levelName (Legacy.analyzeDistanceData sample_1_1_1))))%Z.
Proof.
  apply (beep_faster_when_nearer sample_03_2_2 sample_1_1_1).
  vm_compute. discriminate.
Defined.

Lemma Qeq_bool_false (q : Q) : Qeq_bool q 0 = false -> ~ (q == 0)%Q.
Proof.
  intros H E. apply Qeq_bool_iff in E. congruence.
Qed.

(** X23.  [calibrateDevice] throws exactly when it is called without
    settings or with [null]: reading [settings.sensitivity] throws inside
    the [try], and the [catch] throws [Device calibration failed].  Called
    with an object it answers [success: true] and never hands out a zero: a
    sensitivity or a beep volume that is [undefined] or [0] is replaced by
    the default ([1.0], [0.8]), so the volume cannot be set to [0]; any
    other number is passed on as it is; a unit that is [undefined] or empty
    becomes [meters].  Either way device and timers of the service are
    left as they were. *)
Theorem calibration_never_zero
        (settings : option Service.Settings) (now : Z) (s : Service.t) :
  let r := answer (Service.calibrateDevice settings now) s in
  let s' := after (Service.calibrateDevice settings now) s in
  (settings = None <-> r = Throw "Device calibration failed") /\
  (forall given, settings = Some given ->
     exists k,
       r = Ok {| Service.k_success := true; Service.k_calibration := k |} /\
       ~ (Service.c_sensitivity k == 0)%Q /\
       ~ (Service.c_beepVolume k == 0)%Q /\
       Service.c_distanceUnit k <> "" /\
       Service.c_timestamp k = now /\
       (forall q, Service.sensitivity given = Some q -> ~ (q == 0)%Q ->
                  Service.c_sensitivity k = q) /\
       (forall q, Service.beepVolume given = Some q -> ~ (q == 0)%Q ->
                  Service.c_beepVolume k = q) /\
       (forall q, Service.beepVolume given = Some q -> (q == 0)%Q ->
                  Service.c_beepVolume k = (8 # 10)%Q)) /\
  Service.device s' = Service.device s /\
  Service.timers s' = Service.timers s /\
  Service.isConnected s' = Service.isConnected s.
Proof.
  cbv zeta. split; [|split].
  - destruct settings; cbn; split; intro H; try discriminate; reflexivity.
  - intros given ->. eexists. split; [reflexivity|]. cbn.
    destruct given as [[sq|] [bq|] [[|a u]|]]; cbn;
      unfold Service.numberOr;
      repeat match goal with
             | |- context [Qeq_bool ?q 0] => destruct (Qeq_bool q 0) eqn:?
             end;
      repeat split; intros;
      repeat match goal with
             | H : Some _ = Some _ |- _ => injection H as <-
             | H : Qeq_bool _ 0 = false |- _ => apply Qeq_bool_false in H
             | H : Qeq_bool _ 0 = true |- _ => apply Qeq_bool_iff in H
             end;
      try discriminate; try reflexivity; try contradiction; try lra;
      try (intro X; lra).
  - destruct settings; destruct s; repeat split; reflexivity.
Qed.

(** * [EnhancedHardwareScreen] *)

Lemma lastn_snoc {A} (n : nat) (l : list A) (e : A) :
  lastn (S n) (l ++ [e]) = lastn n l ++ [e].
Proof.
  unfold lastn. rewrite length_app. cbn [List.length].
  replace (List.length l + 1 - S n) with (List.length l - n) by lia.
  rewrite skipn_app.
  replace (List.length l - n - List.length l) with 0 by lia.
  reflexivity.
Qed.

Lemma lastn_lastn {A} (m n : nat) (l : list A) :
  m <= n -> lastn m (lastn n l) = lastn m l.
Proof.
  intro L. unfold lastn. rewrite length_skipn, skipn_skipn. f_equal. lia.
Qed.

(** X24.  The screen keeps the last five errors it was told of: each
    error is appended after the last four ([prev.slice(-4)]), so after any
    number of errors the list shows the five most recent ones, oldest
    first, and what is spoken for an error is the text of its type. *)
Theorem screen_keeps_last_five_errors
        (history errors : list ErrorRecord) (s : Screen.t) :
  Screen.errorLog s = lastn 5 history ->
  let s' := fold_left (fun s e => Screen.handleError e s) errors s in
  Screen.errorLog s' = lastn 5 (history ++ errors) /\
  List.length (Screen.errorLog s') <= 5 /\
  Screen.spoken s' =
    Screen.spoken s ++ map (fun e => Screen.errorMessages (err_type e)) errors /\
  Screen.buttons s' = Screen.buttons s.
Proof.
  revert history s. induction errors as [|e errors IH]; intros history s H; cbv zeta.
  - cbn [fold_left map]. rewrite !app_nil_r. rewrite H, lastn_length.
    repeat split; try reflexivity. lia.
  - cbn [fold_left map].
    destruct (IH (history ++ [e]) (Screen.handleError e s)) as (E & L & S & B).
    + destruct s as [st dv sc di fm fc el sp al]. cbn in *. subst el.
      change (skipn (List.length (lastn 5 history) - 4) (lastn 5 history))
        with (lastn 4 (lastn 5 history)).
      rewrite lastn_lastn by lia. symmetry. apply lastn_snoc.
    + rewrite <- app_assoc in E. cbn [app] in E.
      split; [exact E|]. split; [exact L|]. split.
      * rewrite S. destruct s. cbn. now rewrite <- app_assoc.
      * rewrite B. destruct s. reflexivity.
Qed.

Lemma screen_keeps_last_five_errors_witness :
  List.length
    (Screen.errorLog
       (fold_left (fun s e => Screen.handleError e s)
          (recordsOf fiftyOneErrors (newController 0)) Screen.initial)) <= 5.
Proof.
  apply (screen_keeps_last_five_errors [] (recordsOf fiftyOneErrors (newController 0))
           Screen.initial).
  reflexivity.
Defined.

Lemma skipn_length_app {A} (l r : list A) : skipn (List.length l) (l ++ r) = r.
Proof.
  rewrite skipn_app, skipn_all, Nat.sub_diag. reflexivity.
Qed.

(** X25.  A scan that finds the device leaves the screen without a
    button.  [handleScan] stores the device, but the [stateChange] it heard
    during the scan said [connecting] and nothing takes that back, and
    every button but [Disconnect] is drawn for [disconnected] only: neither
    [Connect], nor [Scan], nor [Use Fallback Mode], nor [Disconnect] is
    offered.  A scan that times out puts the screen back to [disconnected],
    where [Scan] is offered again, and adds the error to its list. *)
Theorem scan_found_leaves_no_button (d : Discovery) (c : Ctl) (s : Screen.t) :
  Screen.fallbackMode s = false ->
  let c' := fst (Screen.handleScan d c s) in
  let s' := snd (Screen.handleScan d c s) in
  (forall dev, (latency d <= 15000)%Z -> found d = Some dev ->
     Screen.device s' = Some dev /\
     Screen.connectionState s' = CONNECTING /\ connectionState c' = CONNECTING /\
     Screen.scanning s' = false /\
     Screen.buttons s' = []) /\
  ((15000 < latency d)%Z ->
     Screen.device s' = Screen.device s /\
     Screen.connectionState s' = DISCONNECTED /\ connectionState c' = DISCONNECTED /\
     In Screen.ScanForDevice (Screen.buttons s') /\
     Screen.alerts s' = Screen.alerts s ++ ["Device Not Found"] /\
     exists e, err_type e = DEVICE_NOT_FOUND /\
               Screen.errorLog s' = Screen.slice_last 4 (Screen.errorLog s) ++ [e]).
Proof.
  intro F. cbv zeta. unfold Screen.handleScan. cbv zeta. cbn [fst snd].
  unfold Screen.heard, Screen.during. split.
  - intros dev L D.
    destruct (scanForDevice_found d 15000 c dev L D) as (R & S & T & _).
    cbv zeta in S, T. rewrite R, S, T, skipn_length_app.
    destruct s as [st dv sc di fm fc el sp al]. cbn in F. subst fm.
    cbn. repeat split; reflexivity.
  - intros L.
    destruct (scanForDevice_timeout d 15000 c L) as (R & S & _ & T & _).
    cbv zeta in S, T. rewrite R, S, T, skipn_length_app.
    destruct s as [st dv sc di fm fc el sp al]. cbn in F. subst fm.
    cbn. repeat split; try reflexivity; [now left|].
    eexists. split; [|reflexivity]. reflexivity.
Qed.

Lemma scan_found_leaves_no_button_witness :
  Screen.buttons (snd (Screen.handleScan performScan (newController 0) Screen.initial))
  = [].
Proof.
  destruct (scan_found_leaves_no_button performScan (newController 0) Screen.initial
              eq_refl) as [W _].
  apply (W {| sd_id := "DRISHTIKA_001"; sd_name := "Drishtika Wearable";
              sd_rssi := -60; sd_batteryLevel := 85 |}).
  - vm_compute. discriminate.
  - reflexivity.
Defined.

(** X26.  [Exit Fallback Mode] exits it on the screen only:
    [handleDisconnect] clears the screen's flag and its device, and with
    the state [disconnected] it heard the screen offers [Scan] and
    [Use Fallback Mode] again; in the controller [disconnect] leaves
    [fallbackMode] set, so [isFallbackMode] still answers [true]. *)
Theorem exit_fallback_on_screen_only (c : Ctl) (s : Screen.t) :
  fallbackMode c = true ->
  let c' := fst (Screen.handleDisconnect c s) in
  let s' := snd (Screen.handleDisconnect c s) in
  Screen.fallbackMode s' = false /\
  Screen.connectionState s' = DISCONNECTED /\
  Screen.buttons s' = [Screen.ScanForDevice; Screen.UseFallbackMode] /\
  isFallbackMode c' = true /\
  connectionState c' = DISCONNECTED /\
  cs_fallbackMode (getConnectionStatus c') = true.
Proof.
  intro F. cbv zeta. unfold Screen.handleDisconnect. cbn [fst snd].
  unfold Screen.heard, Screen.during.
  destruct (disconnect_effect c) as (_ & S & _ & _ & _ & _ & _ & _ & _ & FM & T).
  cbv zeta in S, FM, T. rewrite T, skipn_length_app.
  unfold isFallbackMode, getConnectionStatus. cbn [cs_fallbackMode].
  rewrite FM, F, S.
  destruct s as [st dv sc di fm fc el sp al]. cbn. repeat split; reflexivity.
Qed.

Lemma exit_fallback_on_screen_only_witness :
  isFallbackMode (fst (Screen.handleDisconnect inFallback Screen.initial)) = true.
Proof.
  apply (exit_fallback_on_screen_only inFallback Screen.initial).
  vm_compute. reflexivity.
Defined.

(** * The paths the heartbeat and the awaits open *)



(** X28.  [disconnect] does not cancel a connection in progress: the loop
    of [connectToDevice] does not look at the state after its await, so an
    attempt that is established after a [disconnect] connects the
    controller all the same, with the device, a new heartbeat timer and a
    new sampling timer, although the last thing the application asked for
    was to disconnect. *)
Theorem disconnect_does_not_cancel_connecting
        (tr : Transport) (deviceId : string) (autoRetry : bool) (attempt : nat)
        (c : Ctl) :
  tr attempt = Established ->
  let c1 := runStep (Whole OpDisconnect) c in
  let c2 := runStep (Iteration tr deviceId autoRetry attempt) c1 in
  connectionState c1 = DISCONNECTED /\ device c1 = None /\
  connectionState c2 = CONNECTED /\
  device c2 = Some {| dev_id := deviceId; dev_name := "Drishtika" |} /\
  timers c2 = timers c1 ++ [healthTimer (nextTimerId c1);
                            samplingTimer (S (nextTimerId c1))] /\
  stateChanges (trace c2) = stateChanges (trace c) ++ [DISCONNECTED; CONNECTED] /\
  (interleaved c -> interleaved c2).
Proof.
  intro T. cbv zeta.
  assert (interleaved c ->
          interleaved (runStep (Iteration tr deviceId autoRetry attempt)
                               (runStep (Whole OpDisconnect) c))) as I.
  { intros (now & steps & ->).
    exists now, (steps ++ [Whole OpDisconnect; Iteration tr deviceId autoRetry attempt]).
    rewrite fold_left_app. reflexivity. }
  repeat (split; [|try exact I]); clear I.
  all: unfold runStep, run, call; rewrite exec_fmap;
    unfold exec; rewrite disconnect_disconnected; cbn [fst];
    rewrite ?connectLoop_S, ?T;
    destruct c as [st dv rc ht rt mi ld dd ls el fm pl ts nt ck tc co];
    try match goal with
        | |- context [try_catch ?m ?h ?s] =>
            let E := fresh "E" in
            eassert (E : try_catch m h s = _)
              by (unfold disconnected; run_method; reflexivity);
            rewrite E; clear E
        end;
    unfold disconnected; norm;
    rewrite ?stateChanges_app, <- ?app_assoc; reflexivity.
Qed.

Lemma disconnect_does_not_cancel_connecting_witness :
  connectionState
    (runStep (Iteration alwaysEstablishes "DRISHTIKA_001" true 1)
             (runStep (Whole OpDisconnect) inFlight)) = CONNECTED.
Proof.
  apply (disconnect_does_not_cancel_connecting alwaysEstablishes "DRISHTIKA_001"
           true 1 inFlight).
  reflexivity.
Defined.

(** * Subscribers of the earlier service *)

Lemma Service_notifyListeners_eq (event : string) (data : Payload) (s : Service.t) :
  Service.notifyListeners event data s =
  (Service.mk (Service.device s) (Service.isConnected s) (Service.distanceData s)
     (Service.listeners s) (Service.offlineMode s) (Service.monitoringInterval s)
     (Service.timers s) (Service.nextTimerId s)
     (Service.console s ++ complaint s event data),
   if nullish (outcome s event data) then Throw TYPE_ERROR else Ok tt).
Proof.
  unfold Service.notifyListeners, complaint, outcome, sbind, sget.
  destruct (Service.lookup event (Service.listeners s)) as [cb|].
  - destruct (cb data) as [[text| |]|]; destruct s; cbn; rewrite ?app_nil_r;
      reflexivity.
  - destruct s; cbn; rewrite ?app_nil_r; reflexivity.
Qed.

(** X29.  A sample of the earlier service and its subscribers:
    [updateDistanceData] stores the sample, notifies [distance] and,
    exactly when the smallest distance is below 2, [obstacle].  A
    subscriber that throws a value whose [message] can be read costs a
    line on the console and nothing else.  A subscriber that throws [null]
    or [undefined] is not contained: the [catch] of [notifyListeners]
    throws a [TypeError] reading [error.message], [updateDistanceData]
    throws it on, and when it was the subscriber of [distance] the
    notification of [obstacle] is not reached.  Device, connection flag,
    subscribers and timers are as they were in every case. *)
Theorem service_sample_and_subscribers (data : Dist.t) (s : Service.t) :
  let distance := PDistance data in
  let obstacle := PObstacle (Legacy.analyzeDistanceData data) (minDistance data)
                            (Legacy.getClosestDirection data) None in
  let stored := fun lines =>
    Service.mk (Service.device s) (Service.isConnected s) data
      (Service.listeners s) (Service.offlineMode s) (Service.monitoringInterval s)
      (Service.timers s) (Service.nextTimerId s) (Service.console s ++ lines) in
  Service.updateDistanceData data s =
  if nullish (outcome s "distance" distance)
  then (stored [], Throw TYPE_ERROR)
  else if Qltb (minDistance data) 2
       then (stored (complaint s "distance" distance ++ complaint s "obstacle" obstacle),
             if nullish (outcome s "obstacle" obstacle)
             then Throw TYPE_ERROR else Ok tt)
       else (stored (complaint s "distance" distance), Ok tt).
Proof.
  cbv zeta. unfold Service.updateDistanceData, sbind, smodify.
  rewrite Service_notifyListeners_eq.
  assert (isSafe (Legacy.analyzeDistanceData data) = negb (Qltb (minDistance data) 2)) as S.
  { change (Legacy.analyzeDistanceData data) with (analyzeDistanceData data).
    unfold analyzeDistanceData.
    destruct (Qltb (minDistance data) (1 # 2)) eqn:E1;
      destruct (Qltb (minDistance data) 1) eqn:E2;
      destruct (Qltb (minDistance data) 2) eqn:E3; try reflexivity;
      exfalso;
      repeat match goal with
             | E : Qltb _ _ = true |- _ => apply Qltb_lt in E
             | E : Qltb _ _ = false |- _ => apply Qltb_ge in E
             end; lra. }
  rewrite S. unfold complaint, outcome, sret. cbn [Service.listeners].
  destruct (Service.lookup "distance" (Service.listeners s)) as [cb|];
    [destruct (cb (PDistance data)) as [[text| |]|]|];
    cbn [nullish Service.console]; rewrite ?app_nil_r; try reflexivity;
    (destruct (Qltb (minDistance data) 2); cbn [negb]; [|reflexivity]);
    rewrite Service_notifyListeners_eq; unfold complaint, outcome;
    cbn [Service.console Service.device Service.isConnected
         Service.distanceData Service.listeners Service.offlineMode
         Service.monitoringInterval Service.timers Service.nextTimerId];
    rewrite <- ?app_assoc, ?app_nil_r; reflexivity.
Qed.

Lemma service_sample_and_subscribers_witness :
  answer (Service.updateDistanceData sample_03_2_2)
         (after (Service.onDistanceUpdate (fun _ => Some ThrownNullish)) Service.new)
  = Throw TYPE_ERROR.
Proof.
  unfold answer.
  rewrite (service_sample_and_subscribers sample_03_2_2
             (after (Service.onDistanceUpdate (fun _ => Some ThrownNullish))
                    Service.new)).
  reflexivity.
Defined.

(** ** The fallback sensors *)

Section Related.
Context {S : Type} (R : S -> S -> Prop).
Hypothesis R_refl : forall s, R s s.
Hypothesis R_trans : forall a b c, R a b -> R b c -> R a c.

Lemma sbind_related {A B} (m : St S A) (k : A -> St S B) :
  (forall s, R s (after m s)) -> (forall a s, R s (after (k a) s)) ->
  forall s, R s (after (sbind m k) s).
Proof.
  intros Hm Hk s. unfold after, sbind. specialize (Hm s). unfold after in Hm.
  destruct (m s) as [s1 [a|e]]; cbn in *; [|exact Hm].
  eapply R_trans; [exact Hm | apply Hk].
Qed.

Lemma stry_related {A} (m : St S A) (h : string -> St S A) :
  (forall s, R s (after m s)) -> (forall e s, R s (after (h e) s)) ->
  forall s, R s (after (stry m h) s).
Proof.
  intros Hm Hh s. unfold after, stry. specialize (Hm s). unfold after in Hm.
  destruct (m s) as [s1 [a|e]]; cbn in *; [exact Hm|].
  eapply R_trans; [exact Hm | apply Hh].
Qed.

Lemma sret_related {A} (a : A) : forall s, R s (after (sret a) s).
Proof. intros s. apply R_refl. Qed.

Lemma sthrow_related {A} (e : string) : forall s, R s (after (@sthrow S A e) s).
Proof. intros s. apply R_refl. Qed.

Lemma sget_related {A} (f : S -> A) : forall s, R s (after (sget f) s).
Proof. intros s. apply R_refl. Qed.

End Related.

(** Walks a method body down to the calls whose effect is known. *)
Ltac related :=
  repeat first
    [ assumption
    | match goal with H : forall s, ?R s (after ?m s) |- ?R _ (after ?m _) => apply H end
    | match goal with
      | H : forall A m, _ -> forall sr, _ |- _ (after (Sensors.onService _) _) =>
          apply H
      | H : forall f sr, _ |- _ (after (Sensors.setResults _) _) => apply H
      | H : forall l text s, _ |- _ (after (Sensors.log _ _) _) => apply H
      | H : forall f s, _ |- _ (after (Sensors.setCapabilities _) _) => apply H
      | H : forall A r s, _ |- _ (after (Sensors.await _) _) => apply H
      end
    | apply stry_related
    | apply sbind_related
    | apply sret_related
    | apply sthrow_related
    | apply sget_related
    | match goal with |- _ (after (if ?b then _ else _) _) => destruct b end
    | intro ].

Lemma stry_answers {S A} (m : St S A) (h : string -> St S A) (s : S) :
  (forall e s1, exists a, answer (h e) s1 = Ok a) ->
  exists a, answer (stry m h) s = Ok a.
Proof.
  intros Hh. unfold answer, stry. destruct (m s) as [s1 [a|e]]; cbn.
  - now exists a.
  - apply Hh.
Qed.

Lemma after_stry_sbind {S A B} (m : St S A) (k : A -> St S B)
    (h : string -> St S B) (s s1 : S) (a : A) :
  m s = (s1, Ok a) ->
  after (stry (sbind m k) h) s = after (stry (k a) h) s1.
Proof. intros E. unfold after, stry, sbind. rewrite E. reflexivity. Qed.

(** What the activation flags of the service are untouched by. *)
Lemma Sensors_initialize_flags (env : Sensors.Env) (s : Sensors.t) :
  Sensors.cameraActive (after (Sensors.initialize env) s) = Sensors.cameraActive s /\
  Sensors.microphoneActive (after (Sensors.initialize env) s)
  = Sensors.microphoneActive s.
Proof.
  revert s.
  set (R := fun a b : Sensors.t =>
              Sensors.cameraActive b = Sensors.cameraActive a /\
              Sensors.microphoneActive b = Sensors.microphoneActive a).
  assert (Rr : forall a, R a a) by (intros a; split; reflexivity).
  assert (Rt : forall a b c, R a b -> R b c -> R a c)
    by (intros a b c [? ?] [? ?]; split; congruence).
  assert (Hlog : forall l text s, R s (after (Sensors.log l text) s))
    by (intros l text s; split; reflexivity).
  assert (Hset : forall f s, R s (after (Sensors.setCapabilities f) s))
    by (intros f s; split; reflexivity).
  assert (Hawait : forall A (r : Res A) s, R s (after (Sensors.await r) s))
    by (intros A r s; split; reflexivity).
  assert (Hcam : forall s, R s (after (Sensors.checkCameraAvailable env) s))
    by (unfold Sensors.checkCameraAvailable; related).
  assert (Hmic : forall s, R s (after (Sensors.checkMicrophoneAvailable env) s))
    by (unfold Sensors.checkMicrophoneAvailable; related).
  assert (Hcheck : forall s, R s (after (Sensors.checkCapabilities env) s))
    by (unfold Sensors.checkCapabilities; related).
  assert (Hreq : forall s, R s (after (Sensors.requestPermissions env) s)).
  { intros s. unfold Sensors.requestPermissions.
    set (R2 := fun a b : Sensors.t * Sensors.Results => R (fst a) (fst b)).
    assert (R2r : forall a, R2 a a) by (intros a; apply Rr).
    assert (R2t : forall a b c, R2 a b -> R2 b c -> R2 a c)
      by (intros a b c; apply Rt).
    assert (Hon : forall A (m : St Sensors.t A),
               (forall s, R s (after m s)) ->
               forall sr, R2 sr (after (Sensors.onService m) sr)).
    { intros A m Hm [s0 r0]. unfold R2, after, Sensors.onService. cbn.
      specialize (Hm s0). unfold after in Hm.
      destruct (m s0) as [s1 a]; exact Hm. }
    assert (Hres : forall f sr, R2 sr (after (Sensors.setResults f) sr))
      by (intros f sr; apply Rr).
    match goal with
    | |- context [stry ?m ?h] =>
        assert (Hbody : forall sr, R2 sr (after (stry m h) sr)) by related
    end.
    exact (Hbody (s, _)). }
  unfold Sensors.initialize. related.
Qed.

Lemma Sensors_initialize_answers (env : Sensors.Env) (s : Sensors.t) :
  exists r, answer (Sensors.initialize env) s = Ok r.
Proof.
  unfold Sensors.initialize. apply stry_answers.
  intros e s1. eexists. reflexivity.
Qed.

(** Nothing but [activateMicrophone] switches the microphone on, and it is
    reached only past a camera that was switched on. *)
Lemma Sensors_activate_cases (env : Sensors.Env) (data : Screen.Capabilities)
    (s : Sensors.t) :
  Screen.camera data = true ->
  let s' := after (Sensors.activateForFallback env data) s in
  Sensors.cameraActive s' = true \/
  (Sensors.cameraActive s' = Sensors.cameraActive s /\
   Sensors.microphoneActive s' = Sensors.microphoneActive s).
Proof.
  intros Hc s'. subst s'.
  destruct (Sensors_initialize_flags env s) as [Fc Fm].
  destruct (Sensors_initialize_answers env s) as [r Hr].
  unfold after in Fc, Fm. unfold answer in Hr.
  destruct (Sensors.initialize env s) as [s1 a] eqn:E. cbn in Fc, Fm, Hr. subst a.
  unfold Sensors.activateForFallback.
  rewrite (after_stry_sbind _ _ _ _ _ _ E), Hc.
  rewrite <- Fc, <- Fm. clear E Fc Fm s r.
  destruct s1 as [ca ma pa da [kc km kl kd] con].
  destruct kc; [left | right; split; reflexivity].
  destruct (Screen.microphone data); [|reflexivity].
  destruct km; [|reflexivity].
  unfold after, stry, sbind, Sensors.activateMicrophone, Sensors.await,
    Sensors.activateCameraDepthEstimation, sget, smodify, sret, sthrow, Sensors.log.
  cbn. destruct (Sensors.setAudioModeAsync env) as [[]|e]; reflexivity.
Qed.

(** X30.  The microphone waits for the camera: when the screen activates
    the fallback sensors for a notification that asks for the camera, as
    the controller's always does, the microphone is on afterwards only if
    the camera is, provided that held before: a camera that the service
    finds unavailable ends the activation before the microphone is tried,
    whatever the microphone's permission. *)
Theorem microphone_waits_for_camera (env : Sensors.Env)
    (data : Screen.Capabilities) (s : Sensors.t) :
  Screen.camera data = true ->
  (Sensors.microphoneActive s = true -> Sensors.cameraActive s = true) ->
  Sensors.microphoneActive (after (Sensors.activateForFallback env data) s) = true ->
  Sensors.cameraActive (after (Sensors.activateForFallback env data) s) = true.
Proof.
  intros Hc Hinv Hm.
  destruct (Sensors_activate_cases env data s Hc) as [H | [Hcam Hmic]].
  - exact H.
  - rewrite Hcam. apply Hinv. rewrite <- Hmic. exact Hm.
Qed.

Lemma microphone_waits_for_camera_witness :
  Sensors.cameraActive
    (after (Sensors.activateForFallback
              {| Sensors.platformOS := android;
                 Sensors.modelName := None;
                 Sensors.getCameraPermissionsAsync := Ok Sensors.undetermined;
                 Sensors.requestCameraPermissionsAsync := Ok Sensors.granted;
                 Sensors.getPermissionsAsync := Ok Sensors.granted;
                 Sensors.requestPermissionsAsync := Ok Sensors.granted;
                 Sensors.setAudioModeAsync := Ok tt |}
              {| Screen.camera := true; Screen.microphone := true;
                 Screen.phoneLidar := false; Screen.gps := true;
                 Screen.sensors := true |})
           Sensors.new) = true.
Proof.
  apply microphone_waits_for_camera.
  - reflexivity.
  - vm_compute. intros H. exact H.
  - vm_compute. reflexivity.
Defined.
